(** * whitebox_tools/xarray_io.py: the raster header/body codec and the
      staging wrapper, embedded in Rocq.

    The development follows the Python module top to bottom.  Python
    objects are modelled by the data they carry:

    - [str] is [string]; the text handled here is ASCII, so a character is
      a 7-bit code and the classification functions below ([is_space],
      [is_linebreak], case mapping) are the ASCII fragments of the Python 3
      ones;
    - a [dict] is an insertion-ordered association list ([Dict]);
    - numpy scalars of floating kind are [spec_float] (IEEE-754 values,
      one NaN), those of integer kind are [Z] with the wrap-around of the
      width written out;
    - files live in a store mapping a path to its bytes; functions that
      touch files take the store and return the new one;
    - an exception is a value of [exn]; a function that may raise returns
      a [result]. *)

From Stdlib Require Import ZArith NArith List String Ascii Bool Lia.
From Stdlib Require Import Strings.Byte Floats.SpecFloat DecimalString DecimalPos DecimalN.
Import ListNotations.

Open Scope string_scope.
Open Scope Z_scope.

(** ** Python [str] methods (ASCII fragment) *)

Module PyStr.

Definition code (c : ascii) : N := N_of_ascii c.

Definition in_range (lo hi : N) (c : ascii) : bool :=
  ((lo <=? code c) && (code c <=? hi))%N.

(** [str.isspace] on one character: TAB, LF, VT, FF, CR, FS, GS, RS, US
    and the blank. *)
Definition is_space (c : ascii) : bool :=
  in_range 9 13 c || in_range 28 32 c.

(** The line boundaries of [str.splitlines]: LF, VT, FF, CR, FS, GS, RS
    (US is white space but no boundary). *)
Definition is_linebreak (c : ascii) : bool :=
  in_range 10 13 c || in_range 28 30 c.

Definition is_upper (c : ascii) : bool := in_range 65 90 c.
Definition is_lower (c : ascii) : bool := in_range 97 122 c.
Definition is_alpha (c : ascii) : bool := is_upper c || is_lower c.
Definition is_digit (c : ascii) : bool := in_range 48 57 c.

Definition lower_char (c : ascii) : ascii :=
  if is_upper c then ascii_of_N (code c + 32) else c.
Definition upper_char (c : ascii) : ascii :=
  if is_lower c then ascii_of_N (code c - 32) else c.

Fixpoint map (f : ascii -> ascii) (s : string) : string :=
  match s with
  | EmptyString => EmptyString
  | String c s' => String (f c) (map f s')
  end.

Fixpoint forallb (p : ascii -> bool) (s : string) : bool :=
  match s with
  | EmptyString => true
  | String c s' => p c && forallb p s'
  end.

Fixpoint existsb (p : ascii -> bool) (s : string) : bool :=
  match s with
  | EmptyString => false
  | String c s' => p c || existsb p s'
  end.

Definition is_empty (s : string) : bool :=
  match s with EmptyString => true | _ => false end.

(** [s.lower()], [s.upper()] *)
Definition lower : string -> string := map lower_char.
Definition upper : string -> string := map upper_char.

(** [s.title()]: a letter that follows a letter is lowered, any other
    letter is capitalised. *)
Fixpoint title_from (prev_cased : bool) (s : string) : string :=
  match s with
  | EmptyString => EmptyString
  | String c s' =>
      String (if prev_cased then lower_char c else upper_char c)
             (title_from (is_alpha c) s')
  end.
Definition title : string -> string := title_from false.

(** [s.lstrip()], [s.rstrip()], [s.strip()] *)
Fixpoint lstrip (s : string) : string :=
  match s with
  | EmptyString => EmptyString
  | String c s' => if is_space c then lstrip s' else s
  end.

Fixpoint rstrip (s : string) : string :=
  match s with
  | EmptyString => EmptyString
  | String c s' =>
      let r := rstrip s' in
      if is_space c && is_empty r then EmptyString else String c r
  end.

Definition strip (s : string) : string := rstrip (lstrip s).

Definition cons_word (w : string) (ws : list string) : list string :=
  if is_empty w then ws else w :: ws.

(** [s.split()]: the maximal runs of characters that are not white space.
    [words_from s] is the word that starts at the head of [s] (empty when
    [s] starts with white space) and the words after it. *)
Fixpoint words_from (s : string) : string * list string :=
  match s with
  | EmptyString => (EmptyString, [])
  | String c s' =>
      let (w, ws) := words_from s' in
      if is_space c then (EmptyString, cons_word w ws) else (String c w, ws)
  end.
Definition split_ws (s : string) : list string :=
  let (w, ws) := words_from s in cons_word w ws.

(** [sep.join(l)] *)
Definition join (sep : string) (l : list string) : string := String.concat sep l.

(** [s.split(sep)] for a non-empty separator: scan from the left, cut at
    each occurrence, continue after it.  [skip] counts the characters of a
    separator that are still to be passed over. *)
Fixpoint split_from (sep : string) (skip : nat) (s : string)
  : string * list string :=
  match s with
  | EmptyString => (EmptyString, [])
  | String c s' =>
      match skip with
      | S k => split_from sep k s'
      | O =>
          if prefix sep s then
            let (w, ws) := split_from sep (Nat.pred (String.length sep)) s' in
            (EmptyString, w :: ws)
          else
            let (w, ws) := split_from sep 0 s' in (String c w, ws)
      end
  end.
Definition split (sep s : string) : list string :=
  let (w, ws) := split_from sep 0 s in w :: ws.

(** [s.replace(old, new)] for a non-empty [old] *)
Fixpoint replace_from (old new : string) (skip : nat) (s : string) : string :=
  match s with
  | EmptyString => EmptyString
  | String c s' =>
      match skip with
      | S k => replace_from old new k s'
      | O =>
          if prefix old s then
            new ++ replace_from old new (Nat.pred (String.length old)) s'
          else String c (replace_from old new 0 s')
      end
  end.
Definition replace (old new s : string) : string := replace_from old new 0 s.

(** [s.splitlines()]; CR LF is one boundary. *)
Fixpoint splitlines_from (skip_lf : bool) (s : string) : list string :=
  match s with
  | EmptyString => []
  | String c s' =>
      if skip_lf && Ascii.eqb c "010" then splitlines_from false s'
      else if is_linebreak c then
        EmptyString :: splitlines_from (Ascii.eqb c "013") s'
      else
        match splitlines_from false s' with
        | [] => [String c EmptyString]
        | l :: ls => String c l :: ls
        end
  end.
Definition splitlines : string -> list string := splitlines_from false.

(** [sub in s] *)
Fixpoint contains (sub s : string) : bool :=
  prefix sub s ||
  match s with
  | EmptyString => false
  | String _ s' => contains sub s'
  end.

(** [s.endswith(suf)] *)
Definition endswith (suf s : string) : bool :=
  (String.length suf <=? String.length s)%nat &&
  String.eqb (substring (String.length s - String.length suf)
                        (String.length suf) s) suf.

(** [s[:-n]] *)
Definition drop_last (n : nat) (s : string) : string :=
  substring 0 (String.length s - n) s.

End PyStr.

Definition NL : string := String "010" EmptyString.

(** ** Exceptions and results *)

(** One constructor per raise site of the module and per builtin failure
    the module can run into; [exn_class] gives the Python class. *)
Inductive exn : Type :=
| MissingKeys (missing : list string)   (* ValueError, case_insensitive_attrs *)
| BadDataScale (data_scale : string)    (* ValueError, case_insensitive_attrs *)
| RgbNotHandled                         (* NotImplementedError, case_insensitive_attrs *)
| Not2D                                 (* NotImplementedError, not_2d_error *)
| NoSuchDep (path : string)             (* ValueError, from_dep *)
| NoSuchTas (path : string)             (* ValueError, from_dep *)
| DatasetAsInput                        (* ValueError, xarray_whitebox_io *)
| BadInt (text : string)                (* ValueError raised by int() *)
| BadFloat (text : string)              (* ValueError raised by float() *)
| NegativeDimensions                    (* ValueError raised by ndarray.resize *)
| TypeError (what : string)
| KeyError (key : string)
| AttributeError (what : string)
| FileNotFoundError (path : string)
| StructError (what : string).          (* struct.error *)

Inductive pyclass : Type :=
| ValueError_ | NotImplementedError_ | TypeError_ | KeyError_
| AttributeError_ | FileNotFoundError_ | StructError_.

Definition exn_class (e : exn) : pyclass :=
  match e with
  | MissingKeys _ | BadDataScale _ | NoSuchDep _ | NoSuchTas _
  | DatasetAsInput | BadInt _ | BadFloat _ | NegativeDimensions => ValueError_
  | RgbNotHandled | Not2D => NotImplementedError_
  | TypeError _ => TypeError_
  | KeyError _ => KeyError_
  | AttributeError _ => AttributeError_
  | FileNotFoundError _ => FileNotFoundError_
  | StructError _ => StructError_
  end.

Inductive result (A : Type) : Type :=
| Ok (a : A)
| Raise (e : exn).
Arguments Ok {A} a.
Arguments Raise {A} e.

Definition bind {A B : Type} (r : result A) (k : A -> result B) : result B :=
  match r with
  | Ok a => k a
  | Raise e => Raise e
  end.

Notation "'do' x <- r ; k" := (bind r (fun x => k))
  (at level 10, x pattern, r at level 100, k at level 200).

Definition is_ok {A : Type} (r : result A) : bool :=
  match r with Ok _ => true | Raise _ => false end.

(** ** Python [dict]: insertion-ordered, one entry per key *)

Class EqKey (K : Type) : Type := {
  keqb : K -> K -> bool
}.

#[export] Instance EqKey_string : EqKey string :=
  {| keqb := String.eqb |}.

#[export] Instance EqKey_pair : EqKey (string * string) :=
  {| keqb := fun a b => (String.eqb (fst a) (fst b) && String.eqb (snd a) (snd b))%bool |}.

Module Dict.
Section Ops.
Context {K V : Type} `{EqKey K}.

Definition t : Type := list (K * V).

(** [d.get(k)] *)
Fixpoint get (k : K) (d : t) : option V :=
  match d with
  | [] => None
  | (k', v) :: d' => if keqb k' k then Some v else get k d'
  end.

(** [k in d] *)
Definition mem (k : K) (d : t) : bool :=
  match get k d with Some _ => true | None => false end.

(** [d[k] = v]: an existing key keeps its place *)
Fixpoint set (k : K) (v : V) (d : t) : t :=
  match d with
  | [] => [(k, v)]
  | (k', v') :: d' =>
      if keqb k' k then (k', v) :: d' else (k', v') :: set k v d'
  end.

(** [del d[k]] *)
Fixpoint remove (k : K) (d : t) : t :=
  match d with
  | [] => []
  | (k', v') :: d' => if keqb k' k then d' else (k', v') :: remove k d'
  end.

Definition keys (d : t) : list K := List.map fst d.
Definition values (d : t) : list V := List.map snd d.
End Ops.
Arguments t : clear implicits.
End Dict.

(** ** Python values found in attribute mappings *)

Inductive pyval : Type :=
| VNone
| VBool (b : bool)
| VInt (z : Z)
| VFloat (f : spec_float)
| VStr (s : string).

(** [float(z)] for an [int]: rounded to binary64 *)
Definition float_of_Z (z : Z) : spec_float := binary_normalize 53 1024 z 0 false.

(** [str(z)] for an [int] *)
Definition Z_to_string (z : Z) : string :=
  match z with
  | Z0 => "0"
  | Zpos p => NilEmpty.string_of_uint (Pos.to_uint p)
  | Zneg p => String "-" (NilEmpty.string_of_uint (Pos.to_uint p))
  end.

(** Truth value of an object, as [or] and [if] take it *)
Definition truthy (v : pyval) : bool :=
  match v with
  | VNone => false
  | VBool b => b
  | VInt z => negb (z =? 0)
  | VFloat f => negb (SFeqb f (S754_zero false))
  | VStr s => negb (PyStr.is_empty s)
  end.

(** ** The builtins [int(text)] and [float(text)] *)

Module Parse.

(** Underscores are accepted only between two digits; the text without
    them, or [None]. *)
Fixpoint drop_underscores (prev_digit : bool) (s : string) : option string :=
  match s with
  | EmptyString => Some EmptyString
  | String c s' =>
      if Ascii.eqb c "_" then
        if prev_digit && match s' with
                         | String d _ => PyStr.is_digit d
                         | EmptyString => false
                         end
        then drop_underscores false s'
        else None
      else option_map (String c) (drop_underscores (PyStr.is_digit c) s')
  end.

(** The value of a run of decimal digits (0 for the empty run) *)
Definition digits_value (s : string) : option N :=
  option_map N.of_uint (NilEmpty.uint_of_string s).

Definition split_sign (s : string) : bool * string :=
  match s with
  | String "-" r => (true, r)
  | String "+" r => (false, r)
  | _ => (false, s)
  end.

(** [int(text)], base 10 *)
Definition py_int (text : string) : option Z :=
  let (neg, body) := split_sign (PyStr.strip text) in
  match drop_underscores false body with
  | Some ds =>
      if PyStr.is_empty ds then None
      else option_map (fun n => if neg then Z.opp (Z.of_N n) else Z.of_N n)
                      (digits_value ds)
  | None => None
  end.

(** The longest prefix of digits, and what follows it *)
Fixpoint span_digits (s : string) : string * string :=
  match s with
  | EmptyString => (EmptyString, EmptyString)
  | String c s' =>
      if PyStr.is_digit c then
        let (ds, rest) := span_digits s' in (String c ds, rest)
      else (EmptyString, s)
  end.

(** The binary64 value nearest to [(-1)^neg * m * 10^e] (ties to even) *)
Definition decimal_to_float (neg : bool) (m : N) (e : Z) : spec_float :=
  match m with
  | N0 => S754_zero neg
  | Npos p =>
      if 0 <=? e then
        binary_normalize 53 1024 (cond_Zopp neg (Zpos p * 10 ^ e)) 0 false
      else
        SFdiv 53 1024 (S754_finite neg p 0)
                      (S754_finite false (Z.to_pos (10 ^ (- e))) 0)
  end.

(** The exponent part: empty, or [e]/[E], an optional sign and digits *)
Definition parse_exponent (s : string) : option Z :=
  match s with
  | EmptyString => Some 0
  | String c r =>
      if Ascii.eqb c "e" || Ascii.eqb c "E" then
        let (neg, ds) := split_sign r in
        if PyStr.is_empty ds then None
        else option_map (fun n => if neg then Z.opp (Z.of_N n) else Z.of_N n)
                        (digits_value ds)
      else None
  end.

(** digits [. digits] [exponent], with a digit on one side of the point *)
Definition parse_decimal (neg : bool) (s : string) : option spec_float :=
  let (ip, r1) := span_digits s in
  let (fp, r2) := match r1 with
                  | String "." r => span_digits r
                  | _ => (EmptyString, r1)
                  end in
  if PyStr.is_empty ip && PyStr.is_empty fp then None
  else
    match digits_value (ip ++ fp), parse_exponent r2 with
    | Some m, Some e =>
        Some (decimal_to_float neg m (e - Z.of_nat (String.length fp)))
    | _, _ => None
    end.

(** [float(text)] *)
Definition py_float (text : string) : option spec_float :=
  match drop_underscores false (PyStr.strip text) with
  | None => None
  | Some t =>
      let (neg, body) := split_sign t in
      let low := PyStr.lower body in
      if String.eqb low "inf" || String.eqb low "infinity" then
        Some (S754_infinity neg)
      else if String.eqb low "nan" then Some S754_nan
      else parse_decimal neg body
  end.

End Parse.

(** ** numpy arrays *)

Inductive endian : Type := LittleEndian | BigEndian.

Inductive int_width : Type := I16 | I32 | I64.
Inductive float_width : Type := F32 | F64.

Inductive np_dtype : Type :=
| DInt (w : int_width)
| DFloat (w : float_width).

(** [dtype.name] *)
Definition dtype_name (d : np_dtype) : string :=
  match d with
  | DInt I16 => "int16"
  | DInt I32 => "int32"
  | DInt I64 => "int64"
  | DFloat F32 => "float32"
  | DFloat F64 => "float64"
  end.

Definition int_bits (w : int_width) : Z :=
  match w with I16 => 16 | I32 => 32 | I64 => 64 end.

Definition float_prec (w : float_width) : Z :=
  match w with F32 => 24 | F64 => 53 end.
Definition float_emax (w : float_width) : Z :=
  match w with F32 => 128 | F64 => 1024 end.

Definition itemsize (d : np_dtype) : nat :=
  match d with
  | DInt I16 => 2
  | DInt I32 | DFloat F32 => 4
  | DInt I64 | DFloat F64 => 8
  end.

(** An array is its element type, its shape and its elements in row-major
    order; an array of [shape] holds [fold_right mul 1 shape] elements. *)
Inductive ndarray : Type :=
| IntArray (w : int_width) (shape : list nat) (data : list Z)
| FloatArray (w : float_width) (shape : list nat) (data : list spec_float).

Definition nd_dtype (a : ndarray) : np_dtype :=
  match a with
  | IntArray w _ _ => DInt w
  | FloatArray w _ _ => DFloat w
  end.

Definition nd_shape (a : ndarray) : list nat :=
  match a with
  | IntArray _ sh _ | FloatArray _ sh _ => sh
  end.

Definition nd_ndim (a : ndarray) : nat := List.length (nd_shape a).

Definition nd_size (a : ndarray) : nat :=
  match a with
  | IntArray _ _ l => List.length l
  | FloatArray _ _ l => List.length l
  end.

(** Two's-complement wrap-around to [bits] bits *)
Definition wrap (bits : Z) (z : Z) : Z :=
  (z + 2 ^ (bits - 1)) mod 2 ^ bits - 2 ^ (bits - 1).

(** Rounding of a floating value to a format (ties to even) *)
Definition round_float (w : float_width) (f : spec_float) : spec_float :=
  match f with
  | S754_finite s m e => binary_round (float_prec w) (float_emax w) s m e
  | _ => f
  end.

Definition float_of_int (w : float_width) (z : Z) : spec_float :=
  binary_normalize (float_prec w) (float_emax w) z 0 false.

(** The integer part of a floating value, towards zero (0 for the values
    that have none) *)
Definition trunc_float (f : spec_float) : Z :=
  match f with
  | S754_finite s m e =>
      cond_Zopp s (if 0 <=? e then Zpos m * 2 ^ e else Zpos m / 2 ^ (- e))
  | _ => 0
  end.

(** [a.astype(d)].  The module only casts an integer array to an integer
    type and a floating array to a floating type; the two mixed cases are
    here for totality. *)
Definition astype (d : np_dtype) (a : ndarray) : ndarray :=
  match d, a with
  | DInt w', IntArray _ sh l => IntArray w' sh (List.map (wrap (int_bits w')) l)
  | DFloat w', FloatArray _ sh l => FloatArray w' sh (List.map (round_float w') l)
  | DFloat w', IntArray _ sh l => FloatArray w' sh (List.map (float_of_int w') l)
  | DInt w', FloatArray _ sh l =>
      IntArray w' sh (List.map (fun f => wrap (int_bits w') (trunc_float f)) l)
  end.

(** *** Fixed-width samples as bytes *)

Definition byte_of_Z (z : Z) : byte :=
  match Byte.of_N (Z.to_N (z mod 256)) with
  | Some b => b
  | None => x00
  end.

Definition Z_of_byte (b : byte) : Z := Z.of_N (Byte.to_N b).

(** The [n] low bytes of [w], least significant first *)
Fixpoint le_bytes (n : nat) (w : Z) : list byte :=
  match n with
  | O => []
  | S n' => byte_of_Z w :: le_bytes n' (w / 256)
  end.

Fixpoint le_value (bs : list byte) : Z :=
  match bs with
  | [] => 0
  | b :: bs' => Z_of_byte b + 256 * le_value bs'
  end.

Definition word_bytes (o : endian) (n : nat) (w : Z) : list byte :=
  match o with
  | LittleEndian => le_bytes n w
  | BigEndian => List.rev (le_bytes n w)
  end.

Definition word_value (o : endian) (bs : list byte) : Z :=
  match o with
  | LittleEndian => le_value bs
  | BigEndian => le_value (List.rev bs)
  end.

(** The interchange encoding of a value of a format: sign, biased
    exponent, fraction.  [mant_bits] and [exp_bits] are the widths of the
    last two; a finite [m * 2^e] of the format has biased exponent
    [e - emin] when [m] has no leading one to hide, one more when it has,
    and the sum below covers both cases. *)
Definition mant_bits (w : float_width) : Z := float_prec w - 1.
Definition exp_bits (w : float_width) : Z :=
  match w with F32 => 8 | F64 => 11 end.
Definition float_emin (w : float_width) : Z := emin (float_prec w) (float_emax w).

Definition float_bits (w : float_width) (f : spec_float) : Z :=
  let sign (s : bool) := if s then 2 ^ (mant_bits w + exp_bits w) else 0 in
  let all_ones := 2 ^ exp_bits w - 1 in
  match f with
  | S754_zero s => sign s
  | S754_infinity s => sign s + all_ones * 2 ^ mant_bits w
  | S754_nan => all_ones * 2 ^ mant_bits w + 2 ^ (mant_bits w - 1)
  | S754_finite s m e => sign s + (e - float_emin w) * 2 ^ mant_bits w + Zpos m
  end.

Definition float_of_bits (w : float_width) (x : Z) : spec_float :=
  let s := Z.testbit x (mant_bits w + exp_bits w) in
  let ex := (x / 2 ^ mant_bits w) mod 2 ^ exp_bits w in
  let mant := x mod 2 ^ mant_bits w in
  if ex =? 0 then
    match mant with
    | Zpos m => S754_finite s m (float_emin w)
    | _ => S754_zero s
    end
  else if ex =? 2 ^ exp_bits w - 1 then
    if mant =? 0 then S754_infinity s else S754_nan
  else
    match mant + 2 ^ mant_bits w with
    | Zpos m => S754_finite s m (ex - 1 + float_emin w)
    | _ => S754_nan
    end.

(** Split a byte string into items of [n] bytes; an incomplete last item is
    dropped, as [numpy.fromfile] does. *)
Fixpoint chunks (fuel n : nat) (bs : list byte) : list (list byte) :=
  match fuel with
  | O => []
  | S fuel' =>
      if (n <=? List.length bs)%nat && (0 <? n)%nat then
        firstn n bs :: chunks fuel' n (skipn n bs)
      else []
  end.

(** ** Records of the xarray layer and the file store *)

Definition attrs_t : Type := Dict.t string pyval.

(** [xr.DataArray]: a grid, its named coordinate axes, its dimension names
    and its attributes.  The entry [attrs['filename']] that [from_dep] adds
    is the field [filename]: its key is lower-case, the keys read from a
    header are title-cased, so it shadows none of them. *)
Record DataArray : Type := {
  values : ndarray;
  coords : list (string * list spec_float);
  dims : list string;
  attrs : attrs_t;
  filename : option (string * string)
}.

(** [xr.Dataset]: named data variables and attributes *)
Record Dataset : Type := {
  data_vars : Dict.t string DataArray;
  ds_attrs : attrs_t
}.

(** The files: a path and the bytes stored under it *)
Definition store : Type := Dict.t string (list byte).

Definition exists_ (fs : store) (path : string) : bool := Dict.mem path fs.

(** ** Module constants *)

Definition INPUT_ARGS : list string := ["input"; "inputs"; "i"; "pour_pts"; "d8_pntr"].
Definition OUTPUT_ARGS : list string := ["output"; "outputs"; "o"].

Definition DEP_TEMPLATE : string :=
"Min:  {min}
Max:    {max}
North:  {north}
South:  {south}
East:   {east}
West:   {west}
Cols:   {cols}
Rows:   {rows}
Stacks: {stacks}
Data Type:  {dtype}
Z Units:    {z_units}
Xy Units:   {xy_units}
Projection: {projection}
Data Scale: {data_scale}
Display Min:    {display_min}
Display Max:    {display_max}
Preferred Palette:  {preferred_palette}
Palette Nonlinearity: {palette_nonlinearity}
Nodata: {nodata}
Byte Order: {byte_order}
{metadata_entry}".

Definition DEP_KEYS : list string :=
  List.map (fun x => PyStr.strip (hd EmptyString (PyStr.split ":" x)))
           (List.filter (PyStr.contains ":") (PyStr.splitlines DEP_TEMPLATE)).

Definition DTYPES : Dict.t string string := [("float", "f4"); ("integer", "i2")].
Definition ENDIAN : Dict.t string string := [("LITTLE_ENDIAN", "<"); ("BIG_ENDIAN", ">")].

Definition OK_DATA_SCALES : list string := ["continuous"; "categorical"; "Boolean"; "rgb"].

Definition OPTIONAL_DEP_FIELDS : list string :=
  ["display_min"; "display_max"; "metadata_entry"; "projection";
   "preferred_palette"; "palette_nonlinearity"; "byte_order"; "nodata"].
Definition REQUIRED_DEP_FIELDS : list string :=
  ["max"; "min"; "north"; "south"; "east"; "west";
   "cols"; "rows"; "dtype"; "z_units"; "xy_units"; "data_scale"].
Definition FLOAT_DEP_FIELDS : list string :=
  ["Min"; "Max"; "North"; "South"; "East"; "West"; "Display Min"; "Display Max"].
Definition INT_DEP_FIELDS : list string := ["Cols"; "Rows"; "Stacks"].
Definition UPPER_STR_FIELDS : list string := ["Data Type"; "Byte Order"].

(** [x in l] for a list of strings *)
Definition str_in (x : string) (l : list string) : bool :=
  List.existsb (String.eqb x) l.

(** [DTYPES[k]], [ENDIAN[k]] for keys that are present *)
Definition lookup_const (k : string) (d : Dict.t string string) : string :=
  match Dict.get k d with Some v => v | None => EmptyString end.

(** ** [str.format] with named fields *)

Inductive segment : Type :=
| Lit (text : string)
| Field (name : string).

Fixpoint scan_template (in_field : bool) (acc : string) (s : string) : list segment :=
  match s with
  | EmptyString => if PyStr.is_empty acc then [] else [Lit acc]
  | String c s' =>
      if in_field then
        if Ascii.eqb c "}" then Field acc :: scan_template false EmptyString s'
        else scan_template true (acc ++ String c EmptyString) s'
      else
        if Ascii.eqb c "{" then
          ((if PyStr.is_empty acc then [] else [Lit acc]) ++ scan_template true EmptyString s')%list
        else scan_template false (acc ++ String c EmptyString) s'
  end.

Definition parse_template (s : string) : list segment :=
  scan_template false EmptyString s.

(** ** The functions of the module *)

Section Host.

(** What the module takes from its surroundings: the byte order of the
    machine ([struct.pack] without a prefix and [numpy.fromfile] without one
    use it), [str] of a [float], [numpy.linspace],
    [os.path.abspath(os.path.join(os.curdir, p))], and the directory named by
    the environment.

    Two more come from xarray.  [getattr(v, k)] on a [Dataset] [v] is the
    variable named [k] only when the class defines no attribute of that
    name; when it does ([attrs], [dims], [values], [mean], ...), [getattr]
    gives that attribute, which is no array, and [data_array_to_dep] fails
    on it in its first two lines, at [arr.values] or at [val.dtype]:
    [dataset_attribute k] is [None] in the first case and names the
    attribute that is not found in the second.  [xr.Dataset(data_arrs)]
    builds a collection from named arrays, which it puts on common
    coordinates (or refuses): [xr_Dataset]. *)
Variable native : endian.
Variable float_repr : spec_float -> string.
Variable np_linspace : spec_float -> spec_float -> nat -> list spec_float.
Variable abspath : string -> string.
Variable WHITEBOX_TEMP_DIR : string.
Variable dataset_attribute : string -> option string.
Variable xr_Dataset : Dict.t string DataArray -> result (Dict.t string DataArray).

(** [str(v)], which is what [format] puts in place of a field *)
Definition py_str (v : pyval) : string :=
  match v with
  | VNone => "None"
  | VBool b => if b then "True" else "False"
  | VInt z => Z_to_string z
  | VFloat f => float_repr f
  | VStr s => s
  end.

Fixpoint format_segments (segs : list segment) (d : attrs_t) : result string :=
  match segs with
  | [] => Ok EmptyString
  | Lit t :: segs' =>
      do r <- format_segments segs' d; Ok (t ++ r)
  | Field k :: segs' =>
      match Dict.get k d with
      | None => Raise (KeyError k)
      | Some v => do r <- format_segments segs' d; Ok (py_str v ++ r)
      end
  end.

(** [template.format] applied to the entries of [d] *)
Definition format (template : string) (d : attrs_t) : result string :=
  format_segments (parse_template template) d.

Definition _lower_key (k : string) : string :=
  PyStr.join "_" (PyStr.split_ws (PyStr.lower k)).

(** [a == v] for one sample [x] of a floating array of width [w] and a
    Python scalar [v].  A [bool] and an [int] that fits 64 bits take the
    type of the array; a larger [int] is compared as a Python object, and
    Python compares a [float] with an [int] exactly.  A [float] takes the
    type of the array when its magnitude is below 3.4e38 (numpy's test for
    "fits a float32"); otherwise the array is taken to binary64 and
    compared there.  A string or [None] equals no number. *)
Definition fits_float32 : spec_float :=
  Eval vm_compute in
    match Parse.py_float "3.4e38" with Some f => f | None => S754_nan end.

Definition fits_64_bits (z : Z) : bool := (- 2 ^ 63 <=? z) && (z <? 2 ^ 64).

(** [x == z] for a Python [float] and a Python [int]: nothing is rounded *)
Definition float_is_int (x : spec_float) (z : Z) : bool :=
  match x with
  | S754_zero _ => z =? 0
  | S754_finite s m e =>
      if 0 <=? e then cond_Zopp s (Zpos m * 2 ^ e) =? z
      else cond_Zopp s (Zpos m) =? z * 2 ^ (- e)
  | _ => false
  end.

Definition sample_eq (w : float_width) (v : pyval) (x : spec_float) : bool :=
  match v with
  | VNone | VStr _ => false
  | VBool b => SFeqb x (float_of_int w (if b then 1 else 0))
  | VInt z =>
      if fits_64_bits z then SFeqb x (float_of_int w z) else float_is_int x z
  | VFloat f =>
      match w with
      | F32 =>
          if SFltb (SFabs f) fits_float32 then SFeqb x (round_float F32 f)
          else SFeqb (round_float F64 x) f
      | F64 => SFeqb x f
      end
  end.

(** [vals[vals == no_data] = np.NaN].  [_assign_nodata] widens an integer
    array before it comes here, so only a floating array is ever masked. *)
Definition mask_nodata (no_data : pyval) (vals : ndarray) : ndarray :=
  match vals with
  | FloatArray w sh l =>
      FloatArray w sh
        (List.map (fun x => if sample_eq w no_data x then S754_nan else x) l)
  | IntArray _ _ _ => vals
  end.

Definition set_values (arr : DataArray) (v : ndarray) : DataArray :=
  {| values := v; coords := coords arr; dims := dims arr;
     attrs := attrs arr; filename := filename arr |}.

Definition _assign_nodata (arr : DataArray) (no_data : pyval) : DataArray :=
  let arr :=
    if PyStr.contains "int" (dtype_name (nd_dtype (values arr)))
    then set_values arr (astype (DFloat F64) (values arr))
    else arr in
  set_values arr (mask_nodata no_data (values arr)).

Definition assign_nodata (dset_or_arr : Dataset + DataArray) (dep : attrs_t)
  : Dataset + DataArray :=
  match Dict.get "Nodata" dep with
  | None | Some VNone => dset_or_arr
  | Some no_data =>
      match dset_or_arr with
      | inl dset =>
          inl {| data_vars :=
                   List.map (fun kv => (fst kv, _assign_nodata (snd kv) no_data))
                            (data_vars dset);
                 ds_attrs := ds_attrs dset |}
      | inr arr => inr (_assign_nodata arr no_data)
      end
  end.

Definition copy_key (dst src : string) (d : attrs_t) : attrs_t :=
  match Dict.get src d with
  | Some v => if Dict.mem dst d then d else Dict.set dst v d
  | None => d
  end.

Definition case_insensitive_attrs (attrs : attrs_t) (typ : string) : result attrs_t :=
  let lower : attrs_t :=
    fold_left (fun acc kv => Dict.set (_lower_key (fst kv)) (snd kv) acc)
              attrs [("dtype", VStr typ)] in
  let lower := copy_key "xy_units" "units" lower in
  let lower := copy_key "z_units" "units" lower in
  let lower :=
    if negb (Dict.mem "preferred_palette" lower)
    then Dict.set "palette_nonlinearity" (VStr "high_relief.pal") lower
    else lower in
  let lower :=
    if negb (Dict.mem "palette_nonlinearity" lower)
    then Dict.set "palette_nonlinearity" (VFloat (float_of_Z 1)) lower
    else lower in
  let missing := List.filter (fun k => negb (Dict.mem k lower)) REQUIRED_DEP_FIELDS in
  match missing with
  | _ :: _ => Raise (MissingKeys missing)
  | [] =>
      let lower :=
        fold_left (fun acc k => if Dict.mem k acc then acc
                                else Dict.set k (VStr EmptyString) acc)
                  OPTIONAL_DEP_FIELDS lower in
      let given :=
        match Dict.get "data_scale" lower with
        | Some v => if truthy v then v else VStr EmptyString
        | None => VStr EmptyString
        end in
      match given with
      | VStr s =>
          let data_scale := PyStr.lower s in
          if negb (str_in data_scale OK_DATA_SCALES) then Raise (BadDataScale data_scale)
          else if String.eqb data_scale "rgb" then Raise RgbNotHandled
          else Ok lower
      | _ => Raise (AttributeError "lower")
      end
  end.

Definition fix_path (path : string) : string :=
  let paths := List.map abspath (PyStr.split ", " path) in
  match paths with
  | [p] => p
  | _ => PyStr.join ", " paths
  end.

(** [struct.pack] of one sample: format [h] (a short) or [f] (a binary32),
    native byte order and size.  A sample of a [float32] array is a binary32
    already and is written as it is; a binary64 is cast to binary32, which
    turns a value too large for it into an infinity. *)
Definition pack_sample_h (z : Z) : result (list byte) :=
  if (- 2 ^ 15 <=? z) && (z <? 2 ^ 15)
  then Ok (word_bytes native 2 (z mod 2 ^ 16))
  else Raise (StructError "short format requires (-32768) <= number <= 32767").

Definition pack_sample_f (w : float_width) (f : spec_float) : result (list byte) :=
  match w with
  | F32 => Ok (word_bytes native 4 (float_bits F32 f))
  | F64 => Ok (word_bytes native 4 (float_bits F32 (round_float F32 f)))
  end.

Fixpoint mapM {A B : Type} (f : A -> result B) (l : list A) : result (list B) :=
  match l with
  | [] => Ok []
  | a :: l' => do b <- f a; do bs <- mapM f l'; Ok (b :: bs)
  end.

(** [struct.pack(abbrev * c, *vals[i, :])] *)
Definition pack_row (abbrev : string) (vals : ndarray) (i c : nat) : result (list byte) :=
  let row {A : Type} (l : list A) := firstn c (skipn (i * c) l) in
  if String.eqb abbrev "h" then
    match vals with
    | IntArray _ _ l => do bs <- mapM pack_sample_h (row l); Ok (List.concat bs)
    | FloatArray _ _ _ => Raise (StructError "required argument is not an integer")
    end
  else
    match vals with
    | FloatArray w _ l => do bs <- mapM (pack_sample_f w) (row l); Ok (List.concat bs)
    | IntArray _ _ l =>
        do bs <- mapM (fun z => pack_sample_f F64 (float_of_int F64 z)) (row l);
        Ok (List.concat bs)
    end.

(** [f.write(bs)] on a file opened for writing *)
Definition append_file (fs : store) (fname : string) (bs : list byte) : store :=
  match Dict.get fname fs with
  | Some old => Dict.set fname (old ++ bs)%list fs
  | None => Dict.set fname bs fs
  end.

Fixpoint write_rows (fs : store) (vals : ndarray) (abbrev fname : string)
    (c todo i : nat) : store * result unit :=
  match todo with
  | O => (fs, Ok tt)
  | S todo' =>
      match pack_row abbrev vals i c with
      | Ok bs => write_rows (append_file fs fname bs) vals abbrev fname c todo' (S i)
      | Raise e => (fs, Raise e)
      end
  end.

Definition to_tas (fs : store) (vals : ndarray) (typ_str fname : string)
  : store * result unit :=
  match nd_shape vals with
  | [r; c] =>
      let abbrev := if String.eqb typ_str "integer" then "h" else "f" in
      write_rows (Dict.set fname [] fs) vals abbrev fname c r 0
  | _ => (fs, Raise Not2D)
  end.

(** [open(fname).read()] *)
Definition read_text (fs : store) (fname : string) : result string :=
  match Dict.get fname fs with
  | Some bs => Ok (string_of_list_byte bs)
  | None => Raise (FileNotFoundError fname)
  end.

(** The value of a header line, coerced by the class of its key *)
Definition coerce (key value : string) : result pyval :=
  if str_in key INT_DEP_FIELDS then
    match Parse.py_int value with
    | Some z => Ok (VInt z)
    | None => Raise (BadInt value)
    end
  else if str_in key FLOAT_DEP_FIELDS then
    match Parse.py_float value with
    | Some f => Ok (VFloat f)
    | None => Raise (BadFloat value)
    end
  else if negb (str_in key UPPER_STR_FIELDS) then Ok (VStr (PyStr.upper value))
  else Ok (VStr value).

(** One line of a header: the key and the coerced value *)
Definition parse_line (line : string) : result (string * pyval) :=
  let parts := PyStr.split ":" (PyStr.strip line) in
  let key := hd EmptyString parts in
  let value := PyStr.strip (PyStr.join ":" (tl parts)) in
  let key := PyStr.title (PyStr.strip key) in
  do v <- coerce key value;
  Ok (key, v).

Definition store_line (attrs : attrs_t) (key : string) (value : pyval) : attrs_t :=
  if String.eqb key "Metadata Entry" then
    match Dict.get key attrs, value with
    | Some (VStr old), VStr v => Dict.set key (VStr (old ++ NL ++ v)) attrs
    | _, _ => Dict.set key value attrs
    end
  else Dict.set key value attrs.

Fixpoint parse_lines (lines : list string) (attrs : attrs_t) : result attrs_t :=
  match lines with
  | [] => Ok attrs
  | line :: rest =>
      do kv <- parse_line line;
      parse_lines rest (store_line attrs (fst kv) (snd kv))
  end.

Definition _from_dep (fs : store) (fname : string) : result attrs_t :=
  do content <- read_text fs fname;
  parse_lines (PyStr.splitlines content) [].

Definition _get_dtype (dtype_str : string) : string * string :=
  if PyStr.contains "float" (PyStr.lower dtype_str)
  then ("float", lookup_const "float" DTYPES)
  else ("integer", lookup_const "integer" DTYPES).

(** The dtype strings numpy is given here: an optional byte-order mark and
    a type code *)
Definition np_dtype_of_string (s : string) : option (option endian * np_dtype) :=
  let (order, code) :=
    match s with
    | String "<" r => (Some LittleEndian, r)
    | String ">" r => (Some BigEndian, r)
    | String "=" r => (None, r)
    | _ => (None, s)
    end in
  if String.eqb code "f4" then Some (order, DFloat F32)
  else if String.eqb code "f8" then Some (order, DFloat F64)
  else if String.eqb code "i2" then Some (order, DInt I16)
  else if String.eqb code "i4" then Some (order, DInt I32)
  else if String.eqb code "i8" then Some (order, DInt I64)
  else None.

(** [np.fromfile(path, dtype=dtype)]: every complete item of the file, as a
    one-dimensional array *)
Definition np_fromfile (fs : store) (path dtype : string) : result ndarray :=
  match Dict.get path fs with
  | None => Raise (FileNotFoundError path)
  | Some bs =>
      match np_dtype_of_string dtype with
      | None => Raise (TypeError "data type not understood")
      | Some (order, d) =>
          let o := match order with Some o => o | None => native end in
          let items := chunks (List.length bs) (itemsize d) bs in
          Ok match d with
             | DInt w =>
                 IntArray w [List.length items]
                   (List.map (fun c => wrap (int_bits w) (word_value o c)) items)
             | DFloat w =>
                 FloatArray w [List.length items]
                   (List.map (fun c => float_of_bits w (word_value o c)) items)
             end
      end
  end.

(** [val.resize(rows, cols)]: the first [rows * cols] elements, zeros after
    the last one when there are fewer *)
Definition nd_resize (a : ndarray) (rows cols : Z) : result ndarray :=
  if (rows <? 0) || (cols <? 0) then Raise NegativeDimensions
  else
    let r := Z.to_nat rows in
    let c := Z.to_nat cols in
    let fit {A : Type} (zero : A) (l : list A) :=
      firstn (r * c) (l ++ repeat zero (r * c))%list in
    Ok match a with
       | IntArray w _ l => IntArray w [r; c] (fit 0 l)
       | FloatArray w _ l => FloatArray w [r; c] (fit (S754_zero false) l)
       end.

(** [attrs[key]] where an [int], respectively a [float], is needed *)
Definition item_int (attrs : attrs_t) (key : string) : result Z :=
  match Dict.get key attrs with
  | None => Raise (KeyError key)
  | Some (VInt z) => Ok z
  | Some (VBool b) => Ok (if b then 1 else 0)
  | Some _ => Raise (TypeError "an integer is required")
  end.

Definition item_float (attrs : attrs_t) (key : string) : result spec_float :=
  match Dict.get key attrs with
  | None => Raise (KeyError key)
  | Some (VFloat f) => Ok f
  | Some (VInt z) => Ok (float_of_Z z)
  | Some (VBool b) => Ok (float_of_Z (if b then 1 else 0))
  | Some _ => Raise (TypeError "a number is required")
  end.

Definition from_dep (fs : store) (dep : string) (tas : option string)
  : result DataArray :=
  if PyStr.is_empty dep || negb (exists_ fs dep) then Raise (NoSuchDep dep)
  else
    let no_tas := match tas with Some t => PyStr.is_empty t | None => true end in
    let tas :=
      if no_tas && PyStr.endswith ".dep" dep
      then Some (PyStr.drop_last 4 dep ++ ".tas")
      else tas in
    match tas with
    | None => Raise (NoSuchTas EmptyString)
    | Some tas =>
        if PyStr.is_empty tas || negb (exists_ fs tas) then Raise (NoSuchTas tas)
        else
          do attrs <- _from_dep fs dep;
          do dtype <-
            match Dict.get "Data Type" attrs with
            | Some (VStr s) => Ok (snd (_get_dtype s))
            | _ => Raise (AttributeError "lower")
            end;
          let byte_order := Dict.get "byte_order" attrs in
          let dtype :=
            match byte_order with
            | Some (VStr bo) =>
                if Dict.mem bo ENDIAN then lookup_const bo ENDIAN ++ dtype else dtype
            | _ => dtype
            end in
          do val <- np_fromfile fs tas dtype;
          do rows <- item_int attrs "Rows";
          do cols <- item_int attrs "Cols";
          do val <- nd_resize val rows cols;
          do south <- item_float attrs "South";
          do north <- item_float attrs "North";
          let y := removelast (np_linspace south north (Z.to_nat rows + 1)) in
          do east <- item_float attrs "East";
          do west <- item_float attrs "West";
          let x := removelast (np_linspace east west (Z.to_nat cols + 1)) in
          Ok {| values := val;
                coords := [("x", x); ("y", y)];
                dims := ["y"; "x"];
                attrs := attrs;
                filename := Some (dep, tas) |}
    end.

(** ** Functions that write files: state and exceptions *)

Definition io (A : Type) : Type := store -> store * result A.

Definition ret {A : Type} (a : A) : io A := fun fs => (fs, Ok a).
Definition lift {A : Type} (r : result A) : io A := fun fs => (fs, r).
Definition io_bind {A B : Type} (m : io A) (k : A -> io B) : io B :=
  fun fs =>
    match m fs with
    | (fs', Ok a) => k a fs'
    | (fs', Raise e) => (fs', Raise e)
    end.

Notation "'run' x <- m ; k" := (io_bind m (fun x => k))
  (at level 10, x pattern, m at level 100, k at level 200).

(** [open(fname, 'w')] followed by one [write] *)
Definition write_text (fname text : string) : io unit :=
  fun fs => (Dict.set fname (list_byte_of_string text) fs, Ok tt).

Definition truncate_file (fname : string) : io unit :=
  fun fs => (Dict.set fname [] fs, Ok tt).

(** [os.remove(fname)] *)
Definition os_remove (fname : string) : io unit :=
  fun fs =>
    if exists_ fs fname then (Dict.remove fname fs, Ok tt)
    else (fs, Raise (FileNotFoundError fname)).

(** [os.path.join(a, b)] *)
Definition path_join (a b : string) : string :=
  match b with
  | String "/" _ => b
  | _ => if PyStr.is_empty a || PyStr.endswith "/" a then a ++ b else a ++ "/" ++ b
  end.

(** [v > 1] *)
Definition gt_one (v : option pyval) : result bool :=
  match v with
  | None | Some VNone =>
      Raise (TypeError "'>' not supported between instances of 'NoneType' and 'int'")
  | Some (VStr _) =>
      Raise (TypeError "'>' not supported between instances of 'str' and 'int'")
  | Some (VBool _) => Ok false
  | Some (VInt z) => Ok (1 <? z)
  | Some (VFloat f) => Ok (SFltb (float_of_Z 1) f)
  end.

Definition metadata_lines (metadata_entry : string) : string :=
  String.concat EmptyString
    (List.map (fun m => NL ++ "Metadata Entry: " ++ m) (PyStr.splitlines metadata_entry)).

(** The block [if not fname: ...]: the base name of the pair *)
Definition target_name (fname tag : option string) : string :=
  let tag := match tag with Some t => t | None => "None" end in
  match fname with
  | Some f => if PyStr.is_empty f then path_join WHITEBOX_TEMP_DIR tag else f
  | None => path_join WHITEBOX_TEMP_DIR tag
  end.

(** The test [val.ndim != 2 or attrs.get('stacks') > 1] *)
Definition check_2d (val : ndarray) (attrs : attrs_t) : result unit :=
  if negb (nd_ndim val =? 2)%nat then Raise Not2D
  else do gt <- gt_one (Dict.get "stacks" attrs);
       if gt : bool then Raise Not2D else Ok tt.

(** The text written to the header file *)
Definition header_text (attrs : attrs_t) : result string :=
  do metadata_entry <-
    match Dict.get "metadata_entry" attrs with
    | Some (VStr s) => Ok s
    | None => Ok EmptyString
    | Some _ => Raise (AttributeError "splitlines")
    end;
  let at_ := Dict.set "metadata_entry" (VStr (metadata_lines metadata_entry)) attrs in
  format DEP_TEMPLATE at_.

Definition data_array_to_dep (arr : DataArray) (fname tag : option string)
  : io (string * string) :=
  let val := values arr in
  let (typ_str, dtype) := _get_dtype (dtype_name (nd_dtype val)) in
  match np_dtype_of_string ("<" ++ dtype) with
  | None => lift (Raise (TypeError "data type not understood"))
  | Some (_, d) =>
      let val := astype d val in
      run attrs <- lift (case_insensitive_attrs (attrs arr) typ_str);
      let attrs := Dict.set "byte_order" (VStr "LITTLE_ENDIAN") attrs in
      run _ <- lift (check_2d val attrs);
      let fname := target_name fname tag in
      let dep := fname ++ ".dep" in
      let tas := fname ++ ".tas" in
      run _ <- truncate_file dep;
      run text <- lift (header_text attrs);
      run _ <- write_text dep text;
      run _ <- (fun fs => to_tas fs val typ_str tas);
      ret (dep, tas)
  end.

(** ** The staging wrapper *)

(** A keyword argument of the wrapped tool: a path (or several, joined by
    a comma and a blank), a collection of arrays, one array, or any other
    option value. *)
Inductive kwval : Type :=
| KStr (s : string)
| KDataset (d : Dataset)
| KDataArray (a : DataArray)
| KOther (v : pyval).

Definition kwargs_t : Type := Dict.t string kwval.

(** What [delayed_load_later] keeps from the call that made it: the paths to
    load, the rewritten arguments, the staged files. *)
Record staged : Type := {
  load_afterwards : Dict.t string string;
  kwargs : kwargs_t;
  fnames : Dict.t (string * string) (string * string)
}.

(** The state of the loop over the arguments *)
Record loop_state : Type := {
  ls_kwargs : kwargs_t;
  ls_fnames : Dict.t (string * string) (string * string);
  ls_load : Dict.t string string;
  dumped_an_xarray : option string
}.

(** [data_array_to_dep(getattr(v, k2), tag=k2)] for the variable
    [data_arr] that [v] holds under the name [k2] *)
Definition stage_variable (k2 : string) (data_arr : DataArray) : io (string * string) :=
  match dataset_attribute k2 with
  | Some missing => lift (Raise (AttributeError missing))
  | None => data_array_to_dep data_arr None (Some k2)
  end.

(** The inner loop over the variables of a collection *)
Fixpoint stage_data_vars (k : string) (vars : list (string * DataArray))
    (fnames : Dict.t (string * string) (string * string))
  : io (Dict.t (string * string) (string * string)) :=
  match vars with
  | [] => ret fnames
  | (k2, data_arr) :: rest =>
      run files <- stage_variable k2 data_arr;
      stage_data_vars k rest (Dict.set (k, k2) files fnames)
  end.

Definition stage_argument (k : string) (v : kwval) (st : loop_state) : io loop_state :=
  if str_in k INPUT_ARGS then
    match v with
    | KStr s =>
        ret {| ls_kwargs := Dict.set k (KStr (fix_path s)) (ls_kwargs st);
               ls_fnames := ls_fnames st; ls_load := ls_load st;
               dumped_an_xarray := dumped_an_xarray st |}
    | KDataset d =>
        if String.eqb k "input" then lift (Raise DatasetAsInput)
        else
          run fnames <- stage_data_vars k (data_vars d) (ls_fnames st);
          let deps :=
            List.map (fun e => fst (snd e))
                     (List.filter (fun e => String.eqb (fst (fst e)) k) fnames) in
          ret {| ls_kwargs := Dict.set k (KStr (PyStr.join ", " deps)) (ls_kwargs st);
                 ls_fnames := fnames; ls_load := ls_load st;
                 dumped_an_xarray := Some k |}
    | KDataArray a =>
        run files <- data_array_to_dep a None (Some k);
        ret {| ls_kwargs := Dict.set k (KStr (fst files)) (ls_kwargs st);
               ls_fnames := ls_fnames st; ls_load := ls_load st;
               dumped_an_xarray := Some k |}
    | KOther _ => ret st
    end
  else if str_in k OUTPUT_ARGS then
    match v with
    | KStr s =>
        ret {| ls_kwargs := ls_kwargs st; ls_fnames := ls_fnames st;
               ls_load := Dict.set k (fix_path s) (ls_load st);
               dumped_an_xarray := dumped_an_xarray st |}
    | _ => lift (Raise (AttributeError "split"))
    end
  else ret st.

Fixpoint stage_arguments (items : list (string * kwval)) (st : loop_state)
  : io loop_state :=
  match items with
  | [] => ret st
  | (k, v) :: rest =>
      run st' <- stage_argument k v st;
      stage_arguments rest st'
  end.

Definition xarray_whitebox_io (kwargs : kwargs_t) : io staged :=
  let delete_tempdir :=
    match Dict.get "delete_tempdir" kwargs with
    | Some v => v
    | None => KOther (VBool true)
    end in
  let kwargs := Dict.remove "delete_tempdir" kwargs in
  run st <- stage_arguments kwargs
              {| ls_kwargs := kwargs; ls_fnames := []; ls_load := [];
                 dumped_an_xarray := None |};
  match ls_load st, dumped_an_xarray st with
  | [], Some dumped =>
      match Dict.get dumped (ls_kwargs st) with
      | Some (KStr staged_path) =>
          let output_fname := PyStr.replace ".dep" "-output.dep" staged_path in
          let k := last (Dict.keys kwargs) EmptyString in
          ret {| load_afterwards := Dict.set k output_fname (ls_load st);
                 kwargs := Dict.set "output" (KStr output_fname) (ls_kwargs st);
                 fnames := ls_fnames st |}
      | Some _ => lift (Raise (AttributeError "replace"))
      | None => lift (Raise (KeyError dumped))
      end
  | _, _ =>
      ret {| load_afterwards := ls_load st; kwargs := ls_kwargs st;
             fnames := ls_fnames st |}
  end.

(** [attrs = dict(kwargs=kwargs, return_code=ret_val)] *)
Record invocation : Type := {
  inv_kwargs : kwargs_t;
  return_code : Z
}.

(** A record read back, with the two entries that [attrs.update(attrs)]
    adds to its attributes kept beside them (their keys are lower-case and
    shadow no header key). *)
Record LoadedArray : Type := {
  record : DataArray;
  record_meta : invocation
}.

Inductive loaded : Type :=
| Returned (ret_val : Z)
| OneArray (a : LoadedArray)
| ManyArrays (vars : Dict.t string LoadedArray) (meta : invocation).

(** The inner loop over the paths of one output argument *)
Fixpoint load_paths (fs : store) (k : string) (paths : list string)
    (data_arrs : Dict.t string DataArray) : result (Dict.t string DataArray) :=
  match paths with
  | [] => Ok data_arrs
  | path :: rest =>
      do arr <- from_dep fs path None;
      load_paths fs k rest (Dict.set k arr data_arrs)
  end.

Fixpoint load_outputs (fs : store) (outputs : list (string * string))
    (data_arrs : Dict.t string DataArray) : result (Dict.t string DataArray) :=
  match outputs with
  | [] => Ok data_arrs
  | (k, paths) :: rest =>
      do data_arrs' <- load_paths fs k (PyStr.split ", " paths) data_arrs;
      load_outputs fs rest data_arrs'
  end.

Fixpoint remove_staged (files : list (string * string)) : io unit :=
  match files with
  | [] => ret tt
  | (dep, tas) :: rest =>
      run _ <- os_remove dep;
      run _ <- os_remove tas;
      remove_staged rest
  end.

Definition delayed_load_later (st : staged) (ret_val : Z) : io loaded :=
  match load_afterwards st with
  | [] => ret (Returned ret_val)
  | _ :: _ =>
      let meta := {| inv_kwargs := kwargs st; return_code := ret_val |} in
      run data_arrs <- (fun fs => (fs, load_outputs fs (load_afterwards st) []));
      run data_arrs <- lift (xr_Dataset data_arrs);
      let dset :=
        match assign_nodata (inl {| data_vars := data_arrs; ds_attrs := [] |}) [] with
        | inl d => data_vars d
        | inr _ => data_arrs
        end in
      run _ <- remove_staged (Dict.values (fnames st));
      let attach (a : DataArray) := {| record := a; record_meta := meta |} in
      if (List.length (load_afterwards st) =? 1)%nat then
        let k := last (Dict.keys (load_afterwards st)) EmptyString in
        match Dict.get k dset with
        | Some a => ret (OneArray (attach a))
        | None => lift (Raise (KeyError k))
        end
      else
        ret (ManyArrays (List.map (fun kv => (fst kv, attach (snd kv))) dset) meta)
  end.

End Host.

(** ** A reference host

    The surroundings of a little-endian POSIX machine with CPython and
    numpy 1.x: [repr] of a [float] (the shortest decimal text that reads
    back as the same value), [numpy.linspace] in binary64 arithmetic,
    [abspath] as [posixpath] computes it, some of the names that the class
    [xarray.Dataset] defines, and [xr.Dataset] for arrays that share their
    coordinates. *)

Module Reference.

(** The value of a finite positive float as a fraction *)
Definition fraction (m : positive) (e : Z) : Z * Z :=
  if 0 <=? e then (Zpos m * 2 ^ e, 1) else (Zpos m, 2 ^ (- e)).

(** The largest [p] with [10^p <= num/den], searched upwards from [p] *)
Fixpoint decimal_exponent (fuel : nat) (num den p : Z) : Z :=
  match fuel with
  | O => p
  | S fuel' =>
      let above :=
        if 0 <=? p + 1 then 10 ^ (p + 1) * den <=? num
        else den <=? num * 10 ^ (- (p + 1)) in
      if above then decimal_exponent fuel' num den (p + 1) else p
  end.

(** [floor (num/den / 10^k)] *)
Definition scaled_floor (num den k : Z) : Z :=
  if 0 <=? k then num / (den * 10 ^ k) else (num * 10 ^ (- k)) / den.

(** [|c * 10^k - num/den|] over the common denominator [den * 10^max(0,-k)] *)
Definition distance (num den c k : Z) : Z :=
  if 0 <=? k then Z.abs (c * 10 ^ k * den - num)
  else Z.abs (c * den - num * 10 ^ (- k)).

Definition reads_back (x : spec_float) (c k : Z) : bool :=
  match x, Parse.decimal_to_float false (Z.to_N c) k with
  | S754_finite _ m e, S754_finite _ m' e' => Pos.eqb m m' && (e =? e')
  | _, _ => false
  end.

(** The shortest digits [c] and exponent [k] with [c * 10^k] reading back
    as [x]; among two of one length the nearer. *)
Fixpoint shortest_digits (todo : nat) (n : Z) (x : spec_float) (num den p : Z)
  : Z * Z :=
  let k := p - n + 1 in
  let lo := scaled_floor num den k in
  let hi := lo + 1 in
  match todo with
  | O => (lo, k)
  | S todo' =>
      match reads_back x lo k, reads_back x hi k with
      | true, true =>
          if distance num den hi k <? distance num den lo k then (hi, k) else (lo, k)
      | true, false => (lo, k)
      | false, true => (hi, k)
      | false, false => shortest_digits todo' (n + 1) x num den p
      end
  end.

Fixpoint strip_zeros (fuel : nat) (c k : Z) : Z * Z :=
  match fuel with
  | O => (c, k)
  | S fuel' => if (c mod 10 =? 0) && negb (c =? 0) then strip_zeros fuel' (c / 10) (k + 1)
               else (c, k)
  end.

Fixpoint zeros (n : nat) : string :=
  match n with O => EmptyString | S n' => String "0" (zeros n') end.

Definition two_digits (z : Z) : string :=
  if z <? 10 then "0" ++ Z_to_string z else Z_to_string z.

(** The layout of [repr]: plain notation when the point falls within
    [-4 < decpt <= 16], exponent notation otherwise *)
Definition layout (digits : string) (decpt : Z) : string :=
  let n := Z.of_nat (String.length digits) in
  if (decpt <=? -4) || (16 <? decpt) then
    let mant :=
      match digits with
      | String d EmptyString => String d EmptyString
      | String d rest => String d ("." ++ rest)
      | EmptyString => EmptyString
      end in
    let ex := decpt - 1 in
    mant ++ "e" ++ (if ex <? 0 then "-" else "+") ++ two_digits (Z.abs ex)
  else if decpt <=? 0 then "0." ++ zeros (Z.to_nat (- decpt)) ++ digits
  else if n <=? decpt then digits ++ zeros (Z.to_nat (decpt - n)) ++ ".0"
  else substring 0 (Z.to_nat decpt) digits ++ "." ++
       substring (Z.to_nat decpt) (Z.to_nat (n - decpt)) digits.

Definition float_repr (x : spec_float) : string :=
  match x with
  | S754_nan => "nan"
  | S754_infinity s => if s then "-inf" else "inf"
  | S754_zero s => if s then "-0.0" else "0.0"
  | S754_finite s m e =>
      let (num, den) := fraction m e in
      let p := decimal_exponent 700 num den (-330) in
      let (c0, k0) := shortest_digits 17 1 x num den p in
      let (c, k) := strip_zeros 20 c0 k0 in
      let digits := Z_to_string c in
      (if s then "-" else "") ++ layout digits (Z.of_nat (String.length digits) + k)
  end.

Definition f64_add := SFadd 53 1024.
Definition f64_sub := SFsub 53 1024.
Definition f64_mul := SFmul 53 1024.
Definition f64_div := SFdiv 53 1024.

(** [numpy.linspace(start, stop, num)] *)
Definition np_linspace (start stop : spec_float) (num : nat) : list spec_float :=
  let div := Z.of_nat num - 1 in
  let y := List.map (fun i => float_of_Z (Z.of_nat i)) (seq 0 num) in
  let delta := f64_sub stop start in
  let y :=
    if 0 <? div then
      let step := f64_div delta (float_of_Z div) in
      if SFeqb step (S754_zero false)
      then List.map (fun v => f64_mul (f64_div v (float_of_Z div)) delta) y
      else List.map (fun v => f64_mul v step) y
    else List.map (fun v => f64_mul v delta) y in
  let y := List.map (fun v => f64_add v start) y in
  if (1 <? num)%nat then (removelast y ++ [stop])%list else y.

Definition cwd : string := "/home/user".

(** [posixpath.normpath]: empty and [.] components go, [..] takes the
    component before it away, one or two leading separators stay (three or
    more count as one). *)
Fixpoint norm_comps (rooted : bool) (kept : list string) (comps : list string)
  : list string :=
  match comps with
  | [] => List.rev kept
  | comp :: rest =>
      if PyStr.is_empty comp || String.eqb comp "." then norm_comps rooted kept rest
      else if String.eqb comp ".." then
        match kept with
        | [] => if rooted then norm_comps rooted kept rest
                else norm_comps rooted [comp] rest
        | last :: before =>
            if String.eqb last ".." then norm_comps rooted (comp :: kept) rest
            else norm_comps rooted before rest
        end
      else norm_comps rooted (comp :: kept) rest
  end.

Definition normpath (path : string) : string :=
  if PyStr.is_empty path then "."
  else
    let initial_slashes :=
      if prefix "/" path then
        if prefix "//" path && negb (prefix "///" path) then "//" else "/"
      else EmptyString in
    let comps := norm_comps (prefix "/" path) [] (PyStr.split "/" path) in
    let path := initial_slashes ++ PyStr.join "/" comps in
    if PyStr.is_empty path then "." else path.

(** [os.path.abspath(os.path.join(os.curdir, p))] *)
Definition abspath (p : string) : string :=
  normpath (path_join cwd (path_join "." p)).

(** Names that [xarray.Dataset] defines itself, with the lookup that fails
    on what [getattr] gives for them: a mapping has a method [values], which
    has no [dtype]; a method and a number have no [values]. *)
Definition DATASET_MAPPINGS : list string :=
  ["attrs"; "coords"; "data_vars"; "dims"; "encoding"; "indexes"; "sizes";
   "variables"].
Definition DATASET_OTHERS : list string :=
  ["copy"; "drop"; "get"; "isel"; "items"; "keys"; "load"; "loc"; "max"; "mean";
   "merge"; "min"; "nbytes"; "rename"; "sel"; "sum"; "to_array"; "transpose";
   "update"; "values"].

Definition dataset_attribute (k : string) : option string :=
  if str_in k DATASET_MAPPINGS then Some "dtype"
  else if str_in k DATASET_OTHERS then Some "values"
  else None.

(** [xr.Dataset(data_arrs)] for arrays on the same coordinates, which need
    no alignment: they are the variables of the collection as they are. *)
Definition xr_Dataset (data_arrs : Dict.t string DataArray)
  : result (Dict.t string DataArray) := Ok data_arrs.

Definition WHITEBOX_TEMP_DIR : string := "/home/user/.whitebox_tools_tempdir".

End Reference.

(** ** Concrete inputs used by the examples below *)

Module Examples.

Definition encode := data_array_to_dep LittleEndian Reference.float_repr
                                       Reference.WHITEBOX_TEMP_DIR.
Definition decode := from_dep LittleEndian Reference.np_linspace.
Definition stage := xarray_whitebox_io LittleEndian Reference.float_repr
                                       Reference.abspath Reference.WHITEBOX_TEMP_DIR
                                       Reference.dataset_attribute.
Definition load := delayed_load_later LittleEndian Reference.np_linspace
                                      Reference.xr_Dataset.

Definition array_of (vals : ndarray) (a : attrs_t) : DataArray :=
  {| values := vals; coords := []; dims := ["y"; "x"]; attrs := a; filename := None |}.

(** The 5 x 5 grid of the values 0 .. 24, as numpy makes it from Python
    floats *)
Definition grid_0_24 : ndarray :=
  FloatArray F64 [5%nat; 5%nat]
    (List.map (fun i => float_of_Z (Z.of_nat i)) (seq 0 25)).

(** The attribute mapping of the scenario of the specification *)
Definition scenario_attrs : attrs_t :=
  [("min", VInt 0); ("max", VInt 10); ("north", VInt 5); ("south", VInt 0);
   ("east", VInt 0); ("west", VInt 5); ("cols", VInt 5); ("rows", VInt 5);
   ("data_type", VStr "float"); ("z_units", VStr "M"); ("xy_units", VStr "M");
   ("data_scale", VStr "continuous")].

(** The same with the three fields the codec needs besides *)
Definition full_attrs : attrs_t :=
  (scenario_attrs ++
   [("stacks", VInt 1); ("display_min", VInt 0); ("display_max", VInt 10)])%list.

Definition with_data_scale (s : string) : attrs_t :=
  Dict.set "data_scale" (VStr s) full_attrs.

(** A 2 x 3 grid of shorts holding the sentinel -9999 at three cells *)
Definition grid_nodata : ndarray :=
  IntArray I16 [2%nat; 3%nat] [-9999; 7; -9999; 8; 9; -9999].

Definition nodata_attrs : attrs_t :=
  [("min", VInt 7); ("max", VInt 9); ("north", VInt 2); ("south", VInt 0);
   ("east", VInt 0); ("west", VInt 3); ("cols", VInt 3); ("rows", VInt 2);
   ("z_units", VStr "M"); ("xy_units", VStr "M"); ("data_scale", VStr "continuous");
   ("stacks", VInt 1); ("display_min", VInt 7); ("display_max", VInt 9);
   ("nodata", VInt (-9999))].

(** A header that declares its body big-endian, one that declares it
    little-endian, and a body of two shorts with its byte-swapped twin *)
Definition header_with_order (order : string) : string :=
  PyStr.join NL
    ["North: 1"; "South: 0"; "East: 0"; "West: 2"; "Cols: 2"; "Rows: 1";
     "Data Type: integer"; "Byte Order: " ++ order].

Definition body_be : list byte := [x00; x01; x00; x02].
Definition body_swapped : list byte := [x01; x00; x02; x00].

Definition files_with_order (order : string) (body : list byte) : store :=
  [("/data/g.dep", list_byte_of_string (header_with_order order));
   ("/data/g.tas", body)].

(** The store after the external tool has written an output raster: here a
    copy of the raster [src] under the name [dst] *)
Definition tool_copies (src dst : string) (fs : store) : store :=
  match Dict.get (src ++ ".dep") fs, Dict.get (src ++ ".tas") fs with
  | Some h, Some b => Dict.set (dst ++ ".tas") b (Dict.set (dst ++ ".dep") h fs)
  | _, _ => fs
  end.

End Examples.

(** * The vocabulary of the properties

    The definitions the statements and their proofs are written with.
    [native] and [float_repr] are the byte order of the machine and [str] of
    a [float], as in the section of the module. *)

Class EqKeyLaws (K : Type) `{EqKey K} : Prop := {
  keqb_eq : forall a b : K, keqb a b = true <-> a = b
}.

Section Vocabulary.

Variable native : endian.
Variable float_repr : spec_float -> string.

Definition decoded_values (r : result DataArray) : option ndarray :=
  match r with Ok a => Some (values a) | Raise _ => None end.

Definition header_line_count (fs : store) (path : string) : option nat :=
  option_map (fun b => List.length (PyStr.splitlines (string_of_list_byte b)))
             (Dict.get path fs).

Definition body_length (fs : store) (path : string) : option nat :=
  option_map (@List.length byte) (Dict.get path fs).

Definition sample_list (a : ndarray) : list spec_float :=
  match a with
  | FloatArray _ _ l => l
  | IntArray _ _ l => List.map float_of_Z l
  end.

(** The array the comparison with the sentinel runs over: an integer array
    is widened first. *)
Definition widened (a : ndarray) : ndarray :=
  match a with
  | IntArray _ _ _ => astype (DFloat F64) a
  | FloatArray _ _ _ => a
  end.

(** Does the masker find the sentinel in the array, comparing as numpy
    does, in the floating kind of the widened array? *)
Definition holds_nodata (no_data : pyval) (a : ndarray) : bool :=
  match widened a with
  | FloatArray w _ l => List.existsb (sample_eq w no_data) l
  | IntArray _ _ _ => false
  end.

Definition mask_sample (w : float_width) (v : pyval) (x : spec_float) : spec_float :=
  if sample_eq w v x then S754_nan else x.

(** A number as a sample or a sentinel carries it, nothing rounded: an
    integer times a power of two with the factors of two moved to the
    exponent, an infinity, or no number at all.  Two values are the same
    number exactly when they give the same [number]. *)
Inductive number : Type :=
| Dyadic (mantissa exponent : Z)
| Infinity (negative : bool)
| NoNumber.

Fixpoint odd_part (p : positive) (e : Z) : positive * Z :=
  match p with
  | xO q => odd_part q (e + 1)
  | _ => (p, e)
  end.

(** The number [m * 2^e] *)
Definition dyadic (m e : Z) : number :=
  match m with
  | Z0 => Dyadic 0 0
  | Zpos p => let (q, e') := odd_part p e in Dyadic (Zpos q) e'
  | Zneg p => let (q, e') := odd_part p e in Dyadic (Zneg q) e'
  end.

Definition number_of_float (f : spec_float) : number :=
  match f with
  | S754_zero _ => Dyadic 0 0
  | S754_finite s m e => dyadic (cond_Zopp s (Zpos m)) e
  | S754_infinity s => Infinity s
  | S754_nan => NoNumber
  end.

(** The number a Python scalar is; [True] is 1 and [False] is 0 *)
Definition number_of_scalar (v : pyval) : number :=
  match v with
  | VBool b => dyadic (if b then 1 else 0) 0
  | VInt z => dyadic z 0
  | VFloat f => number_of_float f
  | VNone | VStr _ => NoNumber
  end.

Definition number_eqb (a b : number) : bool :=
  match a, b with
  | Dyadic m1 e1, Dyadic m2 e2 => (m1 =? m2) && (e1 =? e2)
  | Infinity s1, Infinity s2 => Bool.eqb s1 s2
  | _, _ => false
  end.

(** Is the number a value of the format of precision [prec] and exponent
    bound [emax]: not more than [prec] digits, not below the smallest
    subnormal, not above the largest finite value? *)
Definition representable_in (prec emax : Z) (n : number) : bool :=
  match n with
  | Dyadic m e =>
      (m =? 0) ||
      ((Zdigits2 m <=? prec) && (emin prec emax <=? e) && (Zdigits2 m + e <=? emax))
  | Infinity _ | NoNumber => true
  end.

Definition representable (w : float_width) : number -> bool :=
  representable_in (float_prec w) (float_emax w).

(** The samples of a grid as numbers *)
Definition sample_numbers (a : ndarray) : list number :=
  match a with
  | IntArray _ _ l => List.map (fun z => dyadic z 0) l
  | FloatArray _ _ l => List.map number_of_float l
  end.

(** Does a sample of the grid equal the sentinel? *)
Definition has_sample (v : pyval) (a : ndarray) : bool :=
  List.existsb (number_eqb (number_of_scalar v)) (sample_numbers a).

(** The floating kind in which the masker compares a grid with the
    sentinel: the kind of the grid, binary64 for a grid of integers *)
Definition compared_as (a : ndarray) : float_width :=
  match a with
  | IntArray _ _ _ => F64
  | FloatArray w _ _ => w
  end.

Definition normalized (x : DataArray) : result attrs_t :=
  case_insensitive_attrs (attrs x) (fst (_get_dtype (dtype_name (nd_dtype (values x))))).

Definition attr_of (key : string) (r : result attrs_t) : option pyval :=
  match r with Ok a => Dict.get key a | Raise _ => None end.

Definition decoded_attr (key : string) (r : result DataArray) : option pyval :=
  match r with Ok a => Dict.get key (attrs a) | Raise _ => None end.

Definition lower_step (acc : attrs_t) (kv : string * pyval) : attrs_t :=
  Dict.set (_lower_key (fst kv)) (snd kv) acc.

Definition fill_step (acc : attrs_t) (k : string) : attrs_t :=
  if Dict.mem k acc then acc else Dict.set k (VStr EmptyString) acc.

(** The keys normalization may write besides the lowered ones *)
Definition defaulted_keys : list string :=
  ["xy_units"; "z_units"; "palette_nonlinearity"] ++ OPTIONAL_DEP_FIELDS.

Definition palette_step_1 (l : attrs_t) : attrs_t :=
  if negb (Dict.mem "preferred_palette" l)
  then Dict.set "palette_nonlinearity" (VStr "high_relief.pal") l else l.

Definition palette_step_2 (l : attrs_t) : attrs_t :=
  if negb (Dict.mem "palette_nonlinearity" l)
  then Dict.set "palette_nonlinearity" (VFloat (float_of_Z 1)) l else l.

(** The mapping normalization returns when it returns one *)
Definition normal_form (attrs : attrs_t) (typ : string) : attrs_t :=
  fold_left fill_step OPTIONAL_DEP_FIELDS
    (palette_step_2 (palette_step_1
       (copy_key "z_units" "units" (copy_key "xy_units" "units"
          (fold_left lower_step attrs [("dtype", VStr typ)]))))).

(** The kind an array is stored as, and the array cast to it *)
Definition kind_name (a : ndarray) : string :=
  match a with
  | IntArray _ _ _ => "integer"
  | FloatArray _ _ _ => "float"
  end.

Definition stored (a : ndarray) : ndarray :=
  match a with
  | IntArray _ _ _ => astype (DInt I16) a
  | FloatArray _ _ _ => astype (DFloat F32) a
  end.

Definition has_colon (s : string) : bool := PyStr.existsb (Ascii.eqb ":") s.

Definition single_line (s : string) : bool := PyStr.forallb (fun c => negb (PyStr.is_linebreak c)) s.

(** The key and the value [_from_dep] takes from a line *)
Definition line_key (line : string) : string :=
  PyStr.title (PyStr.strip (hd EmptyString (PyStr.split ":" (PyStr.strip line)))).

Definition line_value (line : string) : string :=
  PyStr.strip (PyStr.join ":" (tl (PyStr.split ":" (PyStr.strip line)))).

Definition is_none {A : Type} (o : option A) : bool :=
  match o with None => true | Some _ => false end.

(** A line of an integer field, or of a floating field, whose value is not
    a number of that type *)
Definition unreadable_number (line : string) : bool :=
  (str_in (line_key line) INT_DEP_FIELDS && is_none (Parse.py_int (line_value line)))
  || (str_in (line_key line) FLOAT_DEP_FIELDS && is_none (Parse.py_float (line_value line))).

Definition numeric_key (key : string) : bool :=
  str_in key INT_DEP_FIELDS || str_in key FLOAT_DEP_FIELDS.

(** The bytes of each sample of an array as [to_tas] writes them *)
Definition sample_bytes (a : ndarray) : list (list byte) :=
  match a with
  | IntArray _ _ l => List.map (fun z => word_bytes native 2 (z mod 2 ^ 16)) l
  | FloatArray _ _ l => List.map (fun f => word_bytes native 4 (float_bits F32 f)) l
  end.

Definition abbrev_of (a : ndarray) : string :=
  if String.eqb (kind_name a) "integer" then "h" else "f".

(** What the mantissa and the exponent are after a shift to the exponent of
    the format [prec], [emax] *)
Definition settled (prec emax m e : Z) : Prop :=
  0 <= m /\
  (0 < m -> fexp prec emax (Zdigits2 m + e) = e) /\
  (m = 0 -> fexp prec emax (1 + e) = e).

Definition dtype_code (a : ndarray) : string :=
  match a with IntArray _ _ _ => "i2" | FloatArray _ _ _ => "f4" end.

Definition flat (a : ndarray) : ndarray :=
  match a with
  | IntArray w _ l => IntArray w [List.length l] l
  | FloatArray w _ l => FloatArray w [List.length l] l
  end.

(** The twenty fixed lines of the template: the key as written, the blanks
    after the colon, the field *)
Definition HEADER_ROWS : list (string * string * string) :=
  [("Min", "  ", "min"); ("Max", "    ", "max"); ("North", "  ", "north");
   ("South", "  ", "south"); ("East", "   ", "east"); ("West", "   ", "west");
   ("Cols", "   ", "cols"); ("Rows", "   ", "rows"); ("Stacks", " ", "stacks");
   ("Data Type", "  ", "dtype"); ("Z Units", "    ", "z_units");
   ("Xy Units", "   ", "xy_units"); ("Projection", " ", "projection");
   ("Data Scale", " ", "data_scale"); ("Display Min", "    ", "display_min");
   ("Display Max", "    ", "display_max");
   ("Preferred Palette", "  ", "preferred_palette");
   ("Palette Nonlinearity", " ", "palette_nonlinearity");
   ("Nodata", " ", "nodata"); ("Byte Order", " ", "byte_order")].

Definition row_key (row : string * string * string) : string := fst (fst row).

Definition row_pad (row : string * string * string) : string := snd (fst row).

Definition row_field (row : string * string * string) : string := snd row.

(** A key that [_from_dep] reads back as it is written *)
Definition key_ok (K : string) : bool :=
  negb (has_colon K)
  && match K with String c _ => negb (PyStr.is_space c) | EmptyString => false end
  && String.eqb (PyStr.rstrip K) K
  && String.eqb (PyStr.title K) K.

Definition row_ok (row : string * string * string) : bool :=
  key_ok (row_key row) && PyStr.forallb PyStr.is_space (row_pad row)
  && negb (String.eqb (row_key row) "Metadata Entry").

Fixpoint distinct (l : list string) : bool :=
  match l with
  | [] => true
  | x :: r => negb (str_in x r) && distinct r
  end.

(** The text [format] puts for a field *)
Definition field_text (d : attrs_t) (k : string) : string :=
  match Dict.get k d with
  | Some v => py_str float_repr v
  | None => EmptyString
  end.

Definition row_line (d : attrs_t) (row : string * string * string) : string :=
  row_key row ++ ":" ++ row_pad row ++ field_text d (row_field row).

Fixpoint render_rows (d : attrs_t) (rows : list (string * string * string))
    (tail : string) : string :=
  match rows with
  | [] => tail
  | row :: rest => row_line d row ++ String "010" (render_rows d rest tail)
  end.

Fixpoint render_segments (segs : list segment) (d : attrs_t) : string :=
  match segs with
  | [] => EmptyString
  | Lit t :: rest => t ++ render_segments rest d
  | Field k :: rest => field_text d k ++ render_segments rest d
  end.

Definition is_some {A : Type} (o : option A) : bool :=
  match o with Some _ => true | None => false end.

(** What a row of the header is read back as.  [None] when the text of an
    integer or floating field is no such number. *)
Definition read_back (d : attrs_t) (K k : string) : option pyval :=
  match coerce K (PyStr.strip (field_text d k)) with
  | Ok v => Some v
  | Raise _ => None
  end.

Definition row_value (d : attrs_t) (row : string * string * string) : pyval :=
  match read_back d (row_key row) (row_field row) with
  | Some v => v
  | None => VNone
  end.

Definition store_row (d : attrs_t) (acc : attrs_t) (row : string * string * string)
  : attrs_t :=
  Dict.set (row_key row) (row_value d row) acc.

Definition metadata_line (l : string) : string := "Metadata Entry: " ++ l.

Definition header_attrs (na : attrs_t) : attrs_t :=
  Dict.set "byte_order" (VStr "LITTLE_ENDIAN") na.

Definition reads_as_int (v : option pyval) (n : nat) : bool :=
  match v with
  | Some (VInt z) => z =? Z.of_nat n
  | _ => false
  end.

(** Every line of the header is one line and reads back *)
Definition header_readable (a : attrs_t) : bool :=
  List.forallb
    (fun row => single_line (field_text a (row_field row))
                && is_some (read_back a (row_key row) (row_field row)))
    HEADER_ROWS.

(** The conditions under which the pair written for an array with the
    normalized attributes [na] decodes: the header is readable, its data
    type is the kind of the array, its rows and columns are the shape of
    the array, which holds that many samples. *)
Definition round_trippable (na : attrs_t) (vals : ndarray) : bool :=
  let a := header_attrs na in
  header_readable a
  && match Dict.get "dtype" na with
     | Some (VStr s) => String.eqb s (kind_name vals)
     | _ => false
     end
  && match nd_shape vals with
     | [r; c] =>
         (nd_size vals =? r * c)%nat
         && reads_as_int (read_back a "Rows" "rows") r
         && reads_as_int (read_back a "Cols" "cols") c
     | _ => false
     end.

Definition all_digits (s : string) : bool := PyStr.forallb PyStr.is_digit s.

(** The required fields by the class of their header line: the field of
    the mapping and the key of the header *)
Definition REQUIRED_FLOATS : list (string * string) :=
  [("min", "Min"); ("max", "Max"); ("north", "North"); ("south", "South");
   ("east", "East"); ("west", "West")].

Definition REQUIRED_INTS : list (string * string) := [("cols", "Cols"); ("rows", "Rows")].

Definition REQUIRED_TEXTS : list (string * string) :=
  [("z_units", "Z Units"); ("xy_units", "Xy Units"); ("data_scale", "Data Scale")].

(** Does the mapping have the key, whatever its case and spacing? *)
Definition has_key (attrs : attrs_t) (k : string) : bool :=
  List.existsb (fun kv => String.eqb (_lower_key (fst kv)) k) attrs.

End Vocabulary.

Module Run.
Import Examples.

Definition tmp (name : string) : string :=
  Reference.WHITEBOX_TEMP_DIR ++ "/" ++ name.

(** One array passed as [i], an explicit output, the tool copying its
    input to the output *)
Definition single_kwargs : kwargs_t :=
  [("i", KDataArray (array_of grid_nodata nodata_attrs));
   ("output", KStr "/data/out.dep")].

(** A collection of one array passed as [inputs], with the option asking
    to keep the staged files *)
Definition collection_kwargs : kwargs_t :=
  [("inputs", KDataset {| data_vars := [("a", array_of grid_nodata nodata_attrs)];
                          ds_attrs := [] |});
   ("output", KStr "/data/out.dep");
   ("delete_tempdir", KOther (VBool false))].

(** Stage, let the tool copy [src] to [/data/out], load *)
Definition session (kw : kwargs_t) (src : string) : store * result loaded :=
  match stage kw [] with
  | (fs, Ok st) => load st 0 (tool_copies (tmp src) "/data/out" fs)
  | (fs, Raise e) => (fs, Raise e)
  end.

Definition loaded_values (r : result loaded) : option ndarray :=
  match r with
  | Ok (OneArray a) => Some (values (record a))
  | _ => None
  end.

Definition loaded_attr (key : string) (r : result loaded) : option pyval :=
  match r with
  | Ok (OneArray a) => Dict.get key (attrs (record a))
  | _ => None
  end.

End Run.

(** * The vocabulary of the further properties

    Definitions for the properties of the last part of the file, which
    cover the functions of the module one by one. *)

(** The value an attribute mapping gives for a field: that of the last
    entry whose key lowers to the field *)
Fixpoint given (attrs : attrs_t) (k : string) : option pyval :=
  match attrs with
  | [] => None
  | (k0, v0) :: rest =>
      match given rest k with
      | Some v => Some v
      | None => if String.eqb (_lower_key k0) k then Some v0 else None
      end
  end.

(** The entries of a mapping under their lowered keys *)
Definition lowered (attrs : attrs_t) : attrs_t :=
  List.map (fun kv => (_lower_key (fst kv), snd kv)) attrs.

(** The mapping before the test for the required fields *)
Definition with_defaults (attrs : attrs_t) (typ : string) : attrs_t :=
  palette_step_2 (palette_step_1
    (copy_key "z_units" "units" (copy_key "xy_units" "units"
       (fold_left lower_step attrs [("dtype", VStr typ)])))).

Definition or_else (a b : option pyval) : option pyval :=
  match a with Some _ => a | None => b end.

(** The part of normalization that follows the defaults: the test for the
    required fields, the empty optional fields, the test of the data
    scale *)
Definition checked (lower : attrs_t) : result attrs_t :=
  let missing := List.filter (fun k => negb (Dict.mem k lower)) REQUIRED_DEP_FIELDS in
  match missing with
  | _ :: _ => Raise (MissingKeys missing)
  | [] =>
      let lower := fold_left fill_step OPTIONAL_DEP_FIELDS lower in
      let given :=
        match Dict.get "data_scale" lower with
        | Some v => if truthy v then v else VStr EmptyString
        | None => VStr EmptyString
        end in
      match given with
      | VStr s =>
          let data_scale := PyStr.lower s in
          if negb (str_in data_scale OK_DATA_SCALES) then Raise (BadDataScale data_scale)
          else if String.eqb data_scale "rgb" then Raise RgbNotHandled
          else Ok lower
      | _ => Raise (AttributeError "lower")
      end
  end.

(** The required fields the mapping does not supply *)
Definition missing_fields (attrs : attrs_t) (typ : string) : list string :=
  List.filter (fun k => negb (Dict.mem k (with_defaults attrs typ))) REQUIRED_DEP_FIELDS.

(** A character of a normalized key: no white space, no capital *)
Definition key_char (c : ascii) : bool :=
  negb (PyStr.is_space c) && negb (PyStr.is_upper c).

(** What every mapping built by normalization is: [dtype] comes first, no
    key occurs twice, every key is in normal form. *)
Definition well_keyed (d : attrs_t) : Prop :=
  (exists v rest, d = ("dtype", v) :: rest) /\
  NoDup (Dict.keys d) /\
  Forall (fun k => PyStr.forallb key_char k = true) (Dict.keys d).

(** The type a header value has under its key: an integer, a float, or
    text, which is in upper case unless the key is [Data Type] or
    [Byte Order] *)
Definition typed (K : string) (v : pyval) : bool :=
  if str_in K INT_DEP_FIELDS then match v with VInt _ => true | _ => false end
  else if str_in K FLOAT_DEP_FIELDS then match v with VFloat _ => true | _ => false end
  else match v with
       | VStr s => str_in K UPPER_STR_FIELDS || String.eqb (PyStr.upper s) s
       | _ => false
       end.

(** The last line of a header that names the key *)
Fixpoint last_line (K : string) (lines : list string) : option string :=
  match lines with
  | [] => None
  | l :: rest =>
      match last_line K rest with
      | Some l' => Some l'
      | None => if String.eqb (line_key l) K then Some l else None
      end
  end.

(** The values of the metadata lines of a header, in their order *)
Definition metadata_values (lines : list string) : list string :=
  List.map (fun l => PyStr.upper (line_value l))
           (List.filter (fun l => String.eqb (line_key l) "Metadata Entry") lines).

Definition joined (parts : list string) : option pyval :=
  match parts with
  | [] => None
  | _ => Some (VStr (PyStr.join NL parts))
  end.

(** The body file [from_dep] reads: the one it is given, or the name of the
    header with [.tas] in place of [.dep] *)
Definition body_path (dep : string) (tas : option string) : option string :=
  let no_tas := match tas with Some t => PyStr.is_empty t | None => true end in
  if no_tas && PyStr.endswith ".dep" dep
  then Some (PyStr.drop_last 4 dep ++ ".tas")
  else tas.

(** The kind of the samples read for a [Data Type] *)
Definition kind_read (data_type : string) : np_dtype :=
  if PyStr.contains "float" (PyStr.lower data_type) then DFloat F32 else DInt I16.

Module Samples.

(** A header of one row of three shorts with a body that holds two, and
    the record read from them: the third sample is the zero that [resize]
    adds *)
Definition short_files : store :=
  [("/data/g.dep",
    list_byte_of_string
      (PyStr.join NL ["North: 1"; "South: 0"; "East: 0"; "West: 3"; "Cols: 3";
                      "Rows: 1"; "Data Type: Integer"]));
   ("/data/g.tas", [x01; x00; x02; x00])].

Definition short_record : DataArray :=
  {| values := IntArray I16 [1%nat; 3%nat] [1; 2; 0];
     coords := [("x", [float_of_Z 0; float_of_Z 1; float_of_Z 2]);
                ("y", [float_of_Z 0])];
     dims := ["y"; "x"];
     attrs := [("North", VFloat (float_of_Z 1)); ("South", VFloat (float_of_Z 0));
               ("East", VFloat (float_of_Z 0)); ("West", VFloat (float_of_Z 3));
               ("Cols", VInt 3); ("Rows", VInt 1);
               ("Data Type", VStr "Integer")];
     filename := Some ("/data/g.dep", "/data/g.tas") |}.

End Samples.

(** The bytes one sample takes in the body *)
Definition sample_width (a : ndarray) : nat :=
  match a with IntArray _ _ _ => 2%nat | FloatArray _ _ _ => 4%nat end.

(** An array has as many samples as its shape says *)
Definition well_shaped (a : ndarray) : bool :=
  (nd_size a =? fold_right Nat.mul 1%nat (nd_shape a))%nat.

(** The lines the metadata adds to a header: none without metadata, else an
    empty line and one line for each line of the metadata *)
Definition metadata_line_count (m : string) : nat :=
  match PyStr.splitlines m with
  | [] => 0%nat
  | ls => S (List.length ls)
  end.


(** The optional fields by the class of their header line *)
Definition OPTIONAL_FLOATS : list (string * string) :=
  [("display_min", "Display Min"); ("display_max", "Display Max")].

Definition OPTIONAL_TEXTS : list (string * string) :=
  [("projection", "Projection"); ("preferred_palette", "Preferred Palette");
   ("palette_nonlinearity", "Palette Nonlinearity"); ("nodata", "Nodata")].

(** No value of the header spans several lines *)
Definition one_line_fields (float_repr : spec_float -> string) (a : attrs_t) : bool :=
  List.forallb (fun row => single_line (field_text float_repr a (row_field row))) HEADER_ROWS.

(** No path of the list contains the separator of a list of paths *)
Definition plain_paths (ps : list string) : bool :=
  List.forallb (fun p => negb (PyStr.contains ", " p)) ps.

(** An argument that holds an array or a collection of arrays *)
Definition holds_array (v : kwval) : bool :=
  match v with
  | KDataset _ | KDataArray _ => true
  | KStr _ | KOther _ => false
  end.

Definition is_path (v : kwval) : bool :=
  match v with KStr _ => true | _ => false end.

(** An argument the wrapper can take without writing a file: an input that
    holds no array, an output that is a path *)
Definition plain_argument (kv : string * kwval) : bool :=
  if str_in (fst kv) INPUT_ARGS then negb (holds_array (snd kv))
  else if str_in (fst kv) OUTPUT_ARGS
       then is_path (snd kv)
       else true.

Section Staging.

Variable abspath : string -> string.

(** The argument as the tool is given it *)
Definition restaged (k : string) (v : kwval) : kwval :=
  if str_in k INPUT_ARGS
  then match v with KStr s => KStr (fix_path abspath s) | _ => v end
  else v.

(** The path registered for an output argument *)
Definition registered (k : string) (v : kwval) : option string :=
  if str_in k INPUT_ARGS then None
  else if str_in k OUTPUT_ARGS
       then match v with KStr s => Some (fix_path abspath s) | _ => None end
       else None.

(** The loop over plain arguments, which writes nothing *)
Definition plain_step (st : loop_state) (kv : string * kwval) : loop_state :=
  {| ls_kwargs :=
       if str_in (fst kv) INPUT_ARGS && is_path (snd kv)
       then Dict.set (fst kv) (restaged (fst kv) (snd kv)) (ls_kwargs st)
       else ls_kwargs st;
     ls_fnames := ls_fnames st;
     ls_load :=
       match registered (fst kv) (snd kv) with
       | Some p => Dict.set (fst kv) p (ls_load st)
       | None => ls_load st
       end;
     dumped_an_xarray := dumped_an_xarray st |}.

End Staging.


Section Staged.

Variable WHITEBOX_TEMP_DIR : string.

(** The pair of files written for the variable or argument [name] *)
Definition staged_pair (name : string) : string * string :=
  (target_name WHITEBOX_TEMP_DIR None (Some name) ++ ".dep",
   target_name WHITEBOX_TEMP_DIR None (Some name) ++ ".tas").

(** The entries recorded for the variables of a collection passed as [k] *)
Definition recorded (k : string) (names : list string)
  : Dict.t (string * string) (string * string) :=
  List.map (fun name => ((k, name), staged_pair name)) names.

End Staged.

(** The paths of a list of pairs of files *)
Definition paths_of (files : list (string * string)) : list string :=
  List.concat (List.map (fun f => [fst f; snd f]) files).

Module Noted.

(** The grid of the scenario with metadata of two lines, a sentinel and a
    byte order among its attributes *)
Definition attributes : attrs_t :=
  (Examples.full_attrs ++
   [("Metadata Entry", VStr ("made by hand" ++ NL ++ " checked "));
    ("NoData", VInt (-9999)); ("Byte Order", VStr "BIG_ENDIAN")])%list.

Definition array : DataArray := Examples.array_of Examples.grid_0_24 attributes.

(** The same with three stacks *)
Definition stacked : DataArray :=
  Examples.array_of Examples.grid_0_24 (Dict.set "stacks" (VInt 3) attributes).

(** The base name of the pair written for the tag [a] *)
Definition base : string := target_name Reference.WHITEBOX_TEMP_DIR None (Some "a").

(** A call without arrays *)
Definition plain_call : kwargs_t :=
  [("i", KStr "a.dep"); ("output", KStr "out.dep"); ("verbose", KOther (VBool true));
   ("delete_tempdir", KOther (VBool false))].

Definition plain_call_without_output : kwargs_t :=
  [("i", KStr "a.dep"); ("verbose", KOther (VBool true))].

End Noted.

(** * Properties *)

(** ** Dictionaries *)

#[export] Instance EqKeyLaws_string : EqKeyLaws string.
Proof. split. exact String.eqb_eq. Qed.

Lemma pair_eqb_eq (a b : string * string) :
  (String.eqb (fst a) (fst b) && String.eqb (snd a) (snd b) = true)%bool <-> a = b.
Proof.
  destruct a as [a1 a2], b as [b1 b2]; simpl.
  rewrite andb_true_iff, !String.eqb_eq.
  split; [intros [-> ->]; reflexivity | intros [= -> ->]; auto].
Qed.

#[export] Instance EqKeyLaws_pair : EqKeyLaws (string * string).
Proof. split. exact pair_eqb_eq. Qed.

Section DictFacts.
Context {K V : Type} `{EqKeyLaws K}.

Lemma keqb_refl (k : K) : keqb k k = true.
Proof. apply keqb_eq; reflexivity. Qed.

Lemma keqb_neq (a b : K) : a <> b -> keqb a b = false.
Proof.
  intro Hne. destruct (keqb a b) eqn:E; [|reflexivity].
  apply keqb_eq in E. contradiction.
Qed.

Lemma get_set_same (k : K) (v : V) (d : Dict.t K V) :
  Dict.get k (Dict.set k v d) = Some v.
Proof.
  induction d as [|[k' v'] d IH]; simpl.
  - now rewrite keqb_refl.
  - destruct (keqb k' k) eqn:E; simpl; rewrite E; auto.
Qed.

Lemma get_set_other (k k' : K) (v : V) (d : Dict.t K V) :
  k <> k' -> Dict.get k (Dict.set k' v d) = Dict.get k d.
Proof.
  intro Hne. induction d as [|[k0 v0] d IH]; simpl.
  - rewrite keqb_neq; auto.
  - destruct (keqb k0 k') eqn:E; simpl.
    + apply keqb_eq in E; subst k0.
      rewrite keqb_neq; auto.
    + destruct (keqb k0 k); auto.
Qed.

Lemma mem_set_other (k k' : K) (v : V) (d : Dict.t K V) :
  k <> k' -> Dict.mem k (Dict.set k' v d) = Dict.mem k d.
Proof. intro Hne. unfold Dict.mem. now rewrite get_set_other. Qed.

Lemma get_remove_other (k k' : K) (d : Dict.t K V) :
  k <> k' -> Dict.get k (Dict.remove k' d) = Dict.get k d.
Proof.
  intro Hne. induction d as [|[k0 v0] d IH]; simpl; auto.
  destruct (keqb k0 k') eqn:E; simpl.
  - apply keqb_eq in E; subst k0. rewrite keqb_neq; auto.
  - destruct (keqb k0 k); auto.
Qed.

Lemma get_in (k : K) (v : V) (d : Dict.t K V) :
  Dict.get k d = Some v -> In (k, v) d.
Proof.
  induction d as [|[k0 v0] d IH]; simpl; [discriminate|].
  destruct (keqb k0 k) eqn:E.
  - apply keqb_eq in E; subst k0. intros [= ->]. now left.
  - intro Hg. right. auto.
Qed.
End DictFacts.

(** ** Data-scale validation *)

(** C2.  The list of accepted data scales spells [Boolean] with a capital
    while the value is lowered before the test: a mapping that has every
    required field and the data scale [boolean] (in any case) is rejected
    with the error of an invalid data scale. *)
Theorem data_scale_boolean_rejected :
  case_insensitive_attrs (Examples.with_data_scale "boolean") "float"
    = Raise (BadDataScale "boolean") /\
  case_insensitive_attrs (Examples.with_data_scale "Boolean") "float"
    = Raise (BadDataScale "boolean") /\
  is_ok (case_insensitive_attrs (Examples.with_data_scale "Categorical") "float") = true /\
  case_insensitive_attrs (Examples.with_data_scale "RGB") "float" = Raise RgbNotHandled.
Proof. repeat split; vm_compute; reflexivity. Qed.

(** ** Palette defaults *)

(** C8.  Without [preferred_palette] the palette file name is stored under
    [palette_nonlinearity]; the numeric default 1.0 is then never set, and
    [preferred_palette] is left to the empty default. *)
Theorem palette_default_overwritten :
  exists lower,
    case_insensitive_attrs Examples.full_attrs "float" = Ok lower /\
    has_key Examples.full_attrs "preferred_palette" = false /\
    has_key Examples.full_attrs "palette_nonlinearity" = false /\
    Dict.get "palette_nonlinearity" lower = Some (VStr "high_relief.pal") /\
    Dict.get "palette_nonlinearity" lower <> Some (VFloat (float_of_Z 1)) /\
    Dict.get "preferred_palette" lower = Some (VStr "").
Proof.
  eexists. split; [vm_compute; reflexivity|].
  repeat split; try (vm_compute; reflexivity).
  vm_compute. discriminate.
Qed.

(** ** Byte order on decode *)

(** C3.  [from_dep] looks the byte order up under the key [byte_order],
    which no parsed header has (the key read from the file is
    [Byte Order]): a body declared big-endian is read in the byte order of
    the machine, whichever that is, and differs from the byte-swapped body
    declared little-endian. *)
Theorem byte_order_ignored_on_decode :
  forall native,
    decoded_values (from_dep native Reference.np_linspace
                      (Examples.files_with_order "BIG_ENDIAN" Examples.body_be)
                      "/data/g.dep" None)
    <> decoded_values (from_dep native Reference.np_linspace
                      (Examples.files_with_order "LITTLE_ENDIAN" Examples.body_swapped)
                      "/data/g.dep" None)
    /\
    decoded_values (from_dep native Reference.np_linspace
                      (Examples.files_with_order "BIG_ENDIAN" Examples.body_be)
                      "/data/g.dep" None)
    = decoded_values (from_dep native Reference.np_linspace
                      (Examples.files_with_order "LITTLE_ENDIAN" Examples.body_be)
                      "/data/g.dep" None).
Proof.
  intros [|]; split; vm_compute; try reflexivity; discriminate.
Qed.

(** ** The staging wrapper at work *)

(** C4.  [delayed_load_later] calls [assign_nodata] without the header, so
    no sentinel is known there: the record loaded from a header declaring
    [Nodata: -9999] still holds -9999 in its three cells, in its integer
    type. *)
Theorem orchestrated_load_keeps_sentinel :
  Run.loaded_attr "Nodata" (snd (Run.session Run.single_kwargs "i")) = Some (VStr "-9999") /\
  Run.loaded_values (snd (Run.session Run.single_kwargs "i"))
    = Some (IntArray I16 [2%nat; 3%nat] [-9999; 7; -9999; 8; 9; -9999]).
Proof. split; vm_compute; reflexivity. Qed.

(** C5.  The files staged for a single array are not recorded for removal
    and are still there after the outputs are loaded; the files staged for
    the members of a collection are removed although the option asks to
    keep them (the option is read and never consulted). *)
Theorem staged_files_cleanup_diverges :
  (is_ok (snd (Run.session Run.single_kwargs "i")) = true /\
   exists_ (fst (Run.session Run.single_kwargs "i")) (Run.tmp "i.dep") = true /\
   exists_ (fst (Run.session Run.single_kwargs "i")) (Run.tmp "i.tas") = true)
  /\
  (is_ok (snd (Run.session Run.collection_kwargs "a")) = true /\
   exists_ (fst (Examples.stage Run.collection_kwargs [])) (Run.tmp "a.dep") = true /\
   exists_ (fst (Run.session Run.collection_kwargs "a")) (Run.tmp "a.dep") = false /\
   exists_ (fst (Run.session Run.collection_kwargs "a")) (Run.tmp "a.tas") = false).
Proof. repeat split; vm_compute; reflexivity. Qed.

(** ** The scenario of the specification *)

(** C7, as stated: the mapping of the scenario has no [stacks], and the
    encoder stops at the comparison of the missing value with 1. *)
Lemma scenario_encode_fails :
  exists what,
    snd (Examples.encode (Examples.array_of Examples.grid_0_24 Examples.scenario_attrs)
                         (Some "/tmp/a") None [])
    = Raise (TypeError what).
Proof. eexists. vm_compute. reflexivity. Qed.

(** C7, amended.  With [stacks], [display_min] and [display_max] added the
    scenario encodes to a header of 20 lines and a body of 100 bytes;
    decoding gives a 5 x 5 grid of binary32 samples that are the values
    0 .. 24 exactly, the numeric fields read back as numbers, and the data
    scale in upper case. *)
Theorem scenario_round_trip :
  let x := Examples.array_of Examples.grid_0_24 Examples.full_attrs in
  let r := Examples.encode x (Some "/tmp/a") None [] in
  snd r = Ok ("/tmp/a.dep", "/tmp/a.tas") /\
  header_line_count (fst r) "/tmp/a.dep" = Some 20%nat /\
  body_length (fst r) "/tmp/a.tas" = Some 100%nat /\
  exists da,
    Examples.decode (fst r) "/tmp/a.dep" None = Ok da /\
    nd_dtype (values da) = DFloat F32 /\
    nd_shape (values da) = [5%nat; 5%nat] /\
    List.map (round_float F64) (sample_list (values da)) = sample_list Examples.grid_0_24 /\
    List.map (fun k => Dict.get k (attrs da))
             ["Min"; "Max"; "North"; "South"; "East"; "West"]
      = List.map (fun z => Some (VFloat (float_of_Z z))) [0; 10; 5; 0; 0; 5] /\
    List.map (fun k => Dict.get k (attrs da)) ["Cols"; "Rows"; "Stacks"]
      = [Some (VInt 5); Some (VInt 5); Some (VInt 1)] /\
    List.map (fun k => Dict.get k (attrs da))
             ["Data Type"; "Z Units"; "Xy Units"; "Data Scale"; "Byte Order"]
      = List.map (fun s => Some (VStr s))
                 ["float"; "M"; "M"; "CONTINUOUS"; "LITTLE_ENDIAN"].
Proof.
  cbv zeta. split; [vm_compute; reflexivity|].
  split; [vm_compute; reflexivity|].
  split; [vm_compute; reflexivity|].
  eexists. split; [vm_compute; reflexivity|].
  repeat split; vm_compute; reflexivity.
Qed.

(** ** Masking of the no-data value *)

Lemma contains_int_dtype (d : np_dtype) :
  PyStr.contains "int" (dtype_name d) =
  match d with DInt _ => true | DFloat _ => false end.
Proof. destruct d as [[| |]|[|]]; reflexivity. Qed.

Lemma sample_eq_nan (w : float_width) (v : pyval) : sample_eq w v S754_nan = false.
Proof.
  destruct v as [|b|z|f|t]; cbn [sample_eq]; try reflexivity.
  - now destruct (fits_64_bits z).
  - destruct w; [|reflexivity]. now destruct (SFltb (SFabs f) fits_float32).
Qed.

Lemma mask_sample_idem (w : float_width) (v : pyval) (x : spec_float) :
  mask_sample w v (mask_sample w v x) = mask_sample w v x.
Proof.
  unfold mask_sample at 2 3. destruct (sample_eq w v x) eqn:E.
  - unfold mask_sample. now rewrite sample_eq_nan.
  - unfold mask_sample. now rewrite E.
Qed.

Lemma mask_nodata_idem (v : pyval) (a : ndarray) :
  mask_nodata v (mask_nodata v a) = mask_nodata v a.
Proof.
  destruct a as [w sh l|w sh l]; simpl; [reflexivity|].
  f_equal. rewrite List.map_map. apply List.map_ext. intro x.
  apply (mask_sample_idem w v x).
Qed.

Lemma mask_nodata_absent (v : pyval) (w : float_width) (sh : list nat)
    (l : list spec_float) :
  List.existsb (sample_eq w v) l = false ->
  mask_nodata v (FloatArray w sh l) = FloatArray w sh l.
Proof.
  intro Hno. simpl. f_equal.
  induction l as [|x l IH]; simpl in *; [reflexivity|].
  apply orb_false_iff in Hno. destruct Hno as [Hx Hl].
  rewrite Hx. f_equal. auto.
Qed.

Lemma assign_nodata_values (arr : DataArray) (v : pyval) :
  values (_assign_nodata arr v) = mask_nodata v (widened (values arr)).
Proof.
  destruct arr as [vals c d a f].
  unfold _assign_nodata. rewrite contains_int_dtype.
  destruct vals as [w sh l|w sh l]; reflexivity.
Qed.

Lemma set_values_values (arr : DataArray) (a : ndarray) :
  values (set_values arr a) = a.
Proof. reflexivity. Qed.

Lemma set_values_same (arr : DataArray) : set_values arr (values arr) = arr.
Proof. destruct arr; reflexivity. Qed.

Lemma set_values_twice (arr : DataArray) (a b : ndarray) :
  set_values (set_values arr a) b = set_values arr b.
Proof. reflexivity. Qed.

Lemma assign_nodata_as_set (arr : DataArray) (v : pyval) :
  _assign_nodata arr v = set_values arr (mask_nodata v (widened (values arr))).
Proof.
  destruct arr as [vals c d a f].
  unfold _assign_nodata. rewrite contains_int_dtype.
  destruct vals as [w sh l|w sh l]; reflexivity.
Qed.

Lemma widened_mask (v : pyval) (a : ndarray) :
  widened (mask_nodata v (widened a)) = mask_nodata v (widened a).
Proof. destruct a as [w sh l|w sh l]; reflexivity. Qed.

(** C9, as stated: a grid of shorts that holds no sample equal to the
    sentinel comes back as a grid of binary64 values, not unchanged in its
    numeric kind. *)
Lemma nodata_mask_widens_integers :
  let arr := Examples.array_of (IntArray I16 [1%nat; 2%nat] [1; 2]) [] in
  has_sample (VInt 9) (values arr) = false /\
  holds_nodata (VInt 9) (values arr) = false /\
  nd_dtype (values arr) = DInt I16 /\
  nd_dtype (values (_assign_nodata arr (VInt 9))) = DFloat F64 /\
  _assign_nodata arr (VInt 9) <> arr.
Proof.
  cbv zeta. repeat split; try (vm_compute; reflexivity).
  vm_compute. discriminate.
Qed.

Lemma unmasked_when_none_held (arr : DataArray) (v : pyval) :
  holds_nodata v (values arr) = false ->
  match values arr with
  | FloatArray _ _ _ => _assign_nodata arr v = arr
  | IntArray _ sh l =>
      values (_assign_nodata arr v) = FloatArray F64 sh (List.map (float_of_int F64) l)
  end.
Proof.
  intro Hno. unfold holds_nodata in Hno.
  destruct (values arr) as [w sh l|w sh l] eqn:E; rewrite <- E in Hno.
  - rewrite assign_nodata_values, E.
    rewrite E in Hno.
    change (widened (IntArray w sh l))
      with (FloatArray F64 sh (List.map (float_of_int F64) l)) in *.
    now apply mask_nodata_absent.
  - rewrite assign_nodata_as_set, E.
    rewrite E in Hno.
    change (widened (FloatArray w sh l)) with (FloatArray w sh l) in *.
    rewrite (mask_nodata_absent v w sh l Hno). rewrite <- E.
    apply set_values_same.
Qed.

(** ** Header lines without a colon *)

(** C6, as stated: a header whose only line has no colon is parsed; the
    line becomes a key with an empty value. *)
Lemma line_without_colon_accepted :
  _from_dep [("/data/h.dep", list_byte_of_string "hello")] "/data/h.dep"
  = Ok [("Hello", VStr "")].
Proof. vm_compute. reflexivity. Qed.

(** ** Round trip *)

(** C1, as stated: the data scale of the normalized attributes is
    [continuous]; the one decoded from the encoded pair is [CONTINUOUS]. *)
Lemma round_trip_upper_cases_data_scale :
  let x := Examples.array_of Examples.grid_0_24 Examples.full_attrs in
  let r := Examples.encode x (Some "/tmp/a") None [] in
  is_ok (snd r) = true /\
  attr_of "data_scale" (normalized x) = Some (VStr "continuous") /\
  decoded_attr "Data Scale" (Examples.decode (fst r) "/tmp/a.dep" None)
    = Some (VStr "CONTINUOUS").
Proof. cbv zeta. repeat split; vm_compute; reflexivity. Qed.

(** ** What normalization leaves alone *)

Lemma get_lower_absent (k : string) (attrs init : attrs_t) :
  (forall k0 v0, In (k0, v0) attrs -> _lower_key k0 <> k) ->
  Dict.get k (fold_left lower_step attrs init) = Dict.get k init.
Proof.
  revert init. induction attrs as [|[k0 v0] attrs IH]; intros init Habs; simpl.
  - reflexivity.
  - rewrite IH.
    + unfold lower_step; simpl. apply get_set_other.
      intro E. apply (Habs k0 v0); [now left | now symmetry].
    + intros k1 v1 Hin. apply (Habs k1 v1). now right.
Qed.

Lemma get_lower_present (k : string) (v : pyval) (attrs init : attrs_t) :
  Dict.get k (fold_left lower_step attrs init) = Some v ->
  Dict.get k init = Some v \/ exists k0, In (k0, v) attrs /\ _lower_key k0 = k.
Proof.
  revert init. induction attrs as [|[k0 v0] attrs IH]; intros init Hget; simpl in *.
  - now left.
  - apply IH in Hget. destruct Hget as [Hget|[k1 [Hin Hk]]].
    + unfold lower_step in Hget; simpl in Hget.
      destruct (String.eqb_spec k (_lower_key k0)) as [->|Hne].
      * rewrite get_set_same in Hget. injection Hget as ->.
        right. exists k0. split; [now left | reflexivity].
      * rewrite get_set_other in Hget by assumption. now left.
    + right. exists k1. split; [now right | assumption].
Qed.

Lemma get_copy_key_other (k dst src : string) (d : attrs_t) :
  k <> dst -> Dict.get k (copy_key dst src d) = Dict.get k d.
Proof.
  intro Hne. unfold copy_key.
  destruct (Dict.get src d); [|reflexivity].
  destruct (Dict.mem dst d); [reflexivity|].
  now apply get_set_other.
Qed.

Lemma get_fill_other (k : string) (ks : list string) (d : attrs_t) :
  ~ In k ks -> Dict.get k (fold_left fill_step ks d) = Dict.get k d.
Proof.
  revert d. induction ks as [|k0 ks IH]; intros d Hnin; simpl; [reflexivity|].
  rewrite IH by (intro; apply Hnin; now right).
  unfold fill_step. destruct (Dict.mem k0 d); [reflexivity|].
  apply get_set_other. intro E. apply Hnin. now left.
Qed.

Lemma case_insensitive_attrs_ok (attrs na : attrs_t) (typ : string) :
  case_insensitive_attrs attrs typ = Ok na -> na = normal_form attrs typ.
Proof.
  unfold case_insensitive_attrs.
  change (fun acc kv => Dict.set (_lower_key (fst kv)) (snd kv) acc) with lower_step.
  change (fun acc k => if Dict.mem k acc then acc else Dict.set k (VStr "") acc)
    with fill_step.
  fold (palette_step_1
          (copy_key "z_units" "units" (copy_key "xy_units" "units"
             (fold_left lower_step attrs [("dtype", VStr typ)])))).
  fold (palette_step_2 (palette_step_1
          (copy_key "z_units" "units" (copy_key "xy_units" "units"
             (fold_left lower_step attrs [("dtype", VStr typ)]))))).
  fold (normal_form attrs typ).
  destruct (List.filter _ REQUIRED_DEP_FIELDS); [|discriminate].
  destruct (match Dict.get "data_scale" _ with Some _ => _ | None => _ end);
    try discriminate.
  destruct (negb _); [discriminate|].
  destruct (String.eqb _ "rgb"); [discriminate|].
  now intros [= <-].
Qed.

Lemma case_insensitive_attrs_frame (attrs na : attrs_t) (typ k : string) :
  case_insensitive_attrs attrs typ = Ok na ->
  ~ In k defaulted_keys ->
  Dict.get k na = Dict.get k (fold_left lower_step attrs [("dtype", VStr typ)]).
Proof.
  intros Hok Hk. apply case_insensitive_attrs_ok in Hok. subst na.
  assert (k <> "xy_units" /\ k <> "z_units" /\ k <> "palette_nonlinearity") as (H1 & H2 & H3).
  { repeat split; intro E; apply Hk; subst k; unfold defaulted_keys; simpl; tauto. }
  unfold normal_form.
  rewrite get_fill_other
    by (intro Hin; apply Hk; unfold defaulted_keys; apply in_or_app; now right).
  unfold palette_step_2.
  match goal with |- context [if ?c then _ else _] => destruct c end;
    [rewrite get_set_other by assumption|];
    (unfold palette_step_1;
     match goal with |- context [if ?c then _ else _] => destruct c end;
     [rewrite get_set_other by assumption|];
     now rewrite !get_copy_key_other).
Qed.

(** ** The encoder, step by step *)

Lemma get_dtype_of_array (a : ndarray) :
  _get_dtype (dtype_name (nd_dtype a)) =
  (kind_name a, match a with IntArray _ _ _ => "i2" | FloatArray _ _ _ => "f4" end).
Proof. destruct a as [[| |] sh l|[|] sh l]; reflexivity. Qed.

Lemma normalized_kind (x : DataArray) :
  normalized x = case_insensitive_attrs (attrs x) (kind_name (values x)).
Proof. unfold normalized. now rewrite get_dtype_of_array. Qed.

Section Encoder.

Variable native : endian.
Variable float_repr : spec_float -> string.
Variable WHITEBOX_TEMP_DIR : string.

Let encode := data_array_to_dep native float_repr WHITEBOX_TEMP_DIR.

Lemma data_array_to_dep_steps (arr : DataArray) (fname tag : option string) (fs : store) :
  encode arr fname tag fs =
  match case_insensitive_attrs (attrs arr) (kind_name (values arr)) with
  | Raise e => (fs, Raise e)
  | Ok na =>
      let a := Dict.set "byte_order" (VStr "LITTLE_ENDIAN") na in
      match check_2d (stored (values arr)) a with
      | Raise e => (fs, Raise e)
      | Ok _ =>
          let f := target_name WHITEBOX_TEMP_DIR fname tag in
          match header_text float_repr a with
          | Raise e => (Dict.set (f ++ ".dep") [] fs, Raise e)
          | Ok text =>
              match to_tas native
                      (Dict.set (f ++ ".dep") (list_byte_of_string text)
                                (Dict.set (f ++ ".dep") [] fs))
                      (stored (values arr)) (kind_name (values arr)) (f ++ ".tas") with
              | (fs', Ok _) => (fs', Ok (f ++ ".dep", f ++ ".tas"))
              | (fs', Raise e) => (fs', Raise e)
              end
          end
      end
  end.
Proof.
  unfold encode, data_array_to_dep. rewrite get_dtype_of_array.
  destruct (values arr) as [w sh l|w sh l];
    cbn [np_dtype_of_string append String.eqb Ascii.eqb Bool.eqb kind_name stored];
    unfold io_bind, lift, ret, truncate_file, write_text;
    (destruct (case_insensitive_attrs _ _) as [na|e]; [|reflexivity]);
    (destruct (check_2d _ _) as [[]|e]; [|reflexivity]);
    cbv zeta;
    (destruct (header_text _ _) as [text|e]; [|reflexivity]);
    destruct (to_tas _ _ _ _ _) as [fs' [[]|e]]; reflexivity.
Qed.

End Encoder.

(** ** The encoder needs [stacks] *)

Lemma check_2d_ok (val : ndarray) (a : attrs_t) (u : unit) :
  check_2d val a = Ok u ->
  nd_ndim val = 2%nat /\
  exists v, Dict.get "stacks" a = Some v /\ gt_one (Some v) = Ok false.
Proof.
  unfold check_2d.
  destruct (Nat.eqb_spec (nd_ndim val) 2) as [E|E]; simpl; [|discriminate].
  destruct (Dict.get "stacks" a) as [v|] eqn:Eg; [|discriminate].
  destruct (gt_one (Some v)) as [[|]|e] eqn:Egt; simpl; try discriminate.
  intros _. split; [assumption|]. now exists v.
Qed.

Lemma encode_ok_stacks (native : endian) (repr : spec_float -> string) (tmp : string)
    (arr : DataArray) (fname tag : option string) (fs : store) (files : string * string) :
  snd (data_array_to_dep native repr tmp arr fname tag fs) = Ok files ->
  exists k v,
    In (k, v) (attrs arr) /\ _lower_key k = "stacks" /\ gt_one (Some v) = Ok false.
Proof.
  rewrite data_array_to_dep_steps.
  destruct (case_insensitive_attrs _ _) as [na|e] eqn:En; [|discriminate].
  cbv zeta.
  destruct (check_2d _ _) as [u|e] eqn:Ec; [|discriminate].
  intros _. apply check_2d_ok in Ec. destruct Ec as [_ [v [Hget Hgt]]].
  rewrite get_set_other in Hget by discriminate.
  rewrite (case_insensitive_attrs_frame _ _ _ _ En) in Hget.
  - apply get_lower_present in Hget. destruct Hget as [Hinit|[k [Hin Hk]]].
    + simpl in Hinit. discriminate.
    + now exists k, v.
  - unfold defaulted_keys, OPTIONAL_DEP_FIELDS. simpl.
    intros H; repeat (destruct H as [H|H]; [discriminate|]); exact H.
Qed.

(** C10.  An array whose attribute mapping has no key that lowers to
    [stacks] is not encoded: [data_array_to_dep] raises.  When it returns a
    pair of files, the mapping supplies [stacks] and the value is not
    greater than 1. *)
Theorem encode_requires_stacks (native : endian) (repr : spec_float -> string)
    (tmp : string) (arr : DataArray) (fname tag : option string) (fs : store) :
  ((forall k v, In (k, v) (attrs arr) -> _lower_key k <> "stacks") ->
   exists e, snd (data_array_to_dep native repr tmp arr fname tag fs) = Raise e) /\
  (forall files,
     snd (data_array_to_dep native repr tmp arr fname tag fs) = Ok files ->
     exists k v,
       In (k, v) (attrs arr) /\ _lower_key k = "stacks" /\ gt_one (Some v) = Ok false).
Proof.
  split.
  - intro Hno.
    destruct (snd (data_array_to_dep native repr tmp arr fname tag fs)) as [files|e] eqn:E.
    + apply encode_ok_stacks in E. destruct E as [k [v [Hin [Hk _]]]].
      exfalso. exact (Hno k v Hin Hk).
    + now exists e.
  - intros files. apply encode_ok_stacks.
Qed.

Lemma encode_requires_stacks_witness :
  (exists e,
     snd (Examples.encode (Examples.array_of Examples.grid_0_24 Examples.scenario_attrs)
                          (Some "/tmp/a") None []) = Raise e) /\
  (exists k v,
     In (k, v) Examples.full_attrs /\ _lower_key k = "stacks" /\ gt_one (Some v) = Ok false).
Proof.
  split.
  - apply (proj1 (encode_requires_stacks LittleEndian Reference.float_repr
                    Reference.WHITEBOX_TEMP_DIR
                    (Examples.array_of Examples.grid_0_24 Examples.scenario_attrs)
                    (Some "/tmp/a") None [])).
    intros k v Hin. unfold Examples.scenario_attrs in Hin. simpl in Hin.
    repeat (destruct Hin as [Hin|Hin]; [injection Hin as <- _; vm_compute; discriminate|]).
    contradiction.
  - apply (proj2 (encode_requires_stacks LittleEndian Reference.float_repr
                    Reference.WHITEBOX_TEMP_DIR
                    (Examples.array_of Examples.grid_0_24 Examples.full_attrs)
                    (Some "/tmp/a") None []) ("/tmp/a.dep", "/tmp/a.tas")).
    vm_compute. reflexivity.
Defined.

(** ** Facts about the string methods *)

Module StrFacts.
Import PyStr.

Lemma prefix_nil (s : string) : prefix EmptyString s = true.
Proof. destruct s; reflexivity. Qed.

Lemma prefix_char (a c : ascii) (s : string) :
  prefix (String a EmptyString) (String c s) = Ascii.eqb a c.
Proof.
  simpl. destruct (ascii_dec a c) as [->|Hne].
  - now rewrite prefix_nil, Ascii.eqb_refl.
  - symmetry. now apply Ascii.eqb_neq.
Qed.

Lemma split_from_colon (c : ascii) (s : string) :
  split_from ":" 0 (String c s) =
  (if Ascii.eqb c ":"
   then (EmptyString, fst (split_from ":" 0 s) :: snd (split_from ":" 0 s))
   else (String c (fst (split_from ":" 0 s)), snd (split_from ":" 0 s))).
Proof.
  cbn [split_from]. rewrite prefix_char. rewrite Ascii.eqb_sym.
  cbn [String.length Nat.pred].
  destruct (split_from ":" 0 s) as [w ws]. reflexivity.
Qed.

Lemma split_colon_cons (c : ascii) (s : string) :
  split ":" (String c s) =
  if Ascii.eqb c ":" then EmptyString :: split ":" s
  else match split ":" s with
       | w :: ws => String c w :: ws
       | [] => [String c EmptyString]
       end.
Proof.
  unfold split. rewrite split_from_colon.
  destruct (split_from ":" 0 s) as [w ws]. simpl.
  now destruct (Ascii.eqb c ":").
Qed.

Lemma split_colon_nonempty (s : string) : split ":" s <> [].
Proof. unfold split. destruct (split_from ":" 0 s). discriminate. Qed.

(** Without a colon there is one part *)
Lemma split_no_colon (s : string) : has_colon s = false -> split ":" s = [s].
Proof.
  induction s as [|c s IH]; intro H; [reflexivity|].
  simpl in H. apply orb_false_iff in H. destruct H as [Hc Hs].
  rewrite split_colon_cons. rewrite Ascii.eqb_sym, Hc. now rewrite IH.
Qed.

(** The first part ends at the first colon *)
Lemma split_at_colon (k r : string) :
  has_colon k = false -> split ":" (k ++ String ":" r) = k :: split ":" r.
Proof.
  induction k as [|c k IH]; intro H.
  - simpl. now rewrite split_colon_cons.
  - simpl in H. apply orb_false_iff in H. destruct H as [Hc Hs].
    simpl. rewrite split_colon_cons. rewrite Ascii.eqb_sym, Hc. now rewrite IH.
Qed.

(** Joining the parts on the colon restores the text *)
Lemma join_split_colon (s : string) : join ":" (split ":" s) = s.
Proof.
  induction s as [|c s IH]; [reflexivity|].
  rewrite split_colon_cons.
  destruct (Ascii.eqb_spec c ":") as [->|Hne].
  - unfold join in *. simpl.
    destruct (split ":" s) as [|w ws] eqn:E; [now apply split_colon_nonempty in E|].
    now rewrite IH.
  - unfold join in *.
    destruct (split ":" s) as [|w ws] eqn:E; [now apply split_colon_nonempty in E|].
    simpl in *. destruct ws; simpl in *; now rewrite <- IH.
Qed.

(** *** [strip] *)

Lemma is_empty_true (s : string) : is_empty s = true -> s = EmptyString.
Proof. destruct s; [reflexivity|discriminate]. Qed.

Lemma existsb_lstrip (p : ascii -> bool) (s : string) :
  existsb p s = false -> existsb p (lstrip s) = false.
Proof.
  induction s as [|c s IH]; simpl; [auto|].
  intro H. apply orb_false_iff in H. destruct H as [Hc Hs].
  destruct (is_space c); [auto|]. simpl. now rewrite Hc, Hs.
Qed.

Lemma existsb_rstrip (p : ascii -> bool) (s : string) :
  existsb p s = false -> existsb p (rstrip s) = false.
Proof.
  induction s as [|c s IH]; simpl; [auto|].
  intro H. apply orb_false_iff in H. destruct H as [Hc Hs].
  destruct (is_space c && is_empty (rstrip s)); [reflexivity|].
  simpl. now rewrite Hc, IH.
Qed.

Lemma existsb_strip (p : ascii -> bool) (s : string) :
  existsb p s = false -> existsb p (strip s) = false.
Proof. intro H. unfold strip. now apply existsb_rstrip, existsb_lstrip. Qed.

Lemma rstrip_nonspace (c : ascii) (s : string) :
  is_space c = false -> rstrip (String c s) = String c (rstrip s).
Proof. intro H. simpl. now rewrite H. Qed.

(** What follows a text that does not strip to nothing is kept with it *)
Lemma rstrip_app (a s : string) :
  is_empty (rstrip s) = false -> rstrip (a ++ s) = a ++ rstrip s.
Proof.
  intro H. induction a as [|x a IH]; [reflexivity|].
  simpl. rewrite IH. destruct (rstrip s); [discriminate|].
  destruct a; simpl; now rewrite andb_false_r.
Qed.

Lemma rstrip_idem (s : string) : rstrip (rstrip s) = rstrip s.
Proof.
  induction s as [|c s IH]; [reflexivity|].
  simpl. destruct (is_space c && is_empty (rstrip s)) eqn:E; [reflexivity|].
  simpl. rewrite IH, E. reflexivity.
Qed.

Lemma lstrip_idem (s : string) : lstrip (lstrip s) = lstrip s.
Proof.
  induction s as [|c s IH]; [reflexivity|].
  simpl. destruct (is_space c) eqn:E; [assumption|].
  simpl. now rewrite E.
Qed.

Lemma lstrip_rstrip (s : string) : lstrip (rstrip s) = rstrip (lstrip s).
Proof.
  induction s as [|c s IH]; [reflexivity|].
  simpl. destruct (is_space c) eqn:E; simpl.
  - destruct (is_empty (rstrip s)) eqn:Ee.
    + apply is_empty_true in Ee. rewrite <- IH, Ee. reflexivity.
    + simpl. now rewrite E.
  - now rewrite E.
Qed.

Lemma strip_idem (s : string) : strip (strip s) = strip s.
Proof.
  unfold strip. rewrite lstrip_rstrip, lstrip_idem, rstrip_idem. reflexivity.
Qed.

Lemma lstrip_spaces (pad s : string) :
  forallb is_space pad = true -> lstrip (pad ++ s) = lstrip s.
Proof.
  induction pad as [|c pad IH]; [reflexivity|].
  simpl. intro H. apply andb_true_iff in H. destruct H as [Hc Hp].
  rewrite Hc. auto.
Qed.

Lemma strip_rstrip_pad (pad s : string) :
  forallb is_space pad = true -> strip (rstrip (pad ++ s)) = strip s.
Proof.
  intro H. unfold strip.
  rewrite lstrip_rstrip, rstrip_idem, lstrip_spaces by assumption. reflexivity.
Qed.

(** *** [splitlines] *)

Lemma single_line_app (a b : string) :
  single_line (a ++ b) = single_line a && single_line b.
Proof.
  unfold single_line. induction a as [|c a IH]; [reflexivity|].
  simpl. rewrite IH. now rewrite andb_assoc.
Qed.

(** A line ended by a line feed is the first line *)
Lemma splitlines_line (a rest : string) :
  single_line a = true ->
  splitlines_from false (a ++ String "010" rest) = a :: splitlines_from false rest.
Proof.
  induction a as [|c a IH]; intro H.
  - reflexivity.
  - simpl in H. apply andb_true_iff in H. destruct H as [Hc Ha].
    apply negb_true_iff in Hc.
    cbn [append splitlines_from andb]. rewrite Hc, IH by assumption. reflexivity.
Qed.

(** A text without a line boundary is one line, or none when it is empty *)
Lemma splitlines_last (a : string) :
  single_line a = true ->
  splitlines_from false a = if is_empty a then [] else [a].
Proof.
  induction a as [|c a IH]; intro H; [reflexivity|].
  simpl in H. apply andb_true_iff in H. destruct H as [Hc Ha].
  apply negb_true_iff in Hc.
  cbn [splitlines_from andb is_empty]. rewrite Hc, IH by assumption.
  now destruct a.
Qed.

Lemma splitlines_single (skip : bool) (s : string) :
  Forall (fun l => single_line l = true) (splitlines_from skip s).
Proof.
  revert skip. induction s as [|c s IH]; intro skip; [constructor|].
  cbn [splitlines_from].
  destruct (skip && Ascii.eqb c "010"); [apply IH|].
  destruct (is_linebreak c) eqn:Ec.
  - constructor; [reflexivity | apply IH].
  - specialize (IH false).
    destruct (splitlines_from false s) as [|l ls].
    + constructor; [|constructor]. unfold single_line. cbn [forallb]. now rewrite Ec.
    + inversion IH as [|? ? Hl Hls]; subst. constructor; [|assumption].
      unfold single_line in *. cbn [forallb]. now rewrite Ec.
Qed.

(** *** [append], [endswith], slices *)

Lemma append_nil_r (s : string) : s ++ EmptyString = s.
Proof. induction s as [|c s IH]; simpl; [|rewrite IH]; reflexivity. Qed.

Lemma append_assoc (a b c : string) : (a ++ b) ++ c = a ++ (b ++ c).
Proof. induction a as [|x a IH]; simpl; [|rewrite IH]; reflexivity. Qed.

Lemma length_app (a b : string) :
  String.length (a ++ b) = (String.length a + String.length b)%nat.
Proof. induction a as [|x a IH]; simpl; [|rewrite IH]; reflexivity. Qed.

Lemma substring_prefix (a b : string) : substring 0 (String.length a) (a ++ b) = a.
Proof. induction a as [|x a IH]; simpl; [now destruct b|now rewrite IH]. Qed.

Lemma substring_all (b : string) : substring 0 (String.length b) b = b.
Proof. induction b as [|x b IH]; simpl; [|rewrite IH]; reflexivity. Qed.

Lemma substring_suffix (a b : string) :
  substring (String.length a) (String.length b) (a ++ b) = b.
Proof. induction a as [|x a IH]; simpl; [apply substring_all|assumption]. Qed.

Lemma endswith_app (a suf : string) : endswith suf (a ++ suf) = true.
Proof.
  unfold endswith. rewrite length_app.
  replace (String.length a + String.length suf - String.length suf)%nat
    with (String.length a) by lia.
  rewrite substring_suffix, String.eqb_refl, andb_true_r.
  apply Nat.leb_le. lia.
Qed.

Lemma drop_last_app (a suf : string) : drop_last (String.length suf) (a ++ suf) = a.
Proof.
  unfold drop_last. rewrite length_app.
  replace (String.length a + String.length suf - String.length suf)%nat
    with (String.length a) by lia.
  apply substring_prefix.
Qed.

Lemma append_inj_l (a b c : string) : a ++ b = a ++ c -> b = c.
Proof. induction a as [|x a IH]; simpl; [auto|]. intros [= H]. auto. Qed.

End StrFacts.

(** ** Header lines that do not parse *)

Lemma int_key_not_float (key : string) :
  str_in key INT_DEP_FIELDS = true -> str_in key FLOAT_DEP_FIELDS = false.
Proof.
  unfold str_in, INT_DEP_FIELDS. simpl. rewrite !orb_false_r.
  intro H. apply orb_true_iff in H. destruct H as [H|H];
    [|apply orb_true_iff in H; destruct H as [H|H]];
    apply String.eqb_eq in H; subst key; reflexivity.
Qed.

Lemma coerce_error_class (key value : string) (e : exn) :
  coerce key value = Raise e -> exn_class e = ValueError_.
Proof.
  unfold coerce.
  destruct (str_in _ INT_DEP_FIELDS).
  - destruct (Parse.py_int _); [discriminate|]. now intros [= <-].
  - destruct (str_in _ FLOAT_DEP_FIELDS).
    + destruct (Parse.py_float _); [discriminate|]. now intros [= <-].
    + destruct (negb _); discriminate.
Qed.

Lemma parse_line_eq (line : string) :
  parse_line line = do v <- coerce (line_key line) (line_value line); Ok (line_key line, v).
Proof. reflexivity. Qed.

Lemma parse_line_error_class (line : string) (e : exn) :
  parse_line line = Raise e -> exn_class e = ValueError_.
Proof.
  rewrite parse_line_eq.
  destruct (coerce _ _) as [v|e'] eqn:E; simpl; [discriminate|].
  intros [= <-]. now apply coerce_error_class in E.
Qed.

Lemma parse_line_unreadable (line : string) :
  unreadable_number line = true -> exists e, parse_line line = Raise e.
Proof.
  rewrite parse_line_eq. unfold unreadable_number, coerce.
  intro H. apply orb_true_iff in H. destruct H as [H|H];
    apply andb_true_iff in H; destruct H as [Hk Hv].
  - rewrite Hk. destruct (Parse.py_int (line_value line)); [discriminate|].
    now eexists.
  - destruct (str_in (line_key line) INT_DEP_FIELDS) eqn:Ei.
    + apply int_key_not_float in Ei. congruence.
    + rewrite Hk. destruct (Parse.py_float (line_value line)); [discriminate|].
      now eexists.
Qed.

Lemma parse_lines_unreadable (lines : list string) (line : string) :
  In line lines -> unreadable_number line = true ->
  forall d, exists e, parse_lines lines d = Raise e /\ exn_class e = ValueError_.
Proof.
  induction lines as [|l lines IH]; intros Hin Hbad d; [contradiction|].
  simpl. destruct (parse_line l) as [kv|e] eqn:El; simpl.
  - destruct Hin as [->|Hin].
    + apply parse_line_unreadable in Hbad. destruct Hbad as [e He]. congruence.
    + now apply IH.
  - exists e. split; [reflexivity|]. now apply parse_line_error_class in El.
Qed.

Lemma line_value_no_colon (line : string) :
  has_colon line = false -> line_value line = EmptyString.
Proof.
  intro H. unfold line_value.
  rewrite StrFacts.split_no_colon by now apply StrFacts.existsb_strip.
  reflexivity.
Qed.

(** C6, amended.  [_from_dep] raises a [ValueError] when a line of the
    header belongs to an integer field (Cols, Rows, Stacks) or a floating
    field (Min, Max, North, South, East, West, Display Min, Display Max)
    and its value is not a number of that type; a line without a colon has
    the empty value, so it raises when what it holds is the name of such a
    field. *)
Theorem header_numeric_fields_must_parse (fs : store) (fname content line : string) :
  read_text fs fname = Ok content ->
  In line (PyStr.splitlines content) ->
  unreadable_number line = true \/
  (has_colon line = false /\ numeric_key (line_key line) = true) ->
  exists e, _from_dep fs fname = Raise e /\ exn_class e = ValueError_.
Proof.
  intros Hread Hin Hbad. unfold _from_dep. rewrite Hread. simpl.
  apply parse_lines_unreadable with (line := line); [assumption|].
  destruct Hbad as [Hbad|[Hno Hkey]]; [assumption|].
  unfold unreadable_number. rewrite (line_value_no_colon line Hno).
  change (Parse.py_int "") with (@None Z).
  change (Parse.py_float "") with (@None spec_float).
  simpl. rewrite !andb_true_r. exact Hkey.
Qed.

Lemma header_numeric_fields_must_parse_witness :
  (exists e,
     _from_dep [("/data/h.dep", list_byte_of_string ("Rows: 2" ++ NL ++ "cols: 2.5"))]
               "/data/h.dep" = Raise e /\ exn_class e = ValueError_) /\
  (exists e,
     _from_dep [("/data/h.dep", list_byte_of_string ("Rows: 2" ++ NL ++ "display min"))]
               "/data/h.dep" = Raise e /\ exn_class e = ValueError_).
Proof.
  split.
  - apply (header_numeric_fields_must_parse
             [("/data/h.dep", list_byte_of_string ("Rows: 2" ++ NL ++ "cols: 2.5"))]
             "/data/h.dep" ("Rows: 2" ++ NL ++ "cols: 2.5") "cols: 2.5").
    + vm_compute. reflexivity.
    + vm_compute. right. left. reflexivity.
    + left. vm_compute. reflexivity.
  - apply (header_numeric_fields_must_parse
             [("/data/h.dep", list_byte_of_string ("Rows: 2" ++ NL ++ "display min"))]
             "/data/h.dep" ("Rows: 2" ++ NL ++ "display min") "display min").
    + vm_compute. reflexivity.
    + vm_compute. right. left. reflexivity.
    + right. split; vm_compute; reflexivity.
Defined.

(** ** Samples and bytes *)

Module Bytes.

Lemma Z_of_byte_of_Z (z : Z) : Z_of_byte (byte_of_Z z) = z mod 256.
Proof.
  unfold Z_of_byte, byte_of_Z.
  assert (Hr : 0 <= z mod 256 < 256) by (apply Z.mod_pos_bound; lia).
  destruct (Byte.of_N (Z.to_N (z mod 256))) as [b|] eqn:E.
  - apply Byte.to_of_N in E. rewrite E. lia.
  - apply Byte.of_N_None_iff in E. lia.
Qed.

Lemma le_value_le_bytes (n : nat) (w : Z) :
  le_value (le_bytes n w) = w mod 256 ^ Z.of_nat n.
Proof.
  revert w. induction n as [|n IH]; intro w.
  - simpl. now rewrite Z.mod_1_r.
  - cbn [le_bytes le_value]. rewrite IH, Z_of_byte_of_Z.
    rewrite Nat2Z.inj_succ, Z.pow_succ_r by lia.
    rewrite Z.rem_mul_r by lia. reflexivity.
Qed.

Lemma length_le_bytes (n : nat) (w : Z) : List.length (le_bytes n w) = n.
Proof. revert w. induction n as [|n IH]; intro w; simpl; [|rewrite IH]; reflexivity. Qed.

Lemma length_word_bytes (o : endian) (n : nat) (w : Z) :
  List.length (word_bytes o n w) = n.
Proof. destruct o; simpl; [|rewrite List.length_rev]; apply length_le_bytes. Qed.

(** Reading a word back in the order it was written gives its low bytes *)
Lemma word_value_word_bytes (o : endian) (n : nat) (w : Z) :
  word_value o (word_bytes o n w) = w mod 256 ^ Z.of_nat n.
Proof.
  destruct o; simpl; [|rewrite List.rev_involutive]; apply le_value_le_bytes.
Qed.

(** *** Shorts *)

Lemma wrap16_range (z : Z) : - 2 ^ 15 <= wrap 16 z < 2 ^ 15.
Proof.
  unfold wrap. change (16 - 1) with 15.
  assert (0 <= (z + 2 ^ 15) mod 2 ^ 16 < 2 ^ 16) by (apply Z.mod_pos_bound; lia).
  change (2 ^ 16) with (2 * 2 ^ 15) in *. lia.
Qed.

Lemma wrap16_of_range (z : Z) : - 2 ^ 15 <= z < 2 ^ 15 -> wrap 16 z = z.
Proof.
  intro H. unfold wrap. change (16 - 1) with 15.
  rewrite Z.mod_small; [lia|]. change (2 ^ 16) with (2 * 2 ^ 15). lia.
Qed.

Lemma wrap16_mod (z : Z) : wrap 16 (z mod 2 ^ 16) = wrap 16 z.
Proof.
  unfold wrap. change (16 - 1) with 15.
  rewrite Zplus_mod_idemp_l. reflexivity.
Qed.

(** A short written by [struct.pack] and read by [numpy.fromfile] *)
Lemma short_round_trip (o : endian) (z : Z) :
  wrap 16 (word_value o (word_bytes o 2 (wrap 16 z mod 2 ^ 16))) = wrap 16 z.
Proof.
  rewrite word_value_word_bytes.
  change (256 ^ Z.of_nat 2) with (2 ^ 16).
  rewrite Z.mod_mod by lia. rewrite wrap16_mod.
  apply wrap16_of_range, wrap16_range.
Qed.

(** *** binary32 *)

Lemma digits2_pos_bounds (m : positive) :
  2 ^ (Zpos (digits2_pos m) - 1) <= Zpos m < 2 ^ Zpos (digits2_pos m).
Proof.
  induction m as [m IH|m IH|]; cbn [digits2_pos].
  - rewrite Pos2Z.inj_succ.
    replace (Z.succ (Zpos (digits2_pos m)) - 1) with (Z.succ (Zpos (digits2_pos m) - 1)) by lia.
    rewrite !Z.pow_succ_r by lia. lia.
  - rewrite Pos2Z.inj_succ.
    replace (Z.succ (Zpos (digits2_pos m)) - 1) with (Z.succ (Zpos (digits2_pos m) - 1)) by lia.
    rewrite !Z.pow_succ_r by lia. lia.
  - simpl. lia.
Qed.

(** The two shapes of a finite binary32: normal, with a mantissa of 24
    bits, and subnormal, with the least exponent *)
Lemma bounded_f32 (m : positive) (e : Z) :
  bounded 24 128 m e = true ->
  (2 ^ 23 <= Zpos m < 2 ^ 24 /\ -149 <= e <= 104) \/
  (Zpos m < 2 ^ 23 /\ e = -149).
Proof.
  unfold bounded, canonical_mantissa, fexp, SpecFloat.emin.
  intro H. apply andb_true_iff in H. destruct H as [Hc He].
  apply Z.eqb_eq in Hc. apply Z.leb_le in He.
  pose proof (digits2_pos_bounds m) as Hd.
  set (d := Zpos (digits2_pos m)) in *.
  assert (Hdpos : 1 <= d) by (unfold d; lia).
  change (3 - 128 - 24) with (-149) in Hc. change (128 - 24) with 104 in He.
  destruct (Z.max_spec (d + e - 24) (-149)) as [[Hlt Hmax]|[Hge Hmax]];
    rewrite Hmax in Hc.
  - right. split; [|lia].
    assert (d <= 23) by lia.
    apply Z.lt_le_trans with (2 ^ d); [lia|].
    apply Z.pow_le_mono_r; lia.
  - left. assert (d = 24) by lia.
    replace (d - 1) with 23 in Hd by lia. replace d with 24 in Hd by lia. lia.
Qed.

Lemma testbit_31 (s : bool) (r : Z) :
  0 <= r < 2 ^ 31 -> Z.testbit ((if s then 2 ^ 31 else 0) + r) 31 = s.
Proof.
  intro H. rewrite Z.testbit_odd, Z.shiftr_div_pow2 by lia.
  destruct s.
  - replace ((2 ^ 31 + r) / 2 ^ 31) with 1; [reflexivity|].
    apply Z.div_unique with (r := r); lia.
  - rewrite Z.add_0_l, Z.div_small by lia. reflexivity.
Qed.

Lemma float_bits_f32_decompose (s : bool) (ex mant : Z) :
  0 <= ex < 2 ^ 8 -> 0 <= mant < 2 ^ 23 ->
  let x := (if s then 2 ^ 31 else 0) + ex * 2 ^ 23 + mant in
  Z.testbit x 31 = s /\ (x / 2 ^ 23) mod 2 ^ 8 = ex /\ x mod 2 ^ 23 = mant.
Proof.
  intros Hex Hm x. subst x.
  assert (Hr : 0 <= ex * 2 ^ 23 + mant < 2 ^ 31).
  { change (2 ^ 31) with (2 ^ 8 * 2 ^ 23). nia. }
  split; [|split].
  - rewrite <- Z.add_assoc. now apply testbit_31.
  - replace ((if s then 2 ^ 31 else 0) + ex * 2 ^ 23 + mant)
      with (mant + ((if s then 2 ^ 8 else 0) + ex) * 2 ^ 23)
      by (destruct s; change (2 ^ 31) with (2 ^ 8 * 2 ^ 23); ring).
    rewrite Z.div_add by lia. rewrite Z.div_small by lia.
    destruct s.
    + replace (0 + (2 ^ 8 + ex)) with (ex + 1 * 2 ^ 8) by ring.
      rewrite Z_mod_plus_full. apply Z.mod_small; lia.
    + rewrite !Z.add_0_l. apply Z.mod_small; lia.
  - replace ((if s then 2 ^ 31 else 0) + ex * 2 ^ 23 + mant)
      with (mant + ((if s then 2 ^ 8 else 0) + ex) * 2 ^ 23)
      by (destruct s; change (2 ^ 31) with (2 ^ 8 * 2 ^ 23); ring).
    rewrite Z_mod_plus_full. apply Z.mod_small; lia.
Qed.

(** Encoding a binary32 and decoding the bits gives the value back *)
Lemma float_of_bits_f32 (y : spec_float) :
  valid_binary 24 128 y = true -> float_of_bits F32 (float_bits F32 y) = y.
Proof.
  destruct y as [s|s| |s m e]; intro Hv.
  - destruct s; reflexivity.
  - destruct s; reflexivity.
  - reflexivity.
  - simpl in Hv. apply bounded_f32 in Hv.
    unfold float_bits, float_of_bits.
    change (mant_bits F32) with 23. change (exp_bits F32) with 8.
    change (float_emin F32) with (-149). change (23 + 8) with 31.
    destruct Hv as [[Hm He]|[Hm He]].
    + replace ((if s then 2 ^ 31 else 0) + (e - -149) * 2 ^ 23 + Zpos m)
        with ((if s then 2 ^ 31 else 0) + (e + 150) * 2 ^ 23 + (Zpos m - 2 ^ 23)) by ring.
      destruct (float_bits_f32_decompose s (e + 150) (Zpos m - 2 ^ 23))
        as (Hs & Hex & Hmant); [change (2 ^ 8) with 256; lia | lia |].
      cbv zeta in Hs, Hex, Hmant. rewrite Hs, Hex, Hmant.
      destruct (Z.eqb_spec (e + 150) 0); [lia|].
      destruct (Z.eqb_spec (e + 150) (2 ^ 8 - 1)); [change (2 ^ 8 - 1) with 255 in *; lia|].
      replace (Zpos m - 2 ^ 23 + 2 ^ 23) with (Zpos m) by ring.
      f_equal. lia.
    + subst e.
      replace ((if s then 2 ^ 31 else 0) + (-149 - -149) * 2 ^ 23 + Zpos m)
        with ((if s then 2 ^ 31 else 0) + 0 * 2 ^ 23 + Zpos m) by ring.
      destruct (float_bits_f32_decompose s 0 (Zpos m))
        as (Hs & Hex & Hmant); [change (2 ^ 8) with 256; lia | lia |].
      cbv zeta in Hs, Hex, Hmant. rewrite Hs, Hex, Hmant.
      reflexivity.
Qed.

Lemma float_bits_f32_range (y : spec_float) :
  valid_binary 24 128 y = true -> 0 <= float_bits F32 y < 2 ^ 32.
Proof.
  destruct y as [s|s| |s m e]; intro Hv.
  - destruct s; vm_compute; split; congruence.
  - destruct s; vm_compute; split; congruence.
  - vm_compute; split; congruence.
  - simpl in Hv. apply bounded_f32 in Hv.
    unfold float_bits.
    change (mant_bits F32) with 23. change (exp_bits F32) with 8.
    change (float_emin F32) with (-149). change (23 + 8) with 31.
    change (2 ^ 32) with (2 ^ 31 + 2 ^ 8 * 2 ^ 23).
    assert (0 <= (if s then 2 ^ 31 else 0) <= 2 ^ 31) by (destruct s; lia).
    destruct Hv as [[Hm He]|[Hm He]]; [|subst e]; nia.
Qed.

(** A binary32 written by [struct.pack] and read by [numpy.fromfile] *)
Lemma float_round_trip (o : endian) (y : spec_float) :
  valid_binary 24 128 y = true ->
  float_of_bits F32 (word_value o (word_bytes o 4 (float_bits F32 y))) = y.
Proof.
  intro Hv. rewrite word_value_word_bytes.
  change (256 ^ Z.of_nat 4) with (2 ^ 32).
  rewrite Z.mod_small by now apply float_bits_f32_range.
  now apply float_of_bits_f32.
Qed.

End Bytes.

(** ** Rounding gives values of the format *)

Module Rounding.

Lemma digits_bounds (p : positive) :
  2 ^ (Z.pos (digits2_pos p) - 1) <= Z.pos p < 2 ^ Z.pos (digits2_pos p).
Proof.
  induction p as [p IH|p IH|]; cbn [digits2_pos].
  - rewrite Pos2Z.inj_succ.
    replace (Z.succ (Z.pos (digits2_pos p)) - 1) with (Z.succ (Z.pos (digits2_pos p) - 1)) by lia.
    rewrite !Z.pow_succ_r by lia. lia.
  - rewrite Pos2Z.inj_succ.
    replace (Z.succ (Z.pos (digits2_pos p)) - 1) with (Z.succ (Z.pos (digits2_pos p) - 1)) by lia.
    rewrite !Z.pow_succ_r by lia. lia.
  - simpl. lia.
Qed.

Lemma digits_unique (p : positive) (d : Z) :
  2 ^ (d - 1) <= Z.pos p < 2 ^ d -> Z.pos (digits2_pos p) = d.
Proof.
  intros [Hlo Hhi]. pose proof (digits_bounds p) as [Blo Bhi].
  set (k := Z.pos (digits2_pos p)) in *.
  assert (0 < d).
  { destruct (Z.ltb_spec 0 d); [assumption|].
    exfalso. destruct (Z.eq_dec d 0) as [->|]; [simpl in Hhi; lia|].
    rewrite Z.pow_neg_r in Hhi by lia. lia. }
  destruct (Z.lt_trichotomy k d) as [Hlt|[Heq|Hgt]]; [|assumption|].
  - exfalso. assert (2 ^ k <= 2 ^ (d - 1)) by (apply Z.pow_le_mono_r; lia). lia.
  - exfalso. assert (2 ^ d <= 2 ^ (k - 1)) by (apply Z.pow_le_mono_r; lia). lia.
Qed.

Lemma shr_1_m (mrs : shr_record) :
  0 <= shr_m mrs -> shr_m (shr_1 mrs) = shr_m mrs / 2.
Proof.
  destruct mrs as [m r s]. cbn [shr_m]. intro Hm.
  destruct m as [|[p|p|]|p]; cbn [shr_1 shr_m]; try lia.
  - reflexivity.
  - apply (Z.div_unique _ 2 _ 1); lia.
  - apply (Z.div_unique _ 2 _ 0); lia.
  - reflexivity.
Qed.

Lemma iter_pos_shr_m (p : positive) (mrs : shr_record) :
  0 <= shr_m mrs ->
  shr_m (iter_pos shr_1 p mrs) = shr_m mrs / 2 ^ Z.pos p.
Proof.
  revert mrs. induction p as [p IH|p IH|]; intros mrs Hm; cbn [iter_pos].
  - assert (H1 : 0 <= shr_m (shr_1 mrs)) by (rewrite shr_1_m by assumption; apply Z.div_pos; lia).
    assert (H2 : 0 <= shr_m (iter_pos shr_1 p (shr_1 mrs)))
      by (rewrite IH by assumption; apply Z.div_pos; [assumption|apply Z.pow_pos_nonneg; lia]).
    rewrite IH by assumption. rewrite IH by assumption. rewrite shr_1_m by assumption.
    rewrite !Z.div_div by (try apply Z.pow_pos_nonneg; lia).
    f_equal. replace (Z.pos p~1) with (1 + Z.pos p + Z.pos p) by lia.
    rewrite !Z.pow_add_r by lia. change (2 ^ 1) with 2.
    generalize (2 ^ Z.pos p). intro x. ring.
  - assert (H2 : 0 <= shr_m (iter_pos shr_1 p mrs))
      by (rewrite IH by assumption; apply Z.div_pos; [assumption|apply Z.pow_pos_nonneg; lia]).
    rewrite IH by assumption. rewrite IH by assumption.
    rewrite !Z.div_div by (try apply Z.pow_pos_nonneg; lia).
    f_equal. replace (Z.pos p~0) with (Z.pos p + Z.pos p) by lia.
    rewrite !Z.pow_add_r by lia. generalize (2 ^ Z.pos p). intro x. ring.
  - rewrite shr_1_m by assumption. reflexivity.
Qed.

Lemma shr_m_record_of_loc (m : Z) (l : location) : shr_m (shr_record_of_loc m l) = m.
Proof. destruct l as [|[| |]]; reflexivity. Qed.

Section Format.

Variables prec emax : Z.
Hypothesis prec_pos : 0 < prec.

Lemma fexp_step (d : Z) :
  fexp prec emax (d + 1) = fexp prec emax d \/ fexp prec emax (d + 1) = fexp prec emax d + 1.
Proof. unfold SpecFloat.fexp. lia. Qed.

Lemma first_shift (mx : positive) (ex : Z) (lx : location) :
  ex <= fexp prec emax (Zdigits2 (Z.pos mx) + ex) ->
  settled prec emax (shr_m (fst (shr_fexp prec emax (Z.pos mx) ex lx)))
          (snd (shr_fexp prec emax (Z.pos mx) ex lx)).
Proof.
  intro Hle. unfold shr_fexp.
  set (E := fexp prec emax (Zdigits2 (Z.pos mx) + ex)) in *.
  pose proof (digits_bounds mx) as [Blo Bhi].
  cbn [Zdigits2] in E.
  destruct (E - ex) as [|n|n] eqn:En; cbn [shr fst snd]; try lia.
  - rewrite shr_m_record_of_loc. assert (ex = E) by lia.
    repeat split; [lia| |lia].
    intros _. cbn [Zdigits2]. fold E. lia.
  - rewrite iter_pos_shr_m by (rewrite shr_m_record_of_loc; lia).
    rewrite shr_m_record_of_loc.
    assert (Hpow : 0 < 2 ^ Z.pos n) by (apply Z.pow_pos_nonneg; lia).
    assert (HE : ex + Z.pos n = E) by lia. rewrite HE.
    split; [apply Z.div_pos; lia|]. split.
    + intro Hpos.
      destruct (Z.pos mx / 2 ^ Z.pos n) as [|q|q] eqn:Eq; try lia.
      cbn [Zdigits2].
      assert (Hd : Z.pos (digits2_pos q) = Z.pos (digits2_pos mx) - Z.pos n).
      { apply digits_unique.
        pose proof (Z.div_mod (Z.pos mx) (2 ^ Z.pos n) ltac:(lia)) as Hdm.
        pose proof (Z.mod_pos_bound (Z.pos mx) (2 ^ Z.pos n) Hpow) as Hmod.
        rewrite Eq in Hdm.
        assert (Hn : Z.pos n < Z.pos (digits2_pos mx)).
        { destruct (Z.ltb_spec (Z.pos n) (Z.pos (digits2_pos mx))); [assumption|].
          exfalso.
          assert (2 ^ Z.pos (digits2_pos mx) <= 2 ^ Z.pos n) by (apply Z.pow_le_mono_r; lia).
          assert (Z.pos mx / 2 ^ Z.pos n = 0) by (apply Z.div_small; lia).
          lia. }
        replace (Z.pos (digits2_pos mx)) with ((Z.pos (digits2_pos mx) - Z.pos n) + Z.pos n) in Bhi by lia.
        replace (Z.pos (digits2_pos mx) - 1) with ((Z.pos (digits2_pos mx) - Z.pos n - 1) + Z.pos n) in Blo by lia.
        rewrite Z.pow_add_r in Bhi, Blo by lia.
        split; nia. }
      rewrite Hd. unfold E at 2.
      replace (Z.pos (digits2_pos mx) - Z.pos n + E) with (Z.pos (digits2_pos mx) + ex) by lia.
      reflexivity.
    + intro Hz.
      assert (Hsmall : Z.pos mx < 2 ^ Z.pos n).
      { destruct (Z.ltb_spec (Z.pos mx) (2 ^ Z.pos n)); [assumption|].
        exfalso. assert (1 <= Z.pos mx / 2 ^ Z.pos n); [|lia].
        apply Z.div_le_lower_bound; lia. }
      assert (Hd : Z.pos (digits2_pos mx) <= Z.pos n).
      { destruct (Z.leb_spec (Z.pos (digits2_pos mx)) (Z.pos n)); [assumption|].
        exfalso.
        assert (2 ^ Z.pos n <= 2 ^ (Z.pos (digits2_pos mx) - 1)) by (apply Z.pow_le_mono_r; lia).
        lia. }
      unfold E in *. unfold SpecFloat.fexp in *. lia.
Qed.

Lemma second_shift (m1 e1 mr : Z) :
  settled prec emax m1 e1 -> mr = m1 \/ mr = m1 + 1 ->
  match shr_m (fst (shr_fexp prec emax mr e1 loc_Exact)) with
  | Z0 => True
  | Z.pos m =>
      fexp prec emax (Z.pos (digits2_pos m) + snd (shr_fexp prec emax mr e1 loc_Exact))
      = snd (shr_fexp prec emax mr e1 loc_Exact)
  | Z.neg _ => False
  end.
Proof.
  intros (Hnn & Hpos & Hzero) Hmr. unfold shr_fexp.
  cbn [shr_record_of_loc].
  destruct (Z.eq_dec mr 0) as [->|Hnz].
  { cbn [Zdigits2]. destruct (fexp prec emax (0 + e1) - e1) as [|n|n]; cbn [shr fst snd shr_m]; auto.
    rewrite iter_pos_shr_m by (simpl; lia). simpl. exact I. }
  destruct (Z.eq_dec m1 0) as [->|Hm1].
  { assert (mr = 1) by lia. subst mr. cbn [Zdigits2 digits2_pos].
    rewrite Hzero by reflexivity. rewrite Z.sub_diag. cbn [shr fst snd shr_m digits2_pos].
    now apply Hzero. }
  assert (H1 : 0 < m1) by lia. specialize (Hpos H1).
  destruct m1 as [|p1|p1]; try lia. cbn [Zdigits2] in Hpos.
  pose proof (digits_bounds p1) as [Blo Bhi].
  set (d1 := Z.pos (digits2_pos p1)) in *.
  destruct Hmr as [-> | ->].
  { cbn [Zdigits2]. fold d1. rewrite Hpos, Z.sub_diag. cbn [shr fst snd shr_m].
    fold d1. exact Hpos. }
  destruct (Z.pos p1 + 1) as [|q|q] eqn:Eq; try lia.
  cbn [Zdigits2].
  destruct (Z.ltb_spec (Z.pos q) (2 ^ d1)) as [Hlt|Hge].
  { assert (Hd : Z.pos (digits2_pos q) = d1) by (apply digits_unique; lia).
    rewrite Hd, Hpos, Z.sub_diag. cbn [shr fst snd shr_m]. rewrite Hd. exact Hpos. }
  assert (Hq : Z.pos q = 2 ^ d1) by lia.
  assert (Hd : Z.pos (digits2_pos q) = d1 + 1).
  { apply digits_unique. replace (d1 + 1 - 1) with d1 by lia.
    rewrite Z.pow_add_r by (unfold d1; lia). simpl (2 ^ 1). lia. }
  rewrite Hd.
  replace (d1 + 1 + e1) with ((d1 + e1) + 1) by lia.
  destruct (fexp_step (d1 + e1)) as [Hs|Hs]; rewrite Hs, Hpos.
  - rewrite Z.sub_diag. cbn [shr fst snd shr_m]. rewrite Hd.
    replace (d1 + 1 + e1) with ((d1 + e1) + 1) by lia. rewrite Hs. exact Hpos.
  - replace (e1 + 1 - e1) with 1 by lia. cbn [shr fst snd iter_pos].
    rewrite shr_1_m by (simpl; lia). cbn [shr_m].
    assert (Hhalf : Z.pos q / 2 = 2 ^ (d1 - 1)).
    { rewrite Hq. replace d1 with ((d1 - 1) + 1) at 1 by lia.
      rewrite Z.pow_add_r by (unfold d1; lia). simpl (2 ^ 1).
      apply Z.div_mul. lia. }
    rewrite Hhalf.
    assert (Hp : 0 < 2 ^ (d1 - 1)) by (apply Z.pow_pos_nonneg; unfold d1; lia).
    destruct (2 ^ (d1 - 1)) as [|h|h] eqn:Eh; try lia.
    assert (Hdh : Z.pos (digits2_pos h) = d1).
    { apply digits_unique. rewrite <- Eh.
      split; [lia|]. apply Z.pow_lt_mono_r; unfold d1; lia. }
    rewrite Hdh. replace (d1 + (e1 + 1)) with ((d1 + e1) + 1) by lia.
    rewrite Hs, Hpos. reflexivity.
Qed.

Lemma round_nearest_even_near (m : Z) (l : location) :
  round_nearest_even m l = m \/ round_nearest_even m l = m + 1.
Proof.
  destruct l as [|[| |]]; cbn [round_nearest_even]; auto.
  destruct (Z.even m); auto.
Qed.

Lemma binary_round_aux_valid (sx : bool) (mx : positive) (ex : Z) (lx : location) :
  ex <= fexp prec emax (Zdigits2 (Z.pos mx) + ex) ->
  valid_binary prec emax (binary_round_aux prec emax sx (Z.pos mx) ex lx) = true.
Proof.
  intro Hle. unfold binary_round_aux.
  pose proof (first_shift mx ex lx Hle) as Hset.
  destruct (shr_fexp prec emax (Z.pos mx) ex lx) as [mrs' e'] eqn:E1.
  cbn [fst snd] in Hset.
  pose proof (second_shift (shr_m mrs') e'
                (round_nearest_even (shr_m mrs') (loc_of_shr_record mrs')) Hset
                (round_nearest_even_near _ _)) as H2.
  destruct (shr_fexp prec emax (round_nearest_even (shr_m mrs') (loc_of_shr_record mrs')) e' loc_Exact)
    as [mrs'' e''] eqn:E2.
  cbn [fst snd] in H2.
  destruct (shr_m mrs'') as [|m|m]; [reflexivity| |reflexivity].
  destruct (Z.leb_spec e'' (emax - prec)) as [Hb|Hb]; [|reflexivity].
  cbn [valid_binary]. unfold bounded, canonical_mantissa.
  rewrite H2, Z.eqb_refl. cbn [andb]. now apply Z.leb_le.
Qed.

Lemma digits_iter_xO (d m : positive) :
  Z.pos (digits2_pos (Pos.iter xO m d)) = Z.pos (digits2_pos m) + Z.pos d.
Proof.
  revert m. induction d as [|d IH] using Pos.peano_ind; intro m.
  - simpl. lia.
  - rewrite Pos.iter_succ. cbn [digits2_pos]. rewrite Pos2Z.inj_succ, IH. lia.
Qed.

Lemma binary_round_valid (sx : bool) (mx : positive) (ex : Z) :
  valid_binary prec emax (binary_round prec emax sx mx ex) = true.
Proof.
  unfold binary_round, shl_align.
  destruct (fexp prec emax (Z.pos (digits2_pos mx) + ex) - ex) as [|d|d] eqn:Ed.
  - apply binary_round_aux_valid. cbn [Zdigits2]. lia.
  - apply binary_round_aux_valid. cbn [Zdigits2]. lia.
  - apply binary_round_aux_valid. cbn [Zdigits2].
    rewrite digits_iter_xO.
    replace (Z.pos (digits2_pos mx) + Z.pos d + fexp prec emax (Z.pos (digits2_pos mx) + ex))
      with (Z.pos (digits2_pos mx) + ex) by lia.
    lia.
Qed.

End Format.

Lemma round_float_valid (f : spec_float) :
  valid_binary 24 128 (round_float F32 f) = true.
Proof.
  destruct f as [s|s| |s m e]; try reflexivity.
  cbn [round_float float_prec float_emax]. apply binary_round_valid. lia.
Qed.

Lemma float_of_int_valid (z : Z) :
  valid_binary 24 128 (float_of_int F32 z) = true.
Proof.
  unfold float_of_int, binary_normalize. cbn [float_prec float_emax].
  destruct z; [reflexivity| |]; apply binary_round_valid; lia.
Qed.

End Rounding.

(** ** Conversions that lose nothing *)

Module Exact.

Lemma odd_part_spec (p : positive) :
  forall e q e0, odd_part p e = (q, e0) ->
    exists t, 0 <= t /\ Z.pos p = Z.pos q * 2 ^ t /\ e0 = e + t.
Proof.
  induction p as [p IH|p IH|]; intros e q e0 H; cbn [odd_part] in H.
  - injection H as <- <-. exists 0. rewrite Z.pow_0_r. lia.
  - destruct (IH _ _ _ H) as (t & Ht & Hp & He).
    exists (t + 1). rewrite Z.pow_add_r by lia. change (2 ^ 1) with 2. lia.
  - injection H as <- <-. exists 0. rewrite Z.pow_0_r. lia.
Qed.

Lemma odd_part_shift (n : Z) :
  0 <= n -> forall (m p : positive) (e : Z),
    Z.pos m = Z.pos p * 2 ^ n -> odd_part m e = odd_part p (e + n).
Proof.
  intro Hn. pattern n. apply natlike_ind; [| |exact Hn].
  - intros m p e H. rewrite Z.pow_0_r in H. rewrite Z.add_0_r.
    assert (m = p) by lia. now subst.
  - intros k Hk IH m p e H.
    rewrite Z.pow_succ_r in H by assumption.
    destruct m as [m|m|]; try lia.
    cbn [odd_part]. rewrite (IH m p (e + 1)) by lia. f_equal. lia.
Qed.

Lemma dyadic_shift (s : bool) (m p : positive) (e n : Z) :
  0 <= n -> Z.pos m = Z.pos p * 2 ^ n ->
  dyadic (cond_Zopp s (Z.pos m)) e = dyadic (cond_Zopp s (Z.pos p)) (e + n).
Proof.
  intros Hn H. destruct s; cbn [cond_Zopp Z.opp dyadic];
    now rewrite (odd_part_shift n Hn m p e H).
Qed.

Lemma digits_shift (m q : positive) (t : Z) :
  0 <= t -> Z.pos m = Z.pos q * 2 ^ t ->
  Z.pos (digits2_pos m) = Z.pos (digits2_pos q) + t.
Proof.
  intros Ht H. apply Rounding.digits_unique.
  pose proof (Rounding.digits_bounds q) as [Blo Bhi].
  replace (Z.pos (digits2_pos q) + t - 1) with ((Z.pos (digits2_pos q) - 1) + t) by lia.
  rewrite !Z.pow_add_r by lia.
  assert (0 < 2 ^ t) by (apply Z.pow_pos_nonneg; lia).
  rewrite H. split; nia.
Qed.

Lemma shr_1_even (k : Z) :
  0 <= k ->
  shr_1 {| shr_m := 2 * k; shr_r := false; shr_s := false |}
  = {| shr_m := k; shr_r := false; shr_s := false |}.
Proof. intro Hk. destruct k as [|k|k]; [reflexivity|reflexivity|lia]. Qed.

Lemma iter_shr_exact (n : positive) :
  forall k, 0 <= k ->
    iter_pos shr_1 n {| shr_m := k * 2 ^ Z.pos n; shr_r := false; shr_s := false |}
    = {| shr_m := k; shr_r := false; shr_s := false |}.
Proof.
  induction n as [n IH|n IH|]; intros k Hk; cbn [iter_pos].
  - assert (Hp : 0 < 2 ^ Z.pos n) by (apply Z.pow_pos_nonneg; lia).
    replace (k * 2 ^ Z.pos n~1) with (2 * ((k * 2 ^ Z.pos n) * 2 ^ Z.pos n)).
    + rewrite shr_1_even by nia. rewrite IH by nia. now apply IH.
    + replace (Z.pos n~1) with (1 + Z.pos n + Z.pos n) by lia.
      rewrite !Z.pow_add_r by lia. change (2 ^ 1) with 2.
      generalize (2 ^ Z.pos n). intro x. ring.
  - assert (Hp : 0 < 2 ^ Z.pos n) by (apply Z.pow_pos_nonneg; lia).
    replace (k * 2 ^ Z.pos n~0) with ((k * 2 ^ Z.pos n) * 2 ^ Z.pos n).
    + rewrite IH by nia. now apply IH.
    + replace (Z.pos n~0) with (Z.pos n + Z.pos n) by lia.
      rewrite !Z.pow_add_r by lia.
      generalize (2 ^ Z.pos n). intro x. ring.
  - replace (k * 2 ^ 1) with (2 * k) by (change (2 ^ 1) with 2; ring).
    now apply shr_1_even.
Qed.

Lemma iter_xO_value (n m : positive) :
  Z.pos (Pos.iter xO m n) = Z.pos m * 2 ^ Z.pos n.
Proof.
  induction n as [|n IH] using Pos.peano_ind.
  - simpl. lia.
  - rewrite Pos.iter_succ, Pos2Z.inj_succ, Z.pow_succ_r by lia.
    rewrite Pos2Z.inj_xO, IH. ring.
Qed.

Section Format.

Variables prec emax : Z.
Hypothesis emax_large : prec < emax.

Lemma shr_fexp_stay (m ez : Z) (l : location) :
  fexp prec emax (Zdigits2 m + ez) = ez ->
  shr_fexp prec emax m ez l = (shr_record_of_loc m l, ez).
Proof.
  intro H. unfold shr_fexp.
  change (shr (shr_record_of_loc m l) ez (fexp prec emax (Zdigits2 m + ez) - ez)
          = (shr_record_of_loc m l, ez)).
  rewrite H, Z.sub_diag. reflexivity.
Qed.

Lemma shr_fexp_shift (m ez : Z) (l : location) (n : positive) :
  fexp prec emax (Zdigits2 m + ez) - ez = Z.pos n ->
  shr_fexp prec emax m ez l = (iter_pos shr_1 n (shr_record_of_loc m l), ez + Z.pos n).
Proof.
  intro H. unfold shr_fexp.
  change (shr (shr_record_of_loc m l) ez (fexp prec emax (Zdigits2 m + ez) - ez)
          = (iter_pos shr_1 n (shr_record_of_loc m l), ez + Z.pos n)).
  rewrite H. reflexivity.
Qed.

Lemma binary_round_cases (s : bool) (m : positive) (e : Z) :
  binary_round prec emax s m e
  = match fexp prec emax (Z.pos (digits2_pos m) + e) - e with
    | Z.neg n =>
        binary_round_aux prec emax s (Z.pos (Pos.iter xO m n))
          (fexp prec emax (Z.pos (digits2_pos m) + e)) loc_Exact
    | _ => binary_round_aux prec emax s (Z.pos m) e loc_Exact
    end.
Proof.
  unfold binary_round, shl_align.
  now destruct (fexp prec emax (Z.pos (digits2_pos m) + e) - e).
Qed.

(** The rounding of [m * 2^e] is [m * 2^e] when that is a value of the
    format. *)
Lemma binary_round_exact (s : bool) (m : positive) (e : Z) :
  representable_in prec emax (dyadic (cond_Zopp s (Z.pos m)) e) = true ->
  number_of_float (binary_round prec emax s m e) = dyadic (cond_Zopp s (Z.pos m)) e.
Proof.
  intro Hrep.
  destruct (odd_part m e) as [q e0] eqn:Eodd.
  destruct (odd_part_spec m e q e0 Eodd) as (t & Ht & Hm & He0).
  assert (Hq : Zdigits2 (Z.pos q) <= prec /\ emin prec emax <= e0 /\
               Zdigits2 (Z.pos q) + e0 <= emax).
  { destruct s; cbn [cond_Zopp Z.opp dyadic] in Hrep; rewrite Eodd in Hrep;
      cbn [representable_in Z.eqb orb Zdigits2] in Hrep;
      rewrite !andb_true_iff in Hrep; cbn [Zdigits2]; lia. }
  cbn [Zdigits2] in Hq. destruct Hq as (Hdq & Hlo & Hhi).
  pose proof (digits_shift m q t Ht Hm) as Hd.
  assert (HE : fexp prec emax (Z.pos (digits2_pos m) + e) <= e0 /\
               fexp prec emax (Z.pos (digits2_pos m) + e) <= emax - prec).
  { unfold SpecFloat.fexp, emin in *. lia. }
  destruct HE as (HE0 & HEmax).
  assert (Hfix : forall (p : positive) (ez : Z),
             fexp prec emax (Z.pos (digits2_pos p) + ez) = ez -> ez <= emax - prec ->
             binary_round_aux prec emax s (Z.pos p) ez loc_Exact = S754_finite s p ez).
  { intros p ez Hf Hle. unfold binary_round_aux.
    rewrite shr_fexp_stay by exact Hf.
    cbn [shr_record_of_loc loc_of_shr_record shr_m shr_r shr_s round_nearest_even].
    rewrite shr_fexp_stay by exact Hf.
    cbn [shr_record_of_loc shr_m].
    destruct (Z.leb_spec ez (emax - prec)); [reflexivity|lia]. }
  rewrite binary_round_cases.
  destruct (fexp prec emax (Z.pos (digits2_pos m) + e) - e) as [|n|n] eqn:En.
  - rewrite (Hfix m e) by lia. reflexivity.
  - (* the mantissa loses [n] zeros *)
    assert (Hn : Z.pos n <= t) by lia.
    assert (Hk : 0 < Z.pos q * 2 ^ (t - Z.pos n))
      by (apply Z.mul_pos_pos; [lia|apply Z.pow_pos_nonneg; lia]).
    destruct (Z.pos q * 2 ^ (t - Z.pos n)) as [|p|p] eqn:Ep; try lia.
    assert (Hmp : Z.pos m = Z.pos p * 2 ^ Z.pos n).
    { rewrite <- Ep, <- Z.mul_assoc, <- Z.pow_add_r by lia.
      now replace (t - Z.pos n + Z.pos n) with t by lia. }
    pose proof (digits_shift m p (Z.pos n) ltac:(lia) Hmp) as Hdp.
    unfold binary_round_aux.
    rewrite (shr_fexp_shift (Z.pos m) e loc_Exact n) by exact En.
    cbn [shr_record_of_loc].
    assert (Hshr : iter_pos shr_1 n {| shr_m := Z.pos m; shr_r := false; shr_s := false |}
                   = {| shr_m := Z.pos p; shr_r := false; shr_s := false |})
      by (rewrite Hmp; apply iter_shr_exact; lia).
    rewrite Hshr.
    cbn [loc_of_shr_record shr_m shr_r shr_s round_nearest_even].
    rewrite shr_fexp_stay.
    + cbn [shr_record_of_loc shr_m].
      destruct (Z.leb_spec (e + Z.pos n) (emax - prec)); [|lia].
      cbn [number_of_float]. symmetry. now apply dyadic_shift.
    + cbn [Zdigits2].
      replace (Z.pos (digits2_pos p) + (e + Z.pos n)) with (Z.pos (digits2_pos m) + e) by lia.
      lia.
  - (* the mantissa is filled up with [n] zeros *)
    pose proof (iter_xO_value n m) as Hs.
    pose proof (Rounding.digits_iter_xO n m) as Hds.
    rewrite Hfix by (try rewrite Hds; unfold SpecFloat.fexp in *; lia).
    cbn [number_of_float].
    rewrite (dyadic_shift s _ m _ (Z.pos n) ltac:(lia) Hs). f_equal. lia.
Qed.

End Format.

Lemma kind_bounds (w : float_width) : float_prec w < float_emax w.
Proof. now destruct w. Qed.

Lemma float_of_int_exact (w : float_width) (z : Z) :
  representable w (dyadic z 0) = true ->
  number_of_float (float_of_int w z) = dyadic z 0.
Proof.
  intro H. unfold float_of_int, binary_normalize.
  destruct z as [|p|p]; [reflexivity| |].
  - now apply (binary_round_exact _ _ (kind_bounds w) false p 0).
  - now apply (binary_round_exact _ _ (kind_bounds w) true p 0).
Qed.

Lemma round_float_exact (w : float_width) (f : spec_float) :
  representable w (number_of_float f) = true ->
  number_of_float (round_float w f) = number_of_float f.
Proof.
  destruct f as [s|s| |s m e]; try reflexivity.
  intro H. now apply (binary_round_exact _ _ (kind_bounds w) s m e).
Qed.

Lemma number_eqb_refl (n : number) : n <> NoNumber -> number_eqb n n = true.
Proof.
  destruct n as [m e|s|]; intro H; cbn [number_eqb].
  - now rewrite !Z.eqb_refl.
  - now destruct s.
  - congruence.
Qed.

Lemma dyadic_number (m e : Z) : dyadic m e <> NoNumber.
Proof.
  destruct m as [|p|p]; cbn [dyadic]; try discriminate;
    destruct (odd_part p e); discriminate.
Qed.

(** Two floating values that compare equal are the same number. *)
Lemma SFeqb_same_number (a b : spec_float) :
  SFeqb a b = true -> number_eqb (number_of_float b) (number_of_float a) = true.
Proof.
  unfold SFeqb.
  destruct a as [sa|sa| |sa ma ea], b as [sb|sb| |sb mb eb]; cbn [SFcompare]; intro H;
    try discriminate H; try reflexivity;
    try (destruct sa; discriminate H); try (destruct sb; discriminate H);
    try (destruct sa, sb; try discriminate H; reflexivity).
  -
    assert (Heq : sa = sb /\ ea = eb /\ ma = mb).
    { destruct sa, sb; try discriminate;
        destruct (Z.compare_spec ea eb) as [He|He|He]; try discriminate;
        destruct (Pos.compare_cont Eq ma mb) eqn:Ec; try discriminate;
        apply Pos.compare_eq in Ec; auto. }
    destruct Heq as (-> & -> & ->).
    apply number_eqb_refl. apply dyadic_number.
Qed.

(** A Python [float] that equals a Python [int] is that number. *)
Lemma float_is_int_number (x : spec_float) (z : Z) :
  float_is_int x z = true -> number_of_float x = dyadic z 0.
Proof.
  destruct x as [s|s| |s m e]; cbn [float_is_int number_of_float]; try discriminate.
  - intro H. apply Z.eqb_eq in H. now subst.
  - destruct (Z.leb_spec 0 e) as [He|He]; intro H; apply Z.eqb_eq in H.
    + assert (Hp : 0 < Z.pos m * 2 ^ e)
        by (apply Z.mul_pos_pos; [lia|apply Z.pow_pos_nonneg; lia]).
      destruct (Z.pos m * 2 ^ e) as [|p|p] eqn:Ep; try lia.
      subst z. rewrite (dyadic_shift s p m 0 e He (eq_sym Ep)).
      f_equal.
    + assert (Hp : 0 < 2 ^ (- e)) by (apply Z.pow_pos_nonneg; lia).
      destruct z as [|p|p]; destruct s; cbn [cond_Zopp Z.opp] in H; try lia.
      * assert (Hm : Z.pos m = Z.pos p * 2 ^ (- e)) by lia.
        rewrite (dyadic_shift false m p e (- e) ltac:(lia) Hm).
        cbn [cond_Zopp]. f_equal. lia.
      * assert (Hm : Z.pos m = Z.pos p * 2 ^ (- e)) by lia.
        rewrite (dyadic_shift true m p e (- e) ltac:(lia) Hm).
        cbn [cond_Zopp Z.opp]. f_equal. lia.
Qed.

(** When the sentinel is a value of the kind the comparison is made in,
    and the sample one of binary64, a sample that the comparison finds equal
    to the sentinel is the same number. *)
Lemma sample_eq_same_number (w : float_width) (v : pyval) (x : spec_float) :
  representable w (number_of_scalar v) = true ->
  representable F64 (number_of_float x) = true ->
  sample_eq w v x = true ->
  number_eqb (number_of_scalar v) (number_of_float x) = true.
Proof.
  intros Hv Hx. destruct v as [|b|z|f|t]; cbn [sample_eq number_of_scalar] in *;
    try discriminate.
  - intro H. apply SFeqb_same_number in H.
    now rewrite float_of_int_exact in H.
  - destruct (fits_64_bits z); intro H.
    + apply SFeqb_same_number in H. now rewrite float_of_int_exact in H.
    + apply float_is_int_number in H. rewrite H.
      apply number_eqb_refl, dyadic_number.
  - destruct w.
    + destruct (SFltb (SFabs f) fits_float32); intro H; apply SFeqb_same_number in H.
      * now rewrite round_float_exact in H.
      * rewrite round_float_exact in H by assumption.
        destruct (number_of_float f) as [m1 e1|s1|], (number_of_float x) as [m2 e2|s2|];
          cbn [number_eqb] in *; try discriminate.
        -- rewrite andb_true_iff, !Z.eqb_eq in *. intuition congruence.
        -- now destruct s1, s2.
    + intro H. now apply SFeqb_same_number in H.
Qed.

End Exact.

(** ** Masking of the no-data value, with nothing rounded *)

Lemma small_integer_representable (z : Z) :
  Z.abs z < 2 ^ 53 -> representable F64 (dyadic z 0) = true.
Proof.
  intro Hz. destruct z as [|p|p]; [reflexivity| |];
    cbn [dyadic]; destruct (odd_part p 0) as [q e0] eqn:Eodd;
    destruct (Exact.odd_part_spec p 0 q e0 Eodd) as (t & Ht & Hp & ->);
    pose proof (Exact.digits_shift p q t Ht Hp) as Hd;
    pose proof (Rounding.digits_bounds p) as [Blo _];
    assert (Hdp : Z.pos (digits2_pos p) <= 53)
      by (destruct (Z.leb_spec (Z.pos (digits2_pos p)) 53); [assumption|];
          exfalso;
          assert (2 ^ 53 <= 2 ^ (Z.pos (digits2_pos p) - 1))
            by (apply Z.pow_le_mono_r; lia);
          cbn [Z.abs] in Hz; lia);
    unfold representable, representable_in;
    change (float_prec F64) with 53; change (float_emax F64) with 1024;
    change (emin 53 1024) with (-1074);
    cbn [Z.eqb orb Zdigits2];
    rewrite !andb_true_iff, !Z.leb_le; lia.
Qed.

Lemma none_held (w : float_width) (v : pyval) (l : list spec_float) :
  representable w (number_of_scalar v) = true ->
  List.forallb (representable F64) (List.map number_of_float l) = true ->
  List.existsb (number_eqb (number_of_scalar v)) (List.map number_of_float l) = false ->
  List.existsb (sample_eq w v) l = false.
Proof.
  intros Hv. induction l as [|x l IH]; cbn [List.map List.forallb List.existsb];
    [reflexivity|].
  rewrite andb_true_iff, !orb_false_iff. intros [Hx Hl] [Hne Hnone].
  split; [|now apply IH].
  destruct (sample_eq w v x) eqn:E; [|reflexivity].
  now rewrite (Exact.sample_eq_same_number w v x Hv Hx E) in Hne.
Qed.

Lemma numbers_of_converted (l : list Z) :
  List.forallb (representable F64) (List.map (fun z => dyadic z 0) l) = true ->
  List.map number_of_float (List.map (float_of_int F64) l)
  = List.map (fun z => dyadic z 0) l.
Proof.
  induction l as [|z l IH]; cbn [List.map List.forallb]; [reflexivity|].
  rewrite andb_true_iff. intros [Hz Hl].
  now rewrite Exact.float_of_int_exact, IH.
Qed.

(** A grid whose samples are numbers of binary64, none of them the
    sentinel, holds nothing for the masker to find when the sentinel is a
    value of the kind the comparison is made in. *)
Lemma no_equal_sample_none_held (v : pyval) (a : ndarray) :
  List.forallb (representable F64) (sample_numbers a) = true ->
  representable (compared_as a) (number_of_scalar v) = true ->
  has_sample v a = false ->
  holds_nodata v a = false.
Proof.
  unfold has_sample, holds_nodata.
  destruct a as [w sh l|w sh l]; cbn [sample_numbers compared_as widened astype];
    intros Hs Hv Hno.
  - apply none_held; [assumption| |]; now rewrite numbers_of_converted.
  - now apply none_held.
Qed.

(** Without these conditions a sample that is not the sentinel can be
    masked: the long integer 2^53 + 1 becomes 2^53 in binary64, and the
    binary64 value nearest 0.1 becomes, in binary32, the binary32 value
    nearest 0.1. *)
Lemma masked_though_unequal :
  let longs := IntArray I64 [1%nat] [2 ^ 53 + 1] in
  let tenth := match Parse.py_float "0.1" with Some f => f | None => S754_nan end in
  let singles := FloatArray F32 [1%nat] [round_float F32 tenth] in
  has_sample (VInt (2 ^ 53)) longs = false /\
  holds_nodata (VInt (2 ^ 53)) longs = true /\
  has_sample (VFloat tenth) singles = false /\
  holds_nodata (VFloat tenth) singles = true.
Proof. cbv zeta. repeat split; vm_compute; reflexivity. Qed.

(** C9, amended.  Masking twice with one sentinel is masking once.  When no
    sample is the sentinel, the samples are numbers of binary64 and the
    sentinel is a value of the floating kind the masker compares in, a
    floating grid is unchanged, and an integer grid is widened to binary64
    with every sample converted and none masked. *)
Theorem nodata_mask_idempotent_and_noop (arr : DataArray) (v : pyval) :
  _assign_nodata (_assign_nodata arr v) v = _assign_nodata arr v /\
  (List.forallb (representable F64) (sample_numbers (values arr)) = true ->
   representable (compared_as (values arr)) (number_of_scalar v) = true ->
   has_sample v (values arr) = false ->
   match values arr with
   | FloatArray _ _ _ => _assign_nodata arr v = arr
   | IntArray _ sh l =>
       values (_assign_nodata arr v) = FloatArray F64 sh (List.map (float_of_int F64) l)
   end).
Proof.
  split.
  - rewrite (assign_nodata_as_set (_assign_nodata arr v)).
    rewrite assign_nodata_values, widened_mask, mask_nodata_idem.
    rewrite (assign_nodata_as_set arr). reflexivity.
  - intros Hs Hv Hno. apply unmasked_when_none_held.
    now apply no_equal_sample_none_held.
Qed.

Lemma nodata_mask_idempotent_and_noop_witness :
  let arr := Examples.array_of (IntArray I16 [1%nat; 2%nat] [1; 2]) [] in
  List.forallb (representable F64) (sample_numbers (values arr)) = true /\
  representable (compared_as (values arr)) (number_of_scalar (VInt 9)) = true /\
  has_sample (VInt 9) (values arr) = false /\
  values (_assign_nodata arr (VInt 9))
    = FloatArray F64 [1%nat; 2%nat] (List.map (float_of_int F64) [1; 2]).
Proof.
  cbv zeta. split; [reflexivity|]. split; [reflexivity|]. split; [reflexivity|].
  exact (proj2 (nodata_mask_idempotent_and_noop
                  (Examples.array_of (IntArray I16 [1%nat; 2%nat] [1; 2]) []) (VInt 9))
               eq_refl eq_refl eq_refl).
Defined.

(** ** The body file *)

Lemma firstn_plus {A : Type} (a b : nat) (l : list A) :
  firstn (a + b) l = (firstn a l ++ firstn b (skipn a l))%list.
Proof.
  revert l. induction a as [|a IH]; intros [|x l]; simpl; auto.
  - now rewrite firstn_nil.
  - now rewrite IH.
Qed.

Lemma in_firstn {A : Type} (n : nat) (l : list A) (x : A) :
  In x (firstn n l) -> In x l.
Proof.
  intro H. rewrite <- (List.firstn_skipn n l). apply List.in_or_app. now left.
Qed.

Lemma in_skipn {A : Type} (n : nat) (l : list A) (x : A) :
  In x (skipn n l) -> In x l.
Proof.
  intro H. rewrite <- (List.firstn_skipn n l). apply List.in_or_app. now right.
Qed.

Lemma mapM_ok {A B : Type} (f : A -> result B) (g : A -> B) (l : list A) :
  (forall x, In x l -> f x = Ok (g x)) -> mapM f l = Ok (List.map g l).
Proof.
  induction l as [|x l IH]; intro H; [reflexivity|].
  simpl. rewrite (H x) by now left. simpl.
  rewrite IH by (intros; apply H; now right). reflexivity.
Qed.

Lemma chunks_concat (n : nat) (pieces : list (list byte)) (fuel : nat) :
  (0 < n)%nat ->
  Forall (fun p => List.length p = n) pieces ->
  (List.length pieces <= fuel)%nat ->
  chunks fuel n (List.concat pieces) = pieces.
Proof.
  intros Hn Hall. revert fuel.
  induction Hall as [|p pieces Hp Hall IH]; intros fuel Hfuel.
  - destruct fuel; simpl; [reflexivity|].
    destruct n; [lia|]. reflexivity.
  - destruct fuel as [|fuel]; [simpl in Hfuel; lia|].
    cbn [chunks List.concat].
    assert (Hlen : (n <=? List.length (p ++ List.concat pieces))%nat = true).
    { apply Nat.leb_le. rewrite List.length_app. lia. }
    assert (Hpos : (0 <? n)%nat = true) by now apply Nat.ltb_lt.
    rewrite Hlen, Hpos. cbn [andb].
    rewrite <- Hp at 1 3.
    rewrite List.firstn_app, Nat.sub_diag, List.firstn_all, List.firstn_0, List.app_nil_r.
    rewrite List.skipn_app, Nat.sub_diag, List.skipn_all, List.skipn_0.
    simpl. rewrite IH; [reflexivity|]. simpl in Hfuel. lia.
Qed.

Lemma length_concat_pieces (n : nat) (pieces : list (list byte)) :
  Forall (fun p => List.length p = n) pieces ->
  List.length (List.concat pieces) = (n * List.length pieces)%nat.
Proof.
  induction 1 as [|p pieces Hp Hall IH]; simpl; [lia|].
  rewrite List.length_app, IH, Hp. lia.
Qed.

Lemma get_append_file (fs : store) (f : string) (acc bs : list byte) :
  Dict.get f fs = Some acc ->
  Dict.get f (append_file fs f bs) = Some (acc ++ bs)%list /\
  forall p, p <> f -> Dict.get p (append_file fs f bs) = Dict.get p fs.
Proof.
  intro H. unfold append_file. rewrite H. split.
  - apply get_set_same.
  - intros p Hp. now apply get_set_other.
Qed.

Section Body.

Variable native : endian.

Lemma pack_row_stored (a : ndarray) (i c : nat) :
  pack_row native (abbrev_of a) (stored a) i c
  = Ok (List.concat (firstn c (skipn (i * c) (sample_bytes native (stored a))))).
Proof.
  destruct a as [w sh l|w sh l]; unfold abbrev_of, pack_row;
    cbn [kind_name stored astype String.eqb Ascii.eqb Bool.eqb int_bits sample_bytes].
  - rewrite (mapM_ok _ (fun z => word_bytes native 2 (z mod 2 ^ 16))).
    + cbn [bind]. now rewrite !List.skipn_map, !List.firstn_map.
    + intros z Hz. apply in_firstn, in_skipn in Hz.
      apply List.in_map_iff in Hz. destruct Hz as [z0 [<- _]].
      unfold pack_sample_h.
      pose proof (Bytes.wrap16_range z0) as [Hlo Hhi].
      apply Z.leb_le in Hlo. apply Z.ltb_lt in Hhi.
      now rewrite Hlo, Hhi.
  - rewrite (mapM_ok _ (fun f => word_bytes native 4 (float_bits F32 f))).
    + cbn [bind]. now rewrite !List.skipn_map, !List.firstn_map.
    + reflexivity.
Qed.

Lemma write_rows_stored (a : ndarray) (f : string) (c todo : nat) :
  forall (fs : store) (i : nat) (acc : list byte),
    Dict.get f fs = Some acc ->
    exists fs',
      write_rows native fs (stored a) (abbrev_of a) f c todo i = (fs', Ok tt) /\
      Dict.get f fs' =
        Some (acc ++ List.concat (firstn (todo * c) (skipn (i * c) (sample_bytes native (stored a)))))%list /\
      forall p, p <> f -> Dict.get p fs' = Dict.get p fs.
Proof.
  induction todo as [|todo IH]; intros fs i acc Hget.
  - exists fs. simpl. rewrite List.app_nil_r. auto.
  - cbn [write_rows]. rewrite pack_row_stored.
    set (bs := List.concat (firstn c (skipn (i * c) (sample_bytes native (stored a))))).
    destruct (get_append_file fs f acc bs Hget) as [Hsame Hother].
    destruct (IH (append_file fs f bs) (S i) (acc ++ bs)%list Hsame)
      as (fs' & Hrun & Hf & Hp).
    exists fs'. split; [exact Hrun|]. split.
    + rewrite Hf. f_equal. rewrite <- List.app_assoc. f_equal.
      unfold bs. rewrite <- List.concat_app. f_equal.
      change (S todo * c)%nat with (c + todo * c)%nat.
      rewrite firstn_plus, List.skipn_skipn. reflexivity.
    + intros p Hne. rewrite Hp by assumption. now apply Hother.
Qed.

(** [to_tas] writes the samples of the stored array, one after the other *)
Lemma to_tas_stored (a : ndarray) (fs : store) (f : string) (r c : nat) :
  nd_shape a = [r; c] ->
  nd_size a = (r * c)%nat ->
  exists fs',
    to_tas native fs (stored a) (kind_name a) f = (fs', Ok tt) /\
    Dict.get f fs' = Some (List.concat (sample_bytes native (stored a))) /\
    forall p, p <> f -> Dict.get p fs' = Dict.get p fs.
Proof.
  intros Hsh Hsize. unfold to_tas.
  assert (Hsh' : nd_shape (stored a) = [r; c]) by (destruct a; exact Hsh).
  rewrite Hsh'. fold (abbrev_of a).
  destruct (write_rows_stored a f c r (Dict.set f [] fs) 0 [] (get_set_same f [] fs))
    as (fs' & Hrun & Hf & Hp).
  exists fs'. split; [exact Hrun|]. split.
  - rewrite Hf. simpl. f_equal. f_equal.
    apply List.firstn_all2.
    destruct a as [w sh l|w sh l]; simpl in *; rewrite !List.length_map; lia.
  - intros p Hne. rewrite Hp by assumption. now apply get_set_other.
Qed.

(** [numpy.fromfile] reads them back *)
Lemma np_fromfile_stored (a : ndarray) (fs : store) (f : string) :
  Dict.get f fs = Some (List.concat (sample_bytes native (stored a))) ->
  np_fromfile native fs f (dtype_code a) = Ok (flat (stored a)).
Proof.
  intros Hget. unfold np_fromfile. rewrite Hget.
  destruct a as [w sh l|w sh l]; cbn [dtype_code].
  - change (np_dtype_of_string "i2") with (Some (@None endian, DInt I16)).
    cbv iota beta. cbn [itemsize stored astype sample_bytes int_bits].
    rewrite chunks_concat.
    + rewrite !List.map_map, List.length_map. cbn [flat]. rewrite List.length_map.
      f_equal. f_equal. apply List.map_ext. intro z.
      apply Bytes.short_round_trip.
    + lia.
    + apply Forall_forall. intros p Hp. apply List.in_map_iff in Hp.
      destruct Hp as [z [<- _]]. apply Bytes.length_word_bytes.
    + rewrite (length_concat_pieces 2).
      * lia.
      * apply Forall_forall. intros p Hp. apply List.in_map_iff in Hp.
        destruct Hp as [z [<- _]]. apply Bytes.length_word_bytes.
  - change (np_dtype_of_string "f4") with (Some (@None endian, DFloat F32)).
    cbv iota beta. cbn [itemsize stored astype sample_bytes].
    rewrite chunks_concat.
    + rewrite List.map_map, List.length_map. cbn [flat]. rewrite List.length_map.
      f_equal. f_equal. rewrite List.map_map.
      apply List.map_ext_in. intros y Hy.
      apply Bytes.float_round_trip. apply Rounding.round_float_valid.
    + lia.
    + apply Forall_forall. intros p Hp. apply List.in_map_iff in Hp.
      destruct Hp as [z [<- _]]. apply Bytes.length_word_bytes.
    + rewrite (length_concat_pieces 4).
      * lia.
      * apply Forall_forall. intros p Hp. apply List.in_map_iff in Hp.
        destruct Hp as [z [<- _]]. apply Bytes.length_word_bytes.
Qed.

End Body.

(** [resize] to the shape the array had *)
Lemma nd_resize_flat (a : ndarray) (r c : nat) :
  nd_shape a = [r; c] ->
  nd_size a = (r * c)%nat ->
  nd_resize (flat (stored a)) (Z.of_nat r) (Z.of_nat c) = Ok (stored a).
Proof.
  intros Hsh Hsize. unfold nd_resize.
  destruct (Z.ltb_spec (Z.of_nat r) 0); [lia|].
  destruct (Z.ltb_spec (Z.of_nat c) 0); [lia|].
  simpl orb. cbv iota. rewrite !Nat2Z.id.
  destruct a as [w sh l|w sh l]; simpl in *; subst sh; f_equal; f_equal;
    (rewrite List.firstn_app, List.firstn_all2 by (rewrite List.length_map; lia);
     rewrite List.length_map;
     replace (r * c - List.length l)%nat with 0%nat by lia;
     now rewrite List.firstn_0, List.app_nil_r).
Qed.

(** ** The header file *)

Lemma str_in_In (x : string) (l : list string) : str_in x l = true <-> In x l.
Proof.
  unfold str_in. rewrite List.existsb_exists. split.
  - intros [y [Hin Heq]]. apply String.eqb_eq in Heq. now subst.
  - intro Hin. exists x. split; [assumption | apply String.eqb_refl].
Qed.

Lemma distinct_NoDup (l : list string) : distinct l = true -> NoDup l.
Proof.
  induction l as [|x l IH]; intro H; [constructor|].
  simpl in H. apply andb_true_iff in H. destruct H as [Hx Hl].
  constructor; [|auto].
  intro Hin. apply str_in_In in Hin. rewrite Hin in Hx. discriminate.
Qed.

Lemma header_rows_ok : List.forallb row_ok HEADER_ROWS = true.
Proof. vm_compute. reflexivity. Qed.

Lemma header_rows_distinct : NoDup (List.map row_key HEADER_ROWS).
Proof. apply distinct_NoDup. vm_compute. reflexivity. Qed.

(** What a line made of a key, a colon, blanks and a text is read as *)
Lemma line_of_key (K pad t : string) :
  key_ok K = true -> PyStr.forallb PyStr.is_space pad = true ->
  line_key (K ++ ":" ++ pad ++ t) = K /\
  line_value (K ++ ":" ++ pad ++ t) = PyStr.strip t.
Proof.
  unfold key_ok. intros HK Hpad.
  apply andb_true_iff in HK. destruct HK as [HK Htitle].
  apply andb_true_iff in HK. destruct HK as [HK Hstrip].
  apply andb_true_iff in HK. destruct HK as [Hcolon Hfirst].
  apply negb_true_iff in Hcolon.
  apply String.eqb_eq in Htitle. apply String.eqb_eq in Hstrip.
  destruct K as [|c K]; [discriminate|]. apply negb_true_iff in Hfirst.
  assert (Hline : PyStr.strip (String c K ++ ":" ++ pad ++ t)
                  = String c K ++ String ":" (PyStr.rstrip (pad ++ t))).
  { unfold PyStr.strip. cbn [append PyStr.lstrip]. rewrite Hfirst.
    change (String c (K ++ String ":" (pad ++ t)))
      with (String c K ++ String ":" (pad ++ t)).
    rewrite StrFacts.rstrip_app.
    - now rewrite StrFacts.rstrip_nonspace.
    - now rewrite StrFacts.rstrip_nonspace. }
  unfold line_key, line_value. rewrite Hline.
  rewrite StrFacts.split_at_colon by assumption.
  cbn [hd tl]. split.
  - unfold PyStr.strip. cbn [PyStr.lstrip]. rewrite Hfirst, Hstrip. exact Htitle.
  - rewrite StrFacts.join_split_colon. now apply StrFacts.strip_rstrip_pad.
Qed.

Section Header.

Variable float_repr : spec_float -> string.

Lemma format_segments_render (segs : list segment) (d : attrs_t) (text : string) :
  format_segments float_repr segs d = Ok text -> text = render_segments float_repr segs d.
Proof.
  revert text. induction segs as [|[t|k] segs IH]; intros text H;
    cbn [format_segments] in H; cbn [render_segments].
  - now injection H as <-.
  - destruct (format_segments float_repr segs d) as [r|e]; cbn [bind] in H;
      [|discriminate].
    injection H as <-. now rewrite (IH r).
  - unfold field_text.
    destruct (Dict.get k d) as [v|]; [|discriminate].
    destruct (format_segments float_repr segs d) as [r|e]; cbn [bind] in H;
      [|discriminate].
    injection H as <-. now rewrite (IH r).
Qed.

Lemma template_segments :
  parse_template DEP_TEMPLATE =
  [Lit "Min:  "; Field "min"; Lit (NL ++ "Max:    "); Field "max";
   Lit (NL ++ "North:  "); Field "north"; Lit (NL ++ "South:  "); Field "south";
   Lit (NL ++ "East:   "); Field "east"; Lit (NL ++ "West:   "); Field "west";
   Lit (NL ++ "Cols:   "); Field "cols"; Lit (NL ++ "Rows:   "); Field "rows";
   Lit (NL ++ "Stacks: "); Field "stacks"; Lit (NL ++ "Data Type:  "); Field "dtype";
   Lit (NL ++ "Z Units:    "); Field "z_units";
   Lit (NL ++ "Xy Units:   "); Field "xy_units";
   Lit (NL ++ "Projection: "); Field "projection";
   Lit (NL ++ "Data Scale: "); Field "data_scale";
   Lit (NL ++ "Display Min:    "); Field "display_min";
   Lit (NL ++ "Display Max:    "); Field "display_max";
   Lit (NL ++ "Preferred Palette:  "); Field "preferred_palette";
   Lit (NL ++ "Palette Nonlinearity: "); Field "palette_nonlinearity";
   Lit (NL ++ "Nodata: "); Field "nodata";
   Lit (NL ++ "Byte Order: "); Field "byte_order";
   Lit NL; Field "metadata_entry"].
Proof. vm_compute. reflexivity. Qed.

(** The header is the twenty lines, each ended by a line feed, and the
    metadata text *)
Lemma format_template (d : attrs_t) (text : string) :
  format float_repr DEP_TEMPLATE d = Ok text ->
  text = render_rows float_repr d HEADER_ROWS (field_text float_repr d "metadata_entry").
Proof.
  unfold format. rewrite template_segments. intro H.
  apply format_segments_render in H. subst text.
  cbn [render_segments render_rows HEADER_ROWS row_line row_key row_pad row_field
       fst snd append NL].
  rewrite StrFacts.append_nil_r. reflexivity.
Qed.

End Header.

Section HeaderLines.

Variable float_repr : spec_float -> string.

Lemma key_single_line (row : string * string * string) :
  In row HEADER_ROWS ->
  single_line (row_key row ++ ":" ++ row_pad row) = true.
Proof.
  intro Hin. unfold HEADER_ROWS in Hin. simpl in Hin.
  repeat (destruct Hin as [<-|Hin]; [vm_compute; reflexivity|]). contradiction.
Qed.

(** The lines of the rendered rows *)
Lemma splitlines_rows (d : attrs_t) (rows : list (string * string * string))
    (tail : string) :
  Forall (fun row => single_line (row_line float_repr d row) = true) rows ->
  PyStr.splitlines (render_rows float_repr d rows tail)
  = (List.map (row_line float_repr d) rows ++ PyStr.splitlines tail)%list.
Proof.
  induction 1 as [|row rows Hrow Hrows IH]; [reflexivity|].
  cbn [render_rows List.map List.app]. unfold PyStr.splitlines in *.
  rewrite StrFacts.splitlines_line by assumption. now rewrite IH.
Qed.

Lemma parse_line_row (d : attrs_t) (row : string * string * string) :
  row_ok row = true ->
  is_some (read_back float_repr d (row_key row) (row_field row)) = true ->
  parse_line (row_line float_repr d row) = Ok (row_key row, row_value float_repr d row).
Proof.
  unfold row_ok. intros Hok Hread.
  apply andb_true_iff in Hok. destruct Hok as [Hok _].
  apply andb_true_iff in Hok. destruct Hok as [HK Hpad].
  destruct (line_of_key (row_key row) (row_pad row) (field_text float_repr d (row_field row)) HK Hpad)
    as [Hkey Hval].
  rewrite parse_line_eq. unfold row_line. rewrite Hkey, Hval.
  unfold row_value, read_back in *.
  destruct (coerce _ _); [reflexivity|discriminate].
Qed.

Lemma store_line_row (acc : attrs_t) (K : string) (v : pyval) :
  String.eqb K "Metadata Entry" = false -> store_line acc K v = Dict.set K v acc.
Proof. intro H. unfold store_line. now rewrite H. Qed.

Lemma parse_lines_rows (d : attrs_t) (rows : list (string * string * string))
    (rest : list string) :
  List.forallb row_ok rows = true ->
  List.forallb (fun row => is_some (read_back float_repr d (row_key row) (row_field row))) rows = true ->
  forall acc,
    parse_lines (List.map (row_line float_repr d) rows ++ rest) acc
    = parse_lines rest (fold_left (store_row float_repr d) rows acc).
Proof.
  induction rows as [|row rows IH]; intros Hok Hread acc; [reflexivity|].
  cbn [List.forallb] in Hok, Hread.
  apply andb_true_iff in Hok. destruct Hok as [Hrow Hok].
  apply andb_true_iff in Hread. destruct Hread as [Hr Hread].
  cbn [List.map List.app parse_lines fold_left].
  rewrite parse_line_row by assumption. cbn [bind fst snd].
  rewrite store_line_row.
  - now apply IH.
  - unfold row_ok in Hrow. apply andb_true_iff in Hrow. destruct Hrow as [_ Hm].
    now apply negb_true_iff in Hm.
Qed.

Lemma get_store_rows_other (d : attrs_t) (rows : list (string * string * string))
    (K : string) (acc : attrs_t) :
  ~ In K (List.map row_key rows) ->
  Dict.get K (fold_left (store_row float_repr d) rows acc) = Dict.get K acc.
Proof.
  revert acc. induction rows as [|row rows IH]; intros acc Hnin; [reflexivity|].
  cbn [fold_left]. rewrite IH.
  - unfold store_row. apply get_set_other. intro E. apply Hnin. left. now symmetry.
  - intro Hin. apply Hnin. now right.
Qed.

Lemma get_store_rows (d : attrs_t) (rows : list (string * string * string))
    (row : string * string * string) (acc : attrs_t) :
  NoDup (List.map row_key rows) -> In row rows ->
  Dict.get (row_key row) (fold_left (store_row float_repr d) rows acc) = Some (row_value float_repr d row).
Proof.
  revert acc. induction rows as [|row0 rows IH]; intros acc Hnd Hin; [contradiction|].
  cbn [List.map] in Hnd. inversion Hnd as [|? ? Hnotin Hnd']; subst.
  cbn [fold_left]. destruct Hin as [->|Hin].
  - rewrite get_store_rows_other by assumption.
    unfold store_row. apply get_set_same.
  - now apply IH.
Qed.

(** *** The metadata lines *)

Lemma metadata_line_single (l : string) :
  single_line l = true -> single_line (metadata_line l) = true.
Proof.
  intro H. unfold metadata_line. rewrite StrFacts.single_line_app, H. reflexivity.
Qed.

Lemma splitlines_metadata_body (l : string) (ls : list string) :
  Forall (fun l => single_line l = true) (l :: ls) ->
  PyStr.splitlines_from false
    (metadata_line l ++
     String.concat EmptyString
       (List.map (fun m => NL ++ "Metadata Entry: " ++ m) ls))
  = List.map metadata_line (l :: ls).
Proof.
  revert l. induction ls as [|l2 ls IH]; intros l Hall.
  - cbn [List.map String.concat]. rewrite StrFacts.append_nil_r.
    rewrite StrFacts.splitlines_last
      by (apply metadata_line_single; now inversion Hall).
    reflexivity.
  - inversion Hall as [|? ? Hl Hrest]; subst.
    cbn [List.map].
    assert (Hcat : String.concat EmptyString
                     ((NL ++ "Metadata Entry: " ++ l2)
                      :: List.map (fun m => NL ++ "Metadata Entry: " ++ m) ls)
                   = String "010" (metadata_line l2 ++
                       String.concat EmptyString
                         (List.map (fun m => NL ++ "Metadata Entry: " ++ m) ls))).
    { destruct ls as [|l3 ls]; cbn [List.map String.concat].
      - now rewrite StrFacts.append_nil_r.
      - cbn [append NL]. unfold metadata_line.
        now rewrite !StrFacts.append_assoc. }
    rewrite Hcat.
    rewrite StrFacts.splitlines_line by now apply metadata_line_single.
    rewrite IH by assumption. reflexivity.
Qed.

Lemma splitlines_metadata (m : string) :
  PyStr.splitlines (metadata_lines m)
  = match PyStr.splitlines m with
    | [] => []
    | ls => EmptyString :: List.map metadata_line ls
    end.
Proof.
  unfold metadata_lines.
  pose proof (StrFacts.splitlines_single false m) as Hall.
  fold (PyStr.splitlines m) in Hall.
  destruct (PyStr.splitlines m) as [|l ls]; [reflexivity|].
  assert (Hcat : String.concat EmptyString
                   (List.map (fun m => NL ++ "Metadata Entry: " ++ m) (l :: ls))
                 = String "010" (metadata_line l ++
                     String.concat EmptyString
                       (List.map (fun m => NL ++ "Metadata Entry: " ++ m) ls))).
  { destruct ls as [|l3 ls]; cbn [List.map String.concat].
    - now rewrite StrFacts.append_nil_r.
    - cbn [append NL]. unfold metadata_line.
      now rewrite !StrFacts.append_assoc. }
  rewrite Hcat. unfold PyStr.splitlines.
  cbn [PyStr.splitlines_from andb].
  change (PyStr.is_linebreak "010") with true. cbv iota.
  change (Ascii.eqb "010" "013") with false.
  now rewrite splitlines_metadata_body.
Qed.

Lemma parse_metadata_line (l : string) :
  exists v, parse_line (metadata_line l) = Ok ("Metadata Entry", v).
Proof.
  destruct (line_of_key "Metadata Entry" " " l) as [Hkey Hval];
    [reflexivity | reflexivity |].
  rewrite parse_line_eq. unfold metadata_line.
  change ("Metadata Entry: " ++ l) with ("Metadata Entry" ++ ":" ++ " " ++ l).
  rewrite Hkey, Hval. eexists. reflexivity.
Qed.

Lemma get_store_line_other (acc : attrs_t) (K K' : string) (v : pyval) :
  K <> K' -> Dict.get K (store_line acc K' v) = Dict.get K acc.
Proof.
  intro Hne. unfold store_line.
  destruct (String.eqb K' "Metadata Entry").
  - destruct (Dict.get K' acc) as [[]|]; try destruct v; now apply get_set_other.
  - now apply get_set_other.
Qed.

(** The lines after the twenty fixed ones parse, and touch no other key *)
Lemma parse_metadata_lines (ls : list string) :
  forall acc, exists d',
    parse_lines (List.map metadata_line ls) acc = Ok d' /\
    forall K, K <> "Metadata Entry" -> Dict.get K d' = Dict.get K acc.
Proof.
  induction ls as [|l ls IH]; intro acc.
  - exists acc. split; reflexivity.
  - destruct (parse_metadata_line l) as [v Hv].
    cbn [List.map parse_lines]. rewrite Hv. cbn [bind fst snd].
    destruct (IH (store_line acc "Metadata Entry" v)) as (d' & Hrun & Hget).
    exists d'. split; [exact Hrun|].
    intros K HK. rewrite Hget by assumption. now apply get_store_line_other.
Qed.

Lemma parse_metadata (m : string) :
  forall acc, exists d',
    parse_lines (PyStr.splitlines (metadata_lines m)) acc = Ok d' /\
    forall K, K <> "Metadata Entry" -> K <> EmptyString ->
              Dict.get K d' = Dict.get K acc.
Proof.
  intro acc. rewrite splitlines_metadata.
  destruct (PyStr.splitlines m) as [|l ls].
  - exists acc. split; reflexivity.
  - change (parse_lines (EmptyString :: List.map metadata_line (l :: ls)) acc)
      with (parse_lines (List.map metadata_line (l :: ls))
                        (store_line acc EmptyString (VStr EmptyString))).
    destruct (parse_metadata_lines (l :: ls) (store_line acc EmptyString (VStr EmptyString)))
      as (d' & Hrun & Hget).
    exists d'. split; [exact Hrun|].
    intros K HK HK'. rewrite Hget by assumption. now apply get_store_line_other.
Qed.

End HeaderLines.

(** ** Decoding what was encoded *)

Lemma is_empty_app (a b : string) :
  PyStr.is_empty b = false -> PyStr.is_empty (a ++ b) = false.
Proof. destruct a; simpl; auto. Qed.

Lemma dep_not_tas (f : string) : f ++ ".tas" <> f ++ ".dep".
Proof. intro E. apply StrFacts.append_inj_l in E. discriminate. Qed.

Lemma mem_of_get {V : Type} (k : string) (d : Dict.t string V) (v : V) :
  Dict.get k d = Some v -> Dict.mem k d = true.
Proof. intro H. unfold Dict.mem. now rewrite H. Qed.

Section Decoder.

Variable native : endian.
Variable np_linspace : spec_float -> spec_float -> nat -> list spec_float.

(** [from_dep] on a pair named [f.dep], [f.tas], once each of its steps is
    known to succeed *)
Lemma from_dep_steps (fs : store) (f code : string) (d : attrs_t) (kind : string)
    (read vals : ndarray) (rows cols : Z) (south north east west : spec_float)
    (header body : list byte) :
  Dict.get (f ++ ".dep") fs = Some header ->
  Dict.get (f ++ ".tas") fs = Some body ->
  _from_dep fs (f ++ ".dep") = Ok d ->
  Dict.get "Data Type" d = Some (VStr kind) ->
  snd (_get_dtype kind) = code ->
  Dict.get "byte_order" d = None ->
  np_fromfile native fs (f ++ ".tas") code = Ok read ->
  item_int d "Rows" = Ok rows ->
  item_int d "Cols" = Ok cols ->
  nd_resize read rows cols = Ok vals ->
  item_float d "South" = Ok south ->
  item_float d "North" = Ok north ->
  item_float d "East" = Ok east ->
  item_float d "West" = Ok west ->
  from_dep native np_linspace fs (f ++ ".dep") None
  = Ok {| values := vals;
          coords := [("x", removelast (np_linspace east west (Z.to_nat cols + 1)));
                     ("y", removelast (np_linspace south north (Z.to_nat rows + 1)))];
          dims := ["y"; "x"];
          attrs := d;
          filename := Some (f ++ ".dep", f ++ ".tas") |}.
Proof.
  intros Hdep Htas Hparse Htype Hcode Horder Hread Hrows Hcols Hresize Hs Hn He Hw.
  unfold from_dep.
  rewrite (is_empty_app f ".dep" eq_refl).
  unfold exists_. rewrite (mem_of_get _ _ _ Hdep). cbn [orb negb andb].
  rewrite (StrFacts.endswith_app f ".dep").
  change 4%nat with (String.length ".dep"). rewrite StrFacts.drop_last_app.
  rewrite (is_empty_app f ".tas" eq_refl), (mem_of_get _ _ _ Htas).
  cbn [orb negb].
  rewrite Hparse. cbn [bind]. rewrite Htype. cbn [bind]. rewrite Hcode, Horder.
  rewrite Hread. cbn [bind]. rewrite Hrows. cbn [bind]. rewrite Hcols. cbn [bind].
  rewrite Hresize. cbn [bind]. rewrite Hs. cbn [bind]. rewrite Hn. cbn [bind].
  rewrite He. cbn [bind]. rewrite Hw. cbn [bind]. reflexivity.
Qed.

End Decoder.

(** *** The attributes the header is written from, and whether it reads
    back *)

Section RoundTrip.

Variable native : endian.
Variable float_repr : spec_float -> string.
Variable np_linspace : spec_float -> spec_float -> nat -> list spec_float.
Variable WHITEBOX_TEMP_DIR : string.

Lemma header_readable_row (a : attrs_t) (row : string * string * string) :
  header_readable float_repr a = true -> In row HEADER_ROWS ->
  single_line (field_text float_repr a (row_field row)) = true /\
  is_some (read_back float_repr a (row_key row) (row_field row)) = true.
Proof.
  unfold header_readable. rewrite List.forallb_forall. intros H Hin.
  apply H in Hin. now apply andb_true_iff in Hin.
Qed.

Lemma field_text_set_other (d : attrs_t) (k k' : string) (v : pyval) :
  k <> k' -> field_text float_repr (Dict.set k' v d) k = field_text float_repr d k.
Proof. intro Hne. unfold field_text. now rewrite get_set_other. Qed.

Lemma render_rows_ext (d1 d2 : attrs_t) (rows : list (string * string * string))
    (tail : string) :
  (forall row, In row rows -> field_text float_repr d1 (row_field row) = field_text float_repr d2 (row_field row)) ->
  render_rows float_repr d1 rows tail = render_rows float_repr d2 rows tail.
Proof.
  induction rows as [|row rows IH]; intro H; [reflexivity|].
  cbn [render_rows]. unfold row_line.
  rewrite (H row) by now left.
  rewrite IH by (intros; apply H; now right). reflexivity.
Qed.

Lemma no_metadata_row (row : string * string * string) :
  In row HEADER_ROWS -> row_field row <> "metadata_entry".
Proof.
  intro Hin. unfold HEADER_ROWS in Hin. simpl in Hin.
  repeat (destruct Hin as [<-|Hin]; [discriminate|]). contradiction.
Qed.

(** The text of the header written from the attributes [a] *)
Lemma header_text_lines (a : attrs_t) (text : string) :
  header_text float_repr a = Ok text ->
  exists m,
    text = render_rows float_repr a HEADER_ROWS (metadata_lines m).
Proof.
  unfold header_text.
  set (entry := match Dict.get "metadata_entry" a with
                | Some (VStr s) => Ok s
                | None => Ok EmptyString
                | Some _ => Raise (AttributeError "splitlines")
                end).
  destruct entry as [m|e]; cbn [bind]; [|discriminate].
  intro H. apply format_template in H. exists m. subst text.
  unfold field_text at 1. rewrite get_set_same. cbn [py_str].
  apply render_rows_ext. intros row Hin.
  apply field_text_set_other. now apply no_metadata_row.
Qed.

Lemma row_lines_single (a : attrs_t) :
  header_readable float_repr a = true ->
  Forall (fun row => single_line (row_line float_repr a row) = true) HEADER_ROWS.
Proof.
  intro H. apply Forall_forall. intros row Hin.
  destruct (header_readable_row a row H Hin) as [Hs _].
  unfold row_line.
  replace (row_key row ++ ":" ++ row_pad row ++ field_text float_repr a (row_field row))
    with ((row_key row ++ ":" ++ row_pad row) ++ field_text float_repr a (row_field row))
    by (now rewrite !StrFacts.append_assoc).
  rewrite StrFacts.single_line_app, Hs, andb_true_r.
  now apply key_single_line.
Qed.

(** Parsing the header written from [a] gives a mapping that holds, under
    the key of each of the twenty lines, what the line reads back as, and
    nothing under [byte_order]. *)
Lemma parse_header_written (a : attrs_t) (m : string) :
  header_readable float_repr a = true ->
  exists d,
    parse_lines (PyStr.splitlines (render_rows float_repr a HEADER_ROWS (metadata_lines m))) []
      = Ok d /\
    (forall row, In row HEADER_ROWS ->
       Dict.get (row_key row) d = read_back float_repr a (row_key row) (row_field row)) /\
    Dict.get "byte_order" d = None.
Proof.
  intro Hread.
  rewrite splitlines_rows by now apply row_lines_single.
  rewrite parse_lines_rows.
  - destruct (parse_metadata m (fold_left (store_row float_repr a) HEADER_ROWS []))
      as (d & Hparse & Hframe).
    exists d. split; [exact Hparse|]. split.
    + intros row Hin.
      assert (Hok : row_ok row = true).
      { pose proof header_rows_ok as Hall. rewrite List.forallb_forall in Hall. auto. }
      unfold row_ok in Hok.
      apply andb_true_iff in Hok. destruct Hok as [Hok Hmeta].
      apply andb_true_iff in Hok. destruct Hok as [Hkey _].
      rewrite Hframe.
      * rewrite (get_store_rows float_repr a HEADER_ROWS row [] header_rows_distinct Hin).
        destruct (header_readable_row a row Hread Hin) as [_ Hsome].
        unfold row_value.
        destruct (read_back float_repr a (row_key row) (row_field row));
          [reflexivity|discriminate].
      * intro E. rewrite E in Hmeta. discriminate.
      * intro E. rewrite E in Hkey. discriminate.
    + rewrite Hframe by discriminate.
      rewrite get_store_rows_other; [reflexivity|].
      vm_compute. intro H. repeat (destruct H as [H|H]; [discriminate|]). exact H.
  - exact header_rows_ok.
  - unfold header_readable in Hread. rewrite List.forallb_forall in Hread.
    apply List.forallb_forall. intros row Hin. apply Hread in Hin.
    now apply andb_true_iff in Hin.
Qed.

End RoundTrip.

Section RoundTripProof.

Variable native : endian.
Variable float_repr : spec_float -> string.
Variable np_linspace : spec_float -> spec_float -> nat -> list spec_float.
Variable WHITEBOX_TEMP_DIR : string.

Lemma read_back_float (a : attrs_t) (K k : string) :
  str_in K INT_DEP_FIELDS = false -> str_in K FLOAT_DEP_FIELDS = true ->
  is_some (read_back float_repr a K k) = true ->
  exists f, read_back float_repr a K k = Some (VFloat f) /\
            Parse.py_float (PyStr.strip (field_text float_repr a k)) = Some f.
Proof.
  intros Hi Hf. unfold read_back, coerce. rewrite Hi, Hf.
  destruct (Parse.py_float _) as [f|]; [|discriminate].
  intros _. now exists f.
Qed.

Lemma reads_as_int_eq (v : option pyval) (n : nat) :
  reads_as_int v n = true -> v = Some (VInt (Z.of_nat n)).
Proof.
  unfold reads_as_int. destruct v as [[]|]; try discriminate.
  intro H. apply Z.eqb_eq in H. now subst.
Qed.

Lemma kind_reads_back (a : attrs_t) (vals : ndarray) :
  Dict.get "dtype" a = Some (VStr (kind_name vals)) ->
  read_back float_repr a "Data Type" "dtype" = Some (VStr (kind_name vals)).
Proof.
  intro H. unfold read_back, field_text. rewrite H.
  destruct vals; reflexivity.
Qed.

Lemma in_header_rows (K pad k : string) :
  List.existsb (fun row => String.eqb (row_key row) K && String.eqb (row_pad row) pad
                           && String.eqb (row_field row) k) HEADER_ROWS = true ->
  In (K, pad, k) HEADER_ROWS.
Proof.
  intro H. apply List.existsb_exists in H. destruct H as [[[K' pad'] k'] [Hin Heq]].
  unfold row_key, row_pad, row_field in Heq. simpl in Heq.
  apply andb_true_iff in Heq. destruct Heq as [Heq Hk].
  apply andb_true_iff in Heq. destruct Heq as [HK Hpad].
  apply String.eqb_eq in HK, Hpad, Hk. now subst.
Qed.

(** The pair written for an array decodes to the stored array and to the
    readings of the twenty header lines. *)
Lemma round_trip_rows (x : DataArray) (fname tag : option string) (fs fs' : store)
    (files : string * string) (na : attrs_t) :
  data_array_to_dep native float_repr WHITEBOX_TEMP_DIR x fname tag fs = (fs', Ok files) ->
  normalized x = Ok na ->
  round_trippable float_repr na (values x) = true ->
  exists da,
    from_dep native np_linspace fs' (fst files) None = Ok da /\
    values da = stored (values x) /\
    forall row, In row HEADER_ROWS ->
      Dict.get (row_key row) (attrs da)
      = read_back float_repr (header_attrs na) (row_key row) (row_field row).
Proof.
  intros Henc Hnorm Hrt.
  unfold round_trippable in Hrt. cbv zeta in Hrt.
  apply andb_true_iff in Hrt. destruct Hrt as [Hrt Hshape].
  apply andb_true_iff in Hrt. destruct Hrt as [Hread Hdtype].
  destruct (nd_shape (values x)) as [|r [|c [|]]] eqn:Hsh; try discriminate.
  apply andb_true_iff in Hshape. destruct Hshape as [Hshape Hc].
  apply andb_true_iff in Hshape. destruct Hshape as [Hsize Hr].
  apply Nat.eqb_eq in Hsize.
  apply reads_as_int_eq in Hr, Hc.
  destruct (Dict.get "dtype" na) as [[| | | |s]|] eqn:Hd; try discriminate.
  apply String.eqb_eq in Hdtype. subst s.
  (* the encoder *)
  rewrite data_array_to_dep_steps in Henc.
  rewrite normalized_kind in Hnorm. rewrite Hnorm in Henc. cbv zeta in Henc.
  fold (header_attrs na) in Henc.
  destruct (check_2d _ _) as [u|e]; [|discriminate].
  destruct (header_text float_repr (header_attrs na)) as [text|e] eqn:Htext;
    [|discriminate].
  set (f := target_name WHITEBOX_TEMP_DIR fname tag) in *.
  set (fs0 := Dict.set (f ++ ".dep") (list_byte_of_string text)
                       (Dict.set (f ++ ".dep") [] fs)) in *.
  destruct (to_tas_stored native (values x) fs0 (f ++ ".tas") r c Hsh Hsize)
    as (fs2 & Hrun & Hbody & Hother).
  rewrite Hrun in Henc. injection Henc as <- <-. cbn [fst].
  (* the header *)
  destruct (header_text_lines float_repr _ _ Htext) as [m ->].
  destruct (parse_header_written float_repr (header_attrs na) m Hread)
    as (d & Hparse & Hrows & Horder).
  assert (Hdepfile : Dict.get (f ++ ".dep") fs2
                     = Some (list_byte_of_string
                               (render_rows float_repr (header_attrs na) HEADER_ROWS
                                            (metadata_lines m)))).
  { rewrite Hother by (intro E; symmetry in E; now apply dep_not_tas in E).
    unfold fs0. apply get_set_same. }
  assert (Hrow : forall K pad k,
             List.existsb (fun row => String.eqb (row_key row) K
                                      && String.eqb (row_pad row) pad
                                      && String.eqb (row_field row) k) HEADER_ROWS = true ->
             Dict.get K d = read_back float_repr (header_attrs na) K k).
  { intros K pad k Hin. apply in_header_rows in Hin. exact (Hrows _ Hin). }
  assert (Hfloat : forall K pad k,
             List.existsb (fun row => String.eqb (row_key row) K
                                      && String.eqb (row_pad row) pad
                                      && String.eqb (row_field row) k) HEADER_ROWS = true ->
             str_in K INT_DEP_FIELDS = false -> str_in K FLOAT_DEP_FIELDS = true ->
             exists v, item_float d K = Ok v).
  { intros K pad k Hin Hi Hf. unfold item_float. rewrite (Hrow K pad k Hin).
    apply in_header_rows in Hin.
    destruct (header_readable_row float_repr _ _ Hread Hin) as [_ Hsome].
    destruct (read_back_float (header_attrs na) K k Hi Hf Hsome) as (v & -> & _).
    now exists v. }
  destruct (Hfloat "South" "  " "south" eq_refl eq_refl eq_refl) as [south Hs].
  destruct (Hfloat "North" "  " "north" eq_refl eq_refl eq_refl) as [north Hn].
  destruct (Hfloat "East" "   " "east" eq_refl eq_refl eq_refl) as [east He].
  destruct (Hfloat "West" "   " "west" eq_refl eq_refl eq_refl) as [west Hw].
  eexists. split; [|split].
  - eapply (from_dep_steps native np_linspace fs2 f (dtype_code (values x)) d
              (kind_name (values x)) (flat (stored (values x))) (stored (values x))
              (Z.of_nat r) (Z.of_nat c) south north east west).
    + exact Hdepfile.
    + exact Hbody.
    + unfold _from_dep, read_text. rewrite Hdepfile. cbn [bind].
      rewrite string_of_list_byte_of_string. exact Hparse.
    + rewrite (Hrow "Data Type" "  " "dtype" eq_refl).
      apply kind_reads_back. unfold header_attrs.
      rewrite get_set_other by discriminate. exact Hd.
    + destruct (values x); reflexivity.
    + exact Horder.
    + now apply np_fromfile_stored.
    + unfold item_int. rewrite (Hrow "Rows" "   " "rows" eq_refl), Hr. reflexivity.
    + unfold item_int. rewrite (Hrow "Cols" "   " "cols" eq_refl), Hc. reflexivity.
    + now apply nd_resize_flat.
    + exact Hs.
    + exact Hn.
    + exact He.
    + exact Hw.
  - reflexivity.
  - exact Hrows.
Qed.

End RoundTripProof.

(** ** Numbers written by [str] and read by [int] and [float] *)

Module Numerals.
Import PyStr.

Lemma digits_of_uint (d : Decimal.uint) : all_digits (NilEmpty.string_of_uint d) = true.
Proof. induction d; simpl; auto. Qed.

Lemma uint_text_nonempty (p : positive) :
  is_empty (NilEmpty.string_of_uint (Pos.to_uint p)) = false.
Proof.
  pose proof (DecimalPos.Unsigned.to_uint_nonnil p) as H.
  destruct (Pos.to_uint p); [contradiction| | | | | | | | | |]; reflexivity.
Qed.

Lemma digit_facts (c : ascii) :
  is_digit c = true ->
  is_space c = false /\ Ascii.eqb c "_" = false /\ is_upper c = false /\
  (forall r, Parse.split_sign (String c r) = (false, String c r)) /\
  Ascii.eqb c "i" = false /\ Ascii.eqb c "n" = false.
Proof.
  destruct c as [[] [] [] [] [] [] [] []]; intro H; try discriminate H;
    repeat split; reflexivity.
Qed.

Lemma lstrip_digits (s : string) : all_digits s = true -> lstrip s = s.
Proof.
  destruct s as [|c s]; [reflexivity|].
  simpl. intro H. apply andb_true_iff in H. destruct H as [Hc _].
  apply digit_facts in Hc. destruct Hc as [Hc _]. now rewrite Hc.
Qed.

Lemma rstrip_digits (s : string) : all_digits s = true -> rstrip s = s.
Proof.
  induction s as [|c s IH]; [reflexivity|].
  simpl. intro H. apply andb_true_iff in H. destruct H as [Hc Hs].
  apply digit_facts in Hc. destruct Hc as [Hc _]. rewrite Hc, IH by assumption.
  reflexivity.
Qed.

Lemma strip_digits (s : string) : all_digits s = true -> strip s = s.
Proof. intro H. unfold strip. now rewrite lstrip_digits, rstrip_digits. Qed.

Lemma strip_minus_digits (s : string) :
  all_digits s = true -> strip (String "-" s) = String "-" s.
Proof.
  intro H. unfold strip. cbn [lstrip]. change (is_space "-") with false. cbv iota.
  rewrite StrFacts.rstrip_nonspace by reflexivity. now rewrite rstrip_digits.
Qed.

Lemma drop_underscores_digits (s : string) (b : bool) :
  all_digits s = true -> Parse.drop_underscores b s = Some s.
Proof.
  revert b. induction s as [|c s IH]; intros b H; [reflexivity|].
  simpl in H. apply andb_true_iff in H. destruct H as [Hc Hs].
  cbn [Parse.drop_underscores].
  destruct (digit_facts c Hc) as (_ & Hu & _). rewrite Hu.
  now rewrite IH.
Qed.

Lemma digits_value_uint (p : positive) :
  Parse.digits_value (NilEmpty.string_of_uint (Pos.to_uint p)) = Some (Npos p).
Proof.
  unfold Parse.digits_value. rewrite NilEmpty.usu. simpl.
  unfold N.of_uint. now rewrite DecimalPos.Unsigned.of_to.
Qed.

Lemma split_sign_digits (s : string) :
  all_digits s = true -> Parse.split_sign s = (false, s).
Proof.
  destruct s as [|c s]; [reflexivity|].
  unfold all_digits. cbn [forallb]. intro H.
  apply andb_true_iff in H. destruct H as [Hc _].
  destruct (digit_facts c Hc) as (_ & _ & _ & Hsign & _). apply Hsign.
Qed.

(** [int(str(z)) == z] *)
Lemma py_int_str (z : Z) : Parse.py_int (Z_to_string z) = Some z.
Proof.
  destruct z as [|p|p]; [reflexivity| |]; unfold Parse.py_int, Z_to_string.
  - rewrite strip_digits, split_sign_digits by apply digits_of_uint.
    rewrite drop_underscores_digits by apply digits_of_uint.
    rewrite uint_text_nonempty, digits_value_uint. reflexivity.
  - rewrite strip_minus_digits by apply digits_of_uint.
    cbn [Parse.split_sign].
    rewrite drop_underscores_digits by apply digits_of_uint.
    rewrite uint_text_nonempty, digits_value_uint. reflexivity.
Qed.

Lemma lower_digits (s : string) : all_digits s = true -> lower s = s.
Proof.
  induction s as [|c s IH]; [reflexivity|].
  unfold all_digits. cbn [forallb]. intro H.
  apply andb_true_iff in H. destruct H as [Hc Hs].
  unfold lower in *. cbn [map]. rewrite IH by assumption.
  destruct (digit_facts c Hc) as (_ & _ & Hup & _).
  unfold lower_char. now rewrite Hup.
Qed.

Lemma span_digits_all (s : string) :
  all_digits s = true -> Parse.span_digits s = (s, EmptyString).
Proof.
  induction s as [|c s IH]; [reflexivity|].
  unfold all_digits. cbn [forallb]. intro H.
  apply andb_true_iff in H. destruct H as [Hc Hs].
  cbn [Parse.span_digits]. rewrite Hc, IH by assumption. reflexivity.
Qed.

Lemma digits_not_a_word (s : string) :
  all_digits s = true -> is_empty s = false ->
  String.eqb s "inf" = false /\ String.eqb s "infinity" = false /\
  String.eqb s "nan" = false.
Proof.
  destruct s as [|c s]; [discriminate|].
  unfold all_digits. cbn [forallb]. intros H _.
  apply andb_true_iff in H. destruct H as [Hc _].
  destruct (digit_facts c Hc) as (_ & _ & _ & _ & Hi & Hn).
  cbn [String.eqb]. now rewrite Hi, Hn.
Qed.

Lemma parse_decimal_uint (neg : bool) (p : positive) :
  Parse.parse_decimal neg (NilEmpty.string_of_uint (Pos.to_uint p))
  = Some (binary_normalize 53 1024 (cond_Zopp neg (Zpos p)) 0 false).
Proof.
  unfold Parse.parse_decimal.
  rewrite span_digits_all by apply digits_of_uint.
  rewrite uint_text_nonempty. cbn [andb].
  rewrite StrFacts.append_nil_r, digits_value_uint.
  cbn [Parse.parse_exponent String.length Z.of_nat Z.sub Z.opp Z.add].
  unfold Parse.decimal_to_float. cbn [Z.leb Z.compare].
  change (10 ^ 0) with 1. now rewrite Z.mul_1_r.
Qed.

(** [float(str(z)) == float(z)] for an [int] *)
Lemma py_float_str (z : Z) : Parse.py_float (Z_to_string z) = Some (float_of_Z z).
Proof.
  destruct z as [|p|p]; [reflexivity| |]; unfold Parse.py_float, Z_to_string.
  - rewrite strip_digits by apply digits_of_uint.
    rewrite drop_underscores_digits by apply digits_of_uint.
    rewrite split_sign_digits by apply digits_of_uint.
    rewrite lower_digits by apply digits_of_uint.
    destruct (digits_not_a_word _ (digits_of_uint (Pos.to_uint p)) (uint_text_nonempty p))
      as (-> & -> & ->).
    cbn [orb]. apply parse_decimal_uint.
  - rewrite strip_minus_digits by apply digits_of_uint.
    cbn [Parse.drop_underscores]. change (Ascii.eqb "-" "_") with false. cbv iota.
    rewrite drop_underscores_digits by apply digits_of_uint.
    cbn [option_map Parse.split_sign].
    rewrite lower_digits by apply digits_of_uint.
    destruct (digits_not_a_word _ (digits_of_uint (Pos.to_uint p)) (uint_text_nonempty p))
      as (-> & -> & ->).
    cbn [orb]. apply parse_decimal_uint.
Qed.

End Numerals.

(** ** Round trip of the required fields *)

Lemma py_int_strip (t : string) : Parse.py_int (PyStr.strip t) = Parse.py_int t.
Proof. unfold Parse.py_int. now rewrite StrFacts.strip_idem. Qed.

Lemma py_float_strip (t : string) : Parse.py_float (PyStr.strip t) = Parse.py_float t.
Proof. unfold Parse.py_float. now rewrite StrFacts.strip_idem. Qed.

Ltac find_row :=
  unfold HEADER_ROWS; simpl; repeat (first [left; reflexivity | right]).

Section RoundTripClaim.

Variable native : endian.
Variable float_repr : spec_float -> string.
Variable np_linspace : spec_float -> spec_float -> nat -> list spec_float.
Variable WHITEBOX_TEMP_DIR : string.

Lemma field_text_header (na : attrs_t) (k : string) :
  k <> "byte_order" -> field_text float_repr (header_attrs na) k = field_text float_repr na k.
Proof. intro H. unfold header_attrs. now apply field_text_set_other. Qed.

(** C1, amended.  When the pair written for [x] is one that decodes (see
    [round_trippable]), decoding it gives the grid of [x] cast to the stored
    kind (shorts by wrap-around, binary32 by rounding), and under each
    required key the normalized field as its header line reads: [Cols] and
    [Rows] the [int] of its text, [Min] .. [West] the [float] of its text,
    [Data Type] the inferred kind as it is, and [Z Units], [Xy Units] and
    [Data Scale] the text stripped and in upper case. *)
Theorem encode_decode_round_trip (x : DataArray) (fname tag : option string)
    (fs fs' : store) (files : string * string) (na : attrs_t) :
  data_array_to_dep native float_repr WHITEBOX_TEMP_DIR x fname tag fs = (fs', Ok files) ->
  normalized x = Ok na ->
  round_trippable float_repr na (values x) = true ->
  exists da,
    from_dep native np_linspace fs' (fst files) None = Ok da /\
    values da = stored (values x) /\
    (forall k K, In (k, K) REQUIRED_INTS ->
       Dict.get K (attrs da) = option_map VInt (Parse.py_int (field_text float_repr na k))) /\
    (forall k K, In (k, K) REQUIRED_FLOATS ->
       Dict.get K (attrs da) = option_map VFloat (Parse.py_float (field_text float_repr na k))) /\
    Dict.get "Data Type" (attrs da) = Some (VStr (kind_name (values x))) /\
    Dict.get "Data Type" (attrs da) = Dict.get "dtype" na /\
    (forall k K, In (k, K) REQUIRED_TEXTS ->
       Dict.get K (attrs da)
       = Some (VStr (PyStr.upper (PyStr.strip (field_text float_repr na k))))).
Proof.
  intros Henc Hnorm Hrt.
  destruct (round_trip_rows native float_repr np_linspace WHITEBOX_TEMP_DIR
              x fname tag fs fs' files na Henc Hnorm Hrt) as (da & Hdec & Hvals & Hrows).
  assert (Hdtype : Dict.get "dtype" na = Some (VStr (kind_name (values x)))).
  { unfold round_trippable in Hrt. cbv zeta in Hrt.
    apply andb_true_iff in Hrt. destruct Hrt as [Hrt _].
    apply andb_true_iff in Hrt. destruct Hrt as [_ Hd].
    destruct (Dict.get "dtype" na) as [[| | | |s]|]; try discriminate.
    apply String.eqb_eq in Hd. now subst. }
  assert (Hget : forall K pad k,
             In (K, pad, k) HEADER_ROWS ->
             Dict.get K (attrs da) = read_back float_repr (header_attrs na) K k).
  { intros K pad k Hin. exact (Hrows _ Hin). }
  assert (Htype : Dict.get "Data Type" (attrs da) = Some (VStr (kind_name (values x)))).
  { rewrite (Hget "Data Type" "  " "dtype") by (apply in_header_rows; reflexivity).
    apply kind_reads_back. unfold header_attrs.
    rewrite get_set_other by discriminate. exact Hdtype. }
  exists da. split; [exact Hdec|]. split; [exact Hvals|].
  split; [|split; [|split; [|split]]].
  - intros k K Hin. simpl in Hin.
    destruct Hin as [[= <- <-]|[[= <- <-]|[]]].
    + rewrite (Hget "Cols" "   " "cols") by (apply in_header_rows; reflexivity).
      unfold read_back, coerce.
      change (str_in "Cols" INT_DEP_FIELDS) with true. cbv iota.
      rewrite py_int_strip, field_text_header by discriminate.
      now destruct (Parse.py_int _).
    + rewrite (Hget "Rows" "   " "rows") by (apply in_header_rows; reflexivity).
      unfold read_back, coerce.
      change (str_in "Rows" INT_DEP_FIELDS) with true. cbv iota.
      rewrite py_int_strip, field_text_header by discriminate.
      now destruct (Parse.py_int _).
  - intros k K Hin.
    assert (Hrow : exists pad, In (K, pad, k) HEADER_ROWS /\ k <> "byte_order"
                               /\ str_in K INT_DEP_FIELDS = false
                               /\ str_in K FLOAT_DEP_FIELDS = true).
    { simpl in Hin.
      repeat (destruct Hin as [[= <- <-]|Hin];
              [eexists; split; [find_row|];
               repeat split; (reflexivity || discriminate)|]).
      contradiction. }
    destruct Hrow as (pad & Hrow & Hk & Hi & Hf).
    rewrite (Hget _ _ _ Hrow).
    unfold read_back, coerce.
    rewrite Hi, Hf, py_float_strip, field_text_header by assumption.
    now destruct (Parse.py_float _).
  - exact Htype.
  - now rewrite Htype, Hdtype.
  - intros k K Hin.
    assert (Hrow : exists pad, In (K, pad, k) HEADER_ROWS /\ k <> "byte_order"
                               /\ str_in K INT_DEP_FIELDS = false
                               /\ str_in K FLOAT_DEP_FIELDS = false
                               /\ str_in K UPPER_STR_FIELDS = false).
    { simpl in Hin.
      repeat (destruct Hin as [[= <- <-]|Hin];
              [eexists; split; [find_row|];
               repeat split; (reflexivity || discriminate)|]).
      contradiction. }
    destruct Hrow as (pad & Hrow & Hk & Hi & Hf & Hu).
    rewrite (Hget _ _ _ Hrow).
    unfold read_back, coerce.
    rewrite Hi, Hf, Hu, field_text_header by assumption. reflexivity.
Qed.

End RoundTripClaim.

Lemma encode_decode_round_trip_witness :
  let x := Examples.array_of Examples.grid_0_24 Examples.full_attrs in
  let r := Examples.encode x (Some "/tmp/a") None [] in
  exists da,
    Examples.decode (fst r) "/tmp/a.dep" None = Ok da /\
    values da = stored (values x) /\
    Dict.get "Cols" (attrs da) = Some (VInt 5) /\
    Dict.get "Max" (attrs da) = Some (VFloat (float_of_Z 10)) /\
    Dict.get "Data Scale" (attrs da) = Some (VStr "CONTINUOUS").
Proof.
  cbv zeta.
  destruct (encode_decode_round_trip LittleEndian Reference.float_repr
              Reference.np_linspace Reference.WHITEBOX_TEMP_DIR
              (Examples.array_of Examples.grid_0_24 Examples.full_attrs)
              (Some "/tmp/a") None []
              (fst (Examples.encode (Examples.array_of Examples.grid_0_24 Examples.full_attrs)
                                    (Some "/tmp/a") None []))
              ("/tmp/a.dep", "/tmp/a.tas")
              (normal_form Examples.full_attrs "float"))
    as (da & Hdec & Hvals & Hints & Hfloats & _ & _ & Htexts).
  - vm_compute. reflexivity.
  - vm_compute. reflexivity.
  - vm_compute. reflexivity.
  - exists da. split; [exact Hdec|]. split; [exact Hvals|].
    split; [|split].
    + rewrite (Hints "cols" "Cols") by (simpl; tauto). vm_compute. reflexivity.
    + rewrite (Hfloats "max" "Max") by (simpl; tauto). vm_compute. reflexivity.
    + rewrite (Htexts "data_scale" "Data Scale") by (simpl; tauto).
      vm_compute. reflexivity.
Defined.

(** ** Palette defaults, in general *)

Lemma mem_set (k k' : string) (v : pyval) (d : attrs_t) :
  Dict.mem k (Dict.set k' v d) = String.eqb k' k || Dict.mem k d.
Proof.
  destruct (String.eqb_spec k' k) as [->|Hne].
  - unfold Dict.mem. now rewrite get_set_same.
  - rewrite mem_set_other by (intro E; now symmetry in E). reflexivity.
Qed.

Lemma mem_lowered (k : string) (attrs init : attrs_t) :
  Dict.mem k (fold_left lower_step attrs init) = has_key attrs k || Dict.mem k init.
Proof.
  revert init. induction attrs as [|[k0 v0] attrs IH]; intro init; [reflexivity|].
  cbn [fold_left has_key List.existsb fst]. rewrite IH.
  unfold lower_step. cbn [fst snd]. rewrite mem_set.
  fold (has_key attrs k).
  destruct (String.eqb (_lower_key k0) k), (has_key attrs k); reflexivity.
Qed.

Lemma mem_copy_key_other (k dst src : string) (d : attrs_t) :
  k <> dst -> Dict.mem k (copy_key dst src d) = Dict.mem k d.
Proof. intro H. unfold Dict.mem. now rewrite get_copy_key_other. Qed.

Lemma get_fill_present (k : string) (v : pyval) (ks : list string) (d : attrs_t) :
  Dict.get k d = Some v -> Dict.get k (fold_left fill_step ks d) = Some v.
Proof.
  revert d. induction ks as [|k0 ks IH]; intros d H; [assumption|].
  cbn [fold_left]. apply IH. unfold fill_step.
  destruct (Dict.mem k0 d) eqn:Em; [assumption|].
  rewrite get_set_other; [assumption|].
  intro E. subst k0. unfold Dict.mem in Em. now rewrite H in Em.
Qed.

(** What normalization stores under [palette_nonlinearity], when it
    returns: the palette file name for a mapping without
    [preferred_palette]; the number 1.0 for a mapping with
    [preferred_palette] and without [palette_nonlinearity]. *)
Lemma palette_defaults (attrs na : attrs_t) (typ : string) :
  case_insensitive_attrs attrs typ = Ok na ->
  (has_key attrs "preferred_palette" = false ->
   Dict.get "palette_nonlinearity" na = Some (VStr "high_relief.pal")) /\
  (has_key attrs "preferred_palette" = true ->
   has_key attrs "palette_nonlinearity" = false ->
   Dict.get "palette_nonlinearity" na = Some (VFloat (float_of_Z 1))).
Proof.
  intro Hok. apply case_insensitive_attrs_ok in Hok. subst na.
  unfold normal_form.
  set (l2 := copy_key "z_units" "units"
               (copy_key "xy_units" "units"
                  (fold_left lower_step attrs [("dtype", VStr typ)]))).
  assert (Hmem : forall k, k <> "xy_units" -> k <> "z_units" ->
                           Dict.mem k l2 = has_key attrs k || String.eqb "dtype" k).
  { intros k H1 H2. unfold l2.
    rewrite !mem_copy_key_other by assumption. rewrite mem_lowered.
    unfold Dict.mem at 1. cbn [Dict.get keqb EqKey_string].
    now destruct (String.eqb "dtype" k). }
  split.
  - intro Hpp. apply get_fill_present.
    unfold palette_step_1. rewrite Hmem, Hpp by discriminate. cbn [orb negb String.eqb Ascii.eqb Bool.eqb].
    unfold palette_step_2. unfold Dict.mem. rewrite get_set_same. cbn [negb].
    apply get_set_same.
  - intros Hpp Hpn. apply get_fill_present.
    unfold palette_step_1. rewrite Hmem, Hpp by discriminate. cbn [orb negb].
    unfold palette_step_2. rewrite Hmem, Hpn by discriminate.
    cbn [orb negb String.eqb Ascii.eqb Bool.eqb].
    apply get_set_same.
Qed.

Lemma palette_defaults_witness :
  Dict.get "palette_nonlinearity" (normal_form Examples.full_attrs "float")
    = Some (VStr "high_relief.pal") /\
  Dict.get "palette_nonlinearity"
    (normal_form (Dict.set "Preferred Palette" (VStr "spectrum.pal") Examples.full_attrs) "float")
    = Some (VFloat (float_of_Z 1)).
Proof.
  split.
  - assert (H : case_insensitive_attrs Examples.full_attrs "float"
                = Ok (normal_form Examples.full_attrs "float"))
      by (vm_compute; reflexivity).
    apply (proj1 (palette_defaults _ _ _ H)).
    vm_compute. reflexivity.
  - assert (H : case_insensitive_attrs
                  (Dict.set "Preferred Palette" (VStr "spectrum.pal") Examples.full_attrs)
                  "float"
                = Ok (normal_form (Dict.set "Preferred Palette" (VStr "spectrum.pal")
                                            Examples.full_attrs) "float"))
      by (vm_compute; reflexivity).
    apply (proj2 (palette_defaults _ _ _ H)).
    + vm_compute. reflexivity.
    + vm_compute. reflexivity.
Defined.

(** * Further properties

    Properties of the functions of the module beyond the claims above:
    normalization, the header reader, the decoder, the encoder, masking,
    lists of paths and the staging wrapper. *)

(** ** Lowered keys *)

Lemma get_lowered (k : string) (attrs init : attrs_t) :
  Dict.get k (fold_left lower_step attrs init) = or_else (given attrs k) (Dict.get k init).
Proof.
  revert init. induction attrs as [|[k0 v0] attrs IH]; intro init; [reflexivity|].
  cbn [fold_left given]. rewrite IH.
  destruct (given attrs k) as [v|]; [reflexivity|]. cbn [or_else].
  unfold lower_step. cbn [fst snd].
  destruct (String.eqb_spec (_lower_key k0) k) as [->|Hne].
  - apply get_set_same.
  - cbn [or_else]. apply get_set_other. intro E. now apply Hne.
Qed.

Lemma has_key_given (attrs : attrs_t) (k : string) :
  has_key attrs k = is_some (given attrs k).
Proof.
  induction attrs as [|[k0 v0] attrs IH]; [reflexivity|].
  cbn [has_key List.existsb given fst]. fold (has_key attrs k). rewrite IH.
  destruct (given attrs k); cbn [is_some]; [apply orb_true_r|].
  rewrite orb_false_r. now destruct (String.eqb (_lower_key k0) k).
Qed.

Lemma given_in (attrs : attrs_t) (k : string) (v : pyval) :
  given attrs k = Some v -> exists k0, In (k0, v) attrs /\ _lower_key k0 = k.
Proof.
  induction attrs as [|[k0 v0] attrs IH]; [discriminate|].
  cbn [given]. destruct (given attrs k) as [v1|].
  - intros [= ->]. destruct (IH eq_refl) as [k1 [Hin Hk]].
    exists k1. split; [now right|assumption].
  - destruct (String.eqb_spec (_lower_key k0) k) as [E|]; [|discriminate].
    intros [= ->]. exists k0. split; [now left|assumption].
Qed.

Lemma fold_lowered (attrs init : attrs_t) :
  fold_left lower_step attrs init
  = fold_left (fun acc kv => Dict.set (fst kv) (snd kv) acc) (lowered attrs) init.
Proof.
  revert init. induction attrs as [|[k0 v0] attrs IH]; intro init; [reflexivity|].
  cbn [fold_left lowered List.map]. rewrite IH. reflexivity.
Qed.

(** ** Normalization, step by step *)

Lemma normal_form_fill (attrs : attrs_t) (typ : string) :
  normal_form attrs typ = fold_left fill_step OPTIONAL_DEP_FIELDS (with_defaults attrs typ).
Proof. reflexivity. Qed.

Lemma case_insensitive_attrs_checked (attrs : attrs_t) (typ : string) :
  case_insensitive_attrs attrs typ = checked (with_defaults attrs typ).
Proof.
  unfold case_insensitive_attrs, checked, with_defaults, palette_step_2, palette_step_1,
    lower_step, fill_step.
  reflexivity.
Qed.

Lemma checked_missing (lower : attrs_t) :
  List.filter (fun k => negb (Dict.mem k lower)) REQUIRED_DEP_FIELDS <> [] ->
  checked lower
  = Raise (MissingKeys (List.filter (fun k => negb (Dict.mem k lower)) REQUIRED_DEP_FIELDS)).
Proof.
  intro H. unfold checked. cbv zeta.
  destruct (List.filter _ REQUIRED_DEP_FIELDS); [now elim H|reflexivity].
Qed.

Lemma checked_ok (lower na : attrs_t) :
  checked lower = Ok na ->
  List.filter (fun k => negb (Dict.mem k lower)) REQUIRED_DEP_FIELDS = [] /\
  na = fold_left fill_step OPTIONAL_DEP_FIELDS lower.
Proof.
  unfold checked. cbv zeta.
  destruct (List.filter _ REQUIRED_DEP_FIELDS); [|discriminate].
  destruct (match Dict.get "data_scale" _ with Some _ => _ | None => _ end);
    try discriminate.
  destruct (negb _); [discriminate|].
  destruct (String.eqb _ "rgb"); [discriminate|].
  now intros [= <-].
Qed.

Lemma mem_fill (k : string) (ks : list string) (d : attrs_t) :
  Dict.mem k (fold_left fill_step ks d) = Dict.mem k d || str_in k ks.
Proof.
  revert d. induction ks as [|k0 ks IH]; intro d; cbn [fold_left str_in List.existsb].
  - now rewrite orb_false_r.
  - fold (str_in k ks). rewrite IH. unfold fill_step.
    destruct (Dict.mem k0 d) eqn:E0.
    + destruct (String.eqb_spec k k0) as [->|Hne]; [now rewrite E0|reflexivity].
    + rewrite mem_set. rewrite (String.eqb_sym k0 k).
      destruct (String.eqb k k0), (Dict.mem k d), (str_in k ks); reflexivity.
Qed.

Lemma mem_with_defaults (attrs : attrs_t) (typ k : string) :
  k <> "xy_units" -> k <> "z_units" -> k <> "palette_nonlinearity" ->
  Dict.mem k (with_defaults attrs typ) = has_key attrs k || String.eqb "dtype" k.
Proof.
  intros H1 H2 H3. unfold with_defaults, palette_step_2, palette_step_1.
  repeat match goal with
         | |- context [if ?c then _ else _] => destruct c
         end;
    rewrite ?mem_set_other by assumption;
    rewrite !mem_copy_key_other by assumption;
    rewrite mem_lowered; unfold Dict.mem at 1; cbn [Dict.get keqb EqKey_string];
    now destruct (String.eqb "dtype" k).
Qed.

Lemma get_copy_key_same (dst src : string) (d : attrs_t) :
  Dict.get dst (copy_key dst src d) = or_else (Dict.get dst d) (Dict.get src d).
Proof.
  unfold copy_key. destruct (Dict.get src d) as [v|] eqn:Es.
  - unfold Dict.mem. destruct (Dict.get dst d) as [w|] eqn:Ed.
    + now rewrite Ed.
    + now rewrite get_set_same.
  - now destruct (Dict.get dst d).
Qed.

Lemma get_with_defaults (attrs : attrs_t) (typ k : string) :
  k <> "palette_nonlinearity" ->
  Dict.get k (with_defaults attrs typ)
  = Dict.get k (copy_key "z_units" "units" (copy_key "xy_units" "units"
                  (fold_left lower_step attrs [("dtype", VStr typ)]))).
Proof.
  intro H. unfold with_defaults, palette_step_2, palette_step_1.
  repeat match goal with
         | |- context [if ?c then _ else _] => destruct c
         end;
    rewrite ?get_set_other by assumption; reflexivity.
Qed.

Lemma get_fill (k : string) (ks : list string) (d : attrs_t) :
  Dict.get k (fold_left fill_step ks d)
  = or_else (Dict.get k d) (if str_in k ks then Some (VStr EmptyString) else None).
Proof.
  revert d. induction ks as [|k0 ks IH]; intro d; cbn [fold_left str_in List.existsb].
  - now destruct (Dict.get k d).
  - fold (str_in k ks). rewrite IH. unfold fill_step.
    destruct (Dict.mem k0 d) eqn:E0.
    + destruct (String.eqb_spec k k0) as [->|Hne]; [|reflexivity].
      unfold Dict.mem in E0. now destruct (Dict.get k0 d).
    + destruct (String.eqb_spec k k0) as [->|Hne].
      * rewrite get_set_same. unfold Dict.mem in E0.
        now destruct (Dict.get k0 d).
      * rewrite get_set_other by assumption. reflexivity.
Qed.

Lemma get_plain (attrs : attrs_t) (typ k : string) :
  k <> "xy_units" -> k <> "z_units" -> k <> "palette_nonlinearity" ->
  Dict.get k (with_defaults attrs typ)
  = or_else (given attrs k) (if String.eqb "dtype" k then Some (VStr typ) else None).
Proof.
  intros H1 H2 H3. rewrite get_with_defaults by assumption.
  rewrite !get_copy_key_other by assumption. apply get_lowered.
Qed.

Lemma get_xy_units (attrs : attrs_t) (typ : string) :
  Dict.get "xy_units" (with_defaults attrs typ)
  = or_else (given attrs "xy_units") (given attrs "units").
Proof.
  rewrite get_with_defaults by discriminate.
  rewrite get_copy_key_other by discriminate.
  rewrite get_copy_key_same, !get_lowered. cbn [Dict.get keqb EqKey_string String.eqb Ascii.eqb Bool.eqb].
  now destruct (given attrs "xy_units"), (given attrs "units").
Qed.

Lemma get_z_units (attrs : attrs_t) (typ : string) :
  Dict.get "z_units" (with_defaults attrs typ)
  = or_else (given attrs "z_units") (given attrs "units").
Proof.
  rewrite get_with_defaults by discriminate.
  rewrite get_copy_key_same, !get_copy_key_other by discriminate.
  rewrite !get_lowered. cbn [Dict.get keqb EqKey_string String.eqb Ascii.eqb Bool.eqb].
  now destruct (given attrs "z_units"), (given attrs "units").
Qed.

Lemma filter_nil {A : Type} (f : A -> bool) (l : list A) :
  List.filter f l = [] -> forall x, In x l -> f x = false.
Proof.
  intros H x Hin. destruct (f x) eqn:E; [|reflexivity].
  assert (Hx : In x (List.filter f l)) by (apply List.filter_In; split; assumption).
  rewrite H in Hx. destruct Hx.
Qed.

Lemma filter_none {A : Type} (f : A -> bool) (l : list A) :
  (forall x, In x l -> f x = false) -> List.filter f l = [].
Proof.
  induction l as [|a l IH]; intro H; [reflexivity|].
  cbn [List.filter]. rewrite (H a) by now left.
  apply IH. intros x Hx. apply H. now right.
Qed.

Lemma normalization_returns (attrs na : attrs_t) (typ : string) :
  case_insensitive_attrs attrs typ = Ok na ->
  missing_fields attrs typ = [] /\ na = normal_form attrs typ.
Proof.
  rewrite case_insensitive_attrs_checked. intro H.
  apply checked_ok in H. exact H.
Qed.

Lemma fields_present (attrs na : attrs_t) (typ k : string) :
  case_insensitive_attrs attrs typ = Ok na ->
  In k (REQUIRED_DEP_FIELDS ++ OPTIONAL_DEP_FIELDS) ->
  Dict.mem k na = true.
Proof.
  intros Hok Hin. apply normalization_returns in Hok. destruct Hok as [Hmiss ->].
  rewrite normal_form_fill, mem_fill.
  apply in_app_or in Hin. destruct Hin as [Hreq|Hopt].
  - apply (filter_nil _ _ Hmiss) in Hreq. apply negb_false_iff in Hreq.
    now rewrite Hreq.
  - apply str_in_In in Hopt. rewrite Hopt. apply orb_true_r.
Qed.

(** X1.  The mapping normalization returns has every required and every
    optional field. *)
Theorem normalized_fields_present (attrs na : attrs_t) (typ k : string) :
  case_insensitive_attrs attrs typ = Ok na ->
  In k (REQUIRED_DEP_FIELDS ++ OPTIONAL_DEP_FIELDS) ->
  Dict.mem k na = true.
Proof. apply fields_present. Qed.

Lemma normalized_fields_present_witness :
  Dict.mem "nodata" (normal_form Examples.full_attrs "float") = true.
Proof.
  apply (normalized_fields_present Examples.full_attrs _ "float" "nodata").
  - vm_compute. reflexivity.
  - simpl. tauto.
Defined.

(** X2.  A required field that no key of the mapping lowers to makes
    normalization raise the error of the missing keys, which names it.  The
    inferred [dtype] is never missing, and [units] stands in for
    [xy_units] and [z_units]. *)
Theorem missing_required_field (attrs : attrs_t) (typ k : string) :
  In k REQUIRED_DEP_FIELDS -> k <> "dtype" ->
  has_key attrs k = false ->
  (k = "xy_units" \/ k = "z_units" -> has_key attrs "units" = false) ->
  exists missing,
    case_insensitive_attrs attrs typ = Raise (MissingKeys missing) /\ In k missing.
Proof.
  intros Hreq Hd Hk Hu. rewrite has_key_given in Hk.
  assert (Hget : Dict.get k (with_defaults attrs typ) = None).
  { destruct (String.eqb_spec k "xy_units") as [->|H1].
    - rewrite get_xy_units. rewrite has_key_given in Hu.
      destruct (given attrs "xy_units"); [discriminate|].
      specialize (Hu (or_introl eq_refl)).
      now destruct (given attrs "units").
    - destruct (String.eqb_spec k "z_units") as [->|H2].
      + rewrite get_z_units. rewrite has_key_given in Hu.
        destruct (given attrs "z_units"); [discriminate|].
        specialize (Hu (or_intror eq_refl)).
        now destruct (given attrs "units").
      + rewrite get_plain; try assumption.
        * destruct (given attrs k); [discriminate|]. cbn [or_else].
          destruct (String.eqb_spec "dtype" k) as [E|]; [|reflexivity].
          now subst k.
        * intros ->. simpl in Hreq. repeat (destruct Hreq as [Hreq|Hreq]; [discriminate|]).
          exact Hreq. }
  assert (Hin : In k (missing_fields attrs typ)).
  { unfold missing_fields. apply List.filter_In. split; [assumption|].
    unfold Dict.mem. now rewrite Hget. }
  exists (missing_fields attrs typ). split; [|assumption].
  rewrite case_insensitive_attrs_checked. apply checked_missing.
  fold (missing_fields attrs typ). intro E. rewrite E in Hin. destruct Hin.
Qed.

Lemma missing_required_field_witness :
  exists missing,
    case_insensitive_attrs (Dict.remove "cols" Examples.full_attrs) "float"
      = Raise (MissingKeys missing) /\ In "cols" missing.
Proof.
  apply (missing_required_field (Dict.remove "cols" Examples.full_attrs) "float" "cols").
  - simpl. tauto.
  - discriminate.
  - vm_compute. reflexivity.
  - intros [H|H]; discriminate.
Defined.

(** X3.  The fields normalization has no default for reach the result
    as the mapping gives them: under the lowered key, the last of several
    entries that lower to the same key. *)
Theorem normalized_keeps_given (attrs na : attrs_t) (typ k : string) :
  case_insensitive_attrs attrs typ = Ok na ->
  ~ In k defaulted_keys -> k <> "dtype" ->
  Dict.get k na = given attrs k.
Proof.
  intros Hok Hk Hd. rewrite (case_insensitive_attrs_frame _ _ _ _ Hok Hk).
  rewrite get_lowered. cbn [Dict.get keqb EqKey_string].
  destruct (String.eqb_spec "dtype" k) as [E|_]; [now subst k|].
  now destruct (given attrs k).
Qed.

Lemma normalized_keeps_given_witness :
  Dict.get "stacks"
    (normal_form ((" STACKS ", VInt 3) :: Examples.full_attrs) "float") = Some (VInt 1).
Proof.
  rewrite (normalized_keeps_given ((" STACKS ", VInt 3) :: Examples.full_attrs)
             _ "float" "stacks").
  - vm_compute. reflexivity.
  - vm_compute. reflexivity.
  - unfold defaulted_keys, OPTIONAL_DEP_FIELDS. simpl.
    intros H; repeat (destruct H as [H|H]; [discriminate|]); exact H.
  - discriminate.
Defined.

(** X4.  The [dtype] of the result is the kind inferred from the array,
    unless an entry of the mapping lowers to [dtype]; an entry named
    [data_type] does not. *)
Theorem normalized_dtype (attrs na : attrs_t) (typ : string) :
  case_insensitive_attrs attrs typ = Ok na ->
  Dict.get "dtype" na = or_else (given attrs "dtype") (Some (VStr typ)).
Proof.
  intros Hok.
  rewrite (case_insensitive_attrs_frame _ _ _ "dtype" Hok).
  - apply get_lowered.
  - unfold defaulted_keys, OPTIONAL_DEP_FIELDS. simpl.
    intros H; repeat (destruct H as [H|H]; [discriminate|]); exact H.
Qed.

Lemma normalized_dtype_witness :
  given Examples.full_attrs "data_type" = Some (VStr "float") /\
  Dict.get "dtype" (normal_form Examples.full_attrs "integer") = Some (VStr "integer").
Proof.
  split; [vm_compute; reflexivity|].
  rewrite (normalized_dtype Examples.full_attrs _ "integer").
  - vm_compute. reflexivity.
  - vm_compute. reflexivity.
Defined.

(** X5.  [xy_units] and [z_units] are the entries of the mapping when it
    has them, and its [units] otherwise. *)
Theorem normalized_units (attrs na : attrs_t) (typ : string) :
  case_insensitive_attrs attrs typ = Ok na ->
  Dict.get "xy_units" na = or_else (given attrs "xy_units") (given attrs "units") /\
  Dict.get "z_units" na = or_else (given attrs "z_units") (given attrs "units").
Proof.
  intro Hok. apply normalization_returns in Hok. destruct Hok as [_ ->].
  rewrite normal_form_fill.
  rewrite !get_fill_other
    by (unfold OPTIONAL_DEP_FIELDS; simpl;
        intros H; repeat (destruct H as [H|H]; [discriminate|]); exact H).
  split; [apply get_xy_units|apply get_z_units].
Qed.

(** X6.  An optional field, the two palette fields aside, is the entry of
    the mapping, or the empty text when there is none. *)
Theorem normalized_optional (attrs na : attrs_t) (typ k : string) :
  case_insensitive_attrs attrs typ = Ok na ->
  In k OPTIONAL_DEP_FIELDS -> k <> "palette_nonlinearity" -> k <> "preferred_palette" ->
  Dict.get k na = Some match given attrs k with Some v => v | None => VStr EmptyString end.
Proof.
  intros Hok Hin Hp _. apply normalization_returns in Hok. destruct Hok as [_ ->].
  rewrite normal_form_fill, get_fill.
  assert (Hs : str_in k OPTIONAL_DEP_FIELDS = true) by now apply str_in_In.
  rewrite Hs.
  rewrite get_plain; try assumption.
  - assert (Hd : String.eqb "dtype" k = false).
    { apply String.eqb_neq. intros <-. vm_compute in Hs. discriminate. }
    rewrite Hd. now destruct (given attrs k).
  - intros ->. vm_compute in Hs. discriminate.
  - intros ->. vm_compute in Hs. discriminate.
Qed.

(** X7.  Normalization takes the keys of the mapping by their lowered form
    only: two mappings whose entries agree up to the case and the white
    space of the keys have the same result. *)
Theorem normalization_ignores_key_case (a1 a2 : attrs_t) (typ : string) :
  lowered a1 = lowered a2 ->
  case_insensitive_attrs a1 typ = case_insensitive_attrs a2 typ.
Proof.
  intro H.
  assert (E : fold_left lower_step a1 [("dtype", VStr typ)]
              = fold_left lower_step a2 [("dtype", VStr typ)])
    by (rewrite !fold_lowered; now rewrite H).
  assert (Ew : with_defaults a1 typ = with_defaults a2 typ)
    by (unfold with_defaults; now rewrite E).
  rewrite !case_insensitive_attrs_checked. now rewrite Ew.
Qed.

Lemma normalized_units_witness :
  Dict.get "xy_units"
    (normal_form (("Units", VStr "m") :: Dict.remove "xy_units" Examples.full_attrs) "float")
  = Some (VStr "m").
Proof.
  assert (H : case_insensitive_attrs
                (("Units", VStr "m") :: Dict.remove "xy_units" Examples.full_attrs) "float"
              = Ok (normal_form (("Units", VStr "m") :: Dict.remove "xy_units" Examples.full_attrs)
                                "float"))
    by (vm_compute; reflexivity).
  rewrite (proj1 (normalized_units _ _ _ H)).
  vm_compute. reflexivity.
Defined.

Lemma normalized_optional_witness :
  Dict.get "projection" (normal_form Examples.full_attrs "float") = Some (VStr "").
Proof.
  rewrite (normalized_optional Examples.full_attrs _ "float" "projection").
  - vm_compute. reflexivity.
  - vm_compute. reflexivity.
  - simpl. tauto.
  - discriminate.
  - discriminate.
Defined.

Lemma normalization_ignores_key_case_witness :
  case_insensitive_attrs (("Data  Scale", VStr "categorical") :: Examples.scenario_attrs) "float"
  = case_insensitive_attrs (("data_scale", VStr "categorical") :: Examples.scenario_attrs) "float".
Proof.
  apply normalization_ignores_key_case. vm_compute. reflexivity.
Defined.

(** ** Keys in normal form *)

Lemma lower_char_key (c : ascii) :
  PyStr.is_upper (PyStr.lower_char c) = false /\
  PyStr.is_space (PyStr.lower_char c) = PyStr.is_space c.
Proof.
  destruct c as [[|] [|] [|] [|] [|] [|] [|] [|]]; split; reflexivity.
Qed.

Lemma forallb_app (p : ascii -> bool) (a b : string) :
  PyStr.forallb p (a ++ b) = PyStr.forallb p a && PyStr.forallb p b.
Proof.
  induction a as [|c a IH]; [reflexivity|]. simpl. rewrite IH. apply andb_assoc.
Qed.

Lemma lower_no_capital (s : string) :
  PyStr.forallb (fun c => negb (PyStr.is_upper c)) (PyStr.lower s) = true.
Proof.
  induction s as [|c s IH]; [reflexivity|].
  cbn [PyStr.lower PyStr.map PyStr.forallb]. fold (PyStr.lower s).
  rewrite (proj1 (lower_char_key c)). exact IH.
Qed.

Lemma words_from_key (s : string) :
  PyStr.forallb (fun c => negb (PyStr.is_upper c)) s = true ->
  PyStr.forallb key_char (fst (PyStr.words_from s)) = true /\
  Forall (fun w => PyStr.forallb key_char w = true) (snd (PyStr.words_from s)).
Proof.
  induction s as [|c s IH]; [now split|].
  cbn [PyStr.forallb PyStr.words_from]. intro H.
  apply andb_true_iff in H. destruct H as [Hc Hs].
  destruct (IH Hs) as [Hw Hws].
  destruct (PyStr.words_from s) as [w ws]. cbn [fst snd] in *.
  destruct (PyStr.is_space c) eqn:Esp; cbn [fst snd].
  - split; [reflexivity|]. unfold PyStr.cons_word.
    destruct (PyStr.is_empty w); [assumption|]. now constructor.
  - split; [|assumption]. cbn [PyStr.forallb]. unfold key_char at 1.
    now rewrite Esp, Hc, Hw.
Qed.

Lemma join_key (ws : list string) :
  Forall (fun w => PyStr.forallb key_char w = true) ws ->
  PyStr.forallb key_char (PyStr.join "_" ws) = true.
Proof.
  unfold PyStr.join. induction 1 as [|w ws Hw Hws IH]; [reflexivity|].
  cbn [String.concat]. destruct ws as [|w' ws']; [assumption|].
  rewrite forallb_app, Hw. cbn [andb]. cbn [append PyStr.forallb].
  change (key_char "_") with true. exact IH.
Qed.

Lemma lower_key_chars (k : string) : PyStr.forallb key_char (_lower_key k) = true.
Proof.
  unfold _lower_key. apply join_key. unfold PyStr.split_ws.
  pose proof (words_from_key _ (lower_no_capital k)) as [Hw Hws].
  destruct (PyStr.words_from (PyStr.lower k)) as [w ws]. cbn [fst snd] in *.
  unfold PyStr.cons_word. destruct (PyStr.is_empty w); [assumption|]. now constructor.
Qed.

Lemma lower_fixed (s : string) :
  PyStr.forallb key_char s = true -> PyStr.lower s = s.
Proof.
  induction s as [|c s IH]; [reflexivity|].
  cbn [PyStr.forallb]. intro H. apply andb_true_iff in H. destruct H as [Hc Hs].
  cbn [PyStr.lower PyStr.map]. fold (PyStr.lower s). rewrite (IH Hs).
  unfold key_char in Hc. apply andb_true_iff in Hc. destruct Hc as [_ Hu].
  unfold PyStr.lower_char. apply negb_true_iff in Hu. now rewrite Hu.
Qed.

Lemma words_from_fixed (s : string) :
  PyStr.forallb key_char s = true -> PyStr.words_from s = (s, []).
Proof.
  induction s as [|c s IH]; [reflexivity|].
  cbn [PyStr.forallb]. intro H. apply andb_true_iff in H. destruct H as [Hc Hs].
  cbn [PyStr.words_from]. rewrite (IH Hs).
  unfold key_char in Hc. apply andb_true_iff in Hc. destruct Hc as [Hsp _].
  apply negb_true_iff in Hsp. now rewrite Hsp.
Qed.

Lemma lower_key_fixed (s : string) :
  PyStr.forallb key_char s = true -> _lower_key s = s.
Proof.
  intro H. unfold _lower_key, PyStr.split_ws.
  rewrite (lower_fixed s H), (words_from_fixed s H).
  unfold PyStr.cons_word. destruct s; reflexivity.
Qed.

Lemma lower_key_fixed_chars (s : string) :
  _lower_key s = s -> PyStr.forallb key_char s = true.
Proof. intro H. rewrite <- H. apply lower_key_chars. Qed.

(** X8.  A lowered key has no white space and no capital; the keys that
    lowering leaves as they are are exactly those, so lowering twice is
    lowering once. *)
Theorem lower_key_normal_form (k : string) :
  PyStr.forallb key_char (_lower_key k) = true /\
  (_lower_key k = k <-> PyStr.forallb key_char k = true) /\
  _lower_key (_lower_key k) = _lower_key k.
Proof.
  split; [apply lower_key_chars|]. split.
  - split; [apply lower_key_fixed_chars|apply lower_key_fixed].
  - apply lower_key_fixed, lower_key_chars.
Qed.

(** ** Normalizing twice *)

Lemma get_none_keys (k : string) (d : attrs_t) :
  Dict.get k d = None <-> ~ In k (Dict.keys d).
Proof.
  induction d as [|[k0 v0] d IH]; cbn [Dict.get Dict.keys List.map fst keqb EqKey_string].
  - split; [intros _ []|reflexivity].
  - destruct (String.eqb_spec k0 k) as [->|Hne].
    + split; [discriminate|]. intro H. exfalso. apply H. now left.
    + rewrite IH. unfold Dict.keys. split.
      * intros H [E|Hin]; [now apply Hne|now apply H].
      * intros H Hin. apply H. now right.
Qed.

Lemma set_new (k : string) (v : pyval) (d : attrs_t) :
  ~ In k (Dict.keys d) -> Dict.set k v d = (d ++ [(k, v)])%list.
Proof.
  induction d as [|[k0 v0] d IH]; intro H; [reflexivity|].
  cbn [Dict.set keqb EqKey_string app].
  destruct (String.eqb_spec k0 k) as [->|Hne].
  - exfalso. apply H. now left.
  - rewrite IH; [reflexivity|]. intro Hin. apply H. now right.
Qed.

Lemma keys_set (k : string) (v : pyval) (d : attrs_t) :
  Dict.keys (Dict.set k v d)
  = if Dict.mem k d then Dict.keys d else (Dict.keys d ++ [k])%list.
Proof.
  unfold Dict.mem.
  induction d as [|[k0 v0] d IH]; [reflexivity|].
  cbn [Dict.set Dict.get keqb EqKey_string].
  destruct (String.eqb_spec k0 k) as [->|Hne]; [reflexivity|].
  unfold Dict.keys in *. cbn [List.map fst]. rewrite IH.
  now destruct (Dict.get k d).
Qed.

Lemma set_well_keyed (k : string) (v : pyval) (d : attrs_t) :
  PyStr.forallb key_char k = true -> well_keyed d -> well_keyed (Dict.set k v d).
Proof.
  intros Hk ((v0 & rest & ->) & Hnd & Hcl). split; [|split].
  - cbn [Dict.set keqb EqKey_string].
    destruct (String.eqb "dtype" k); eexists; eexists; reflexivity.
  - rewrite keys_set. destruct (Dict.mem k _) eqn:Em; [assumption|].
    apply NoDup_app; [assumption|repeat constructor; intros []|].
    intros x Hx [<-|[]]. apply get_none_keys in Hx; [exact Hx|].
    unfold Dict.mem in Em. now destruct (Dict.get k _).
  - rewrite keys_set. destruct (Dict.mem k _); [assumption|].
    apply Forall_app. split; [assumption|now constructor].
Qed.

Lemma lowered_well_keyed (attrs init : attrs_t) :
  well_keyed init -> well_keyed (fold_left lower_step attrs init).
Proof.
  revert init. induction attrs as [|[k0 v0] attrs IH]; intros init H; [assumption|].
  cbn [fold_left]. apply IH. unfold lower_step. cbn [fst snd].
  apply set_well_keyed; [apply lower_key_chars|assumption].
Qed.

Lemma copy_key_well_keyed (dst src : string) (d : attrs_t) :
  PyStr.forallb key_char dst = true -> well_keyed d -> well_keyed (copy_key dst src d).
Proof.
  intros Hk H. unfold copy_key. destruct (Dict.get src d); [|assumption].
  destruct (Dict.mem dst d); [assumption|]. now apply set_well_keyed.
Qed.

Lemma fill_well_keyed (ks : list string) (d : attrs_t) :
  Forall (fun k => PyStr.forallb key_char k = true) ks ->
  well_keyed d -> well_keyed (fold_left fill_step ks d).
Proof.
  intro Hks. revert d. induction Hks as [|k ks Hk Hks IH]; intros d H; [assumption|].
  cbn [fold_left]. apply IH. unfold fill_step.
  destruct (Dict.mem k d); [assumption|]. now apply set_well_keyed.
Qed.

Lemma normal_form_well_keyed (attrs : attrs_t) (typ : string) :
  well_keyed (normal_form attrs typ).
Proof.
  unfold normal_form. apply fill_well_keyed.
  { unfold OPTIONAL_DEP_FIELDS. repeat constructor. }
  unfold palette_step_2, palette_step_1.
  assert (H : well_keyed (copy_key "z_units" "units" (copy_key "xy_units" "units"
                (fold_left lower_step attrs [("dtype", VStr typ)])))).
  { apply copy_key_well_keyed; [reflexivity|].
    apply copy_key_well_keyed; [reflexivity|].
    apply lowered_well_keyed. split; [|split].
    - now exists (VStr typ), [].
    - repeat constructor. intros [].
    - repeat constructor. }
  repeat match goal with
         | |- context [if ?c then _ else _] => destruct c
         end;
    repeat (apply set_well_keyed; [reflexivity|]); exact H.
Qed.

Lemma rebuild (rest acc : attrs_t) :
  NoDup (Dict.keys acc ++ Dict.keys rest) ->
  Forall (fun k => PyStr.forallb key_char k = true) (Dict.keys rest) ->
  fold_left lower_step rest acc = (acc ++ rest)%list.
Proof.
  revert acc. induction rest as [|[k v] rest IH]; intros acc Hnd Hcl.
  - now rewrite List.app_nil_r.
  - cbn [fold_left]. unfold lower_step at 2. cbn [fst snd].
    cbn [Dict.keys List.map fst] in Hnd, Hcl. inversion Hcl as [|? ? Hk Hrest]; subst.
    rewrite (lower_key_fixed k Hk).
    rewrite set_new.
    + rewrite IH.
      * now rewrite <- List.app_assoc.
      * unfold Dict.keys. rewrite List.map_app. cbn [List.map fst].
        rewrite <- List.app_assoc. exact Hnd.
      * exact Hrest.
    + apply NoDup_remove_2 in Hnd. intro Hin. apply Hnd.
      apply in_or_app. now left.
Qed.

Lemma relowered (d : attrs_t) (typ : string) :
  well_keyed d -> fold_left lower_step d [("dtype", VStr typ)] = d.
Proof.
  intros ((v & rest & ->) & Hnd & Hcl).
  cbn [fold_left]. unfold lower_step at 2. cbn [fst snd].
  change (_lower_key "dtype") with "dtype". cbn [Dict.set keqb EqKey_string String.eqb Ascii.eqb Bool.eqb].
  cbn [Dict.keys List.map fst] in Hnd, Hcl.
  apply rebuild.
  - exact Hnd.
  - now inversion Hcl.
Qed.

Lemma copy_key_present (dst src : string) (d : attrs_t) :
  Dict.mem dst d = true -> copy_key dst src d = d.
Proof.
  intro H. unfold copy_key. rewrite H. now destruct (Dict.get src d).
Qed.

Lemma fill_present (ks : list string) (d : attrs_t) :
  (forall k, In k ks -> Dict.mem k d = true) -> fold_left fill_step ks d = d.
Proof.
  induction ks as [|k ks IH]; intro H; [reflexivity|].
  cbn [fold_left]. unfold fill_step at 2. rewrite (H k) by now left.
  apply IH. intros k' Hin. apply H. now right.
Qed.

Lemma checked_again (lower na : attrs_t) :
  checked lower = Ok na ->
  (forall k, In k (REQUIRED_DEP_FIELDS ++ OPTIONAL_DEP_FIELDS) -> Dict.mem k na = true) ->
  checked na = Ok na.
Proof.
  intros H Hmem. pose proof (checked_ok _ _ H) as [Hmiss Hna].
  unfold checked in *. cbv zeta in *. rewrite Hmiss in H. rewrite <- Hna in H.
  replace (List.filter (fun k => negb (Dict.mem k na)) REQUIRED_DEP_FIELDS) with (@nil string).
  - rewrite (fill_present OPTIONAL_DEP_FIELDS na)
      by (intros k Hk; apply Hmem, in_or_app; now right).
    exact H.
  - symmetry. apply filter_none. intros k Hk.
    rewrite Hmem by (apply in_or_app; now left). reflexivity.
Qed.

(** X9.  Normalization is idempotent: a mapping it returned is returned
    unchanged when normalized again, whatever kind is inferred then. *)
Theorem normalization_idempotent (attrs na : attrs_t) (typ typ' : string) :
  case_insensitive_attrs attrs typ = Ok na ->
  case_insensitive_attrs na typ' = Ok na.
Proof.
  intro Hok.
  assert (Hmem : forall k, In k (REQUIRED_DEP_FIELDS ++ OPTIONAL_DEP_FIELDS) ->
                           Dict.mem k na = true)
    by (intros k Hk; exact (fields_present _ _ _ _ Hok Hk)).
  assert (Hwk : well_keyed na).
  { apply case_insensitive_attrs_ok in Hok. rewrite Hok. apply normal_form_well_keyed. }
  assert (Hwd : with_defaults na typ' = na).
  { unfold with_defaults. rewrite (relowered na typ' Hwk).
    rewrite (copy_key_present "xy_units") by (apply Hmem; simpl; tauto).
    rewrite (copy_key_present "z_units") by (apply Hmem; simpl; tauto).
    unfold palette_step_1. rewrite (Hmem "preferred_palette") by (simpl; tauto).
    cbn [negb]. unfold palette_step_2.
    rewrite (Hmem "palette_nonlinearity") by (simpl; tauto). reflexivity. }
  rewrite case_insensitive_attrs_checked in Hok |- *. rewrite Hwd.
  exact (checked_again _ _ Hok Hmem).
Qed.

Lemma normalization_idempotent_witness :
  case_insensitive_attrs (normal_form Examples.full_attrs "float") "integer"
  = Ok (normal_form Examples.full_attrs "float").
Proof.
  apply (normalization_idempotent Examples.full_attrs _ "float" "integer").
  vm_compute. reflexivity.
Defined.

(** ** Case mapping, character by character *)

Lemma case_chars (c : ascii) :
  PyStr.upper_char (PyStr.upper_char c) = PyStr.upper_char c /\
  PyStr.lower_char (PyStr.lower_char c) = PyStr.lower_char c /\
  PyStr.is_alpha (PyStr.upper_char c) = PyStr.is_alpha c /\
  PyStr.is_alpha (PyStr.lower_char c) = PyStr.is_alpha c.
Proof.
  destruct c as [[|] [|] [|] [|] [|] [|] [|] [|]]; repeat split; reflexivity.
Qed.

Lemma upper_idem (s : string) : PyStr.upper (PyStr.upper s) = PyStr.upper s.
Proof.
  induction s as [|c s IH]; [reflexivity|].
  cbn [PyStr.upper PyStr.map]. fold (PyStr.upper s). fold (PyStr.upper (PyStr.upper s)).
  now rewrite IH, (proj1 (case_chars c)).
Qed.

Lemma upper_app (a b : string) : PyStr.upper (a ++ b) = PyStr.upper a ++ PyStr.upper b.
Proof.
  induction a as [|c a IH]; [reflexivity|].
  cbn [append PyStr.upper PyStr.map]. fold (PyStr.upper (a ++ b)). fold (PyStr.upper a).
  now rewrite IH.
Qed.

Lemma title_from_idem (b : bool) (s : string) :
  PyStr.title_from b (PyStr.title_from b s) = PyStr.title_from b s.
Proof.
  revert b. induction s as [|c s IH]; intro b; [reflexivity|].
  cbn [PyStr.title_from]. destruct (case_chars c) as (Hu & Hl & Hau & Hal).
  destruct b.
  - rewrite Hl, Hal, IH. reflexivity.
  - rewrite Hu, Hau, IH. reflexivity.
Qed.

Lemma title_idem (s : string) : PyStr.title (PyStr.title s) = PyStr.title s.
Proof. apply title_from_idem. Qed.

(** ** The lines of a header, one by one *)

Lemma coerce_typed (K value : string) (v : pyval) :
  coerce K value = Ok v -> typed K v = true.
Proof.
  unfold coerce, typed.
  destruct (str_in K INT_DEP_FIELDS).
  { destruct (Parse.py_int value); [|discriminate]. now intros [= <-]. }
  destruct (str_in K FLOAT_DEP_FIELDS).
  { destruct (Parse.py_float value); [|discriminate]. now intros [= <-]. }
  destruct (str_in K UPPER_STR_FIELDS); cbn [negb]; intros [= <-]; [reflexivity|].
  cbn [orb]. rewrite upper_idem. apply String.eqb_refl.
Qed.

Lemma coerce_metadata (value : string) :
  coerce "Metadata Entry" value = Ok (VStr (PyStr.upper value)).
Proof. reflexivity. Qed.

Lemma parse_lines_cons (line : string) (rest : list string) (acc d : attrs_t) :
  parse_lines (line :: rest) acc = Ok d ->
  exists v, coerce (line_key line) (line_value line) = Ok v /\
            parse_lines rest (store_line acc (line_key line) v) = Ok d.
Proof.
  cbn [parse_lines]. rewrite parse_line_eq.
  destruct (coerce (line_key line) (line_value line)) as [v|e]; [|discriminate].
  cbn [bind fst snd]. intro H. now exists v.
Qed.

Lemma in_set (K k : string) (v w : pyval) (d : attrs_t) :
  In (K, v) (Dict.set k w d) -> (K = k /\ v = w) \/ In (K, v) d.
Proof.
  induction d as [|[k0 v0] d IH]; cbn [Dict.set keqb EqKey_string].
  - intros [[= <- <-]|[]]. now left.
  - destruct (String.eqb_spec k0 k) as [->|Hne].
    + intros [[= <- <-]|Hin]; [now left|right; now right].
    + intros [E|Hin]; [right; now left|].
      destruct (IH Hin) as [H|H]; [now left|right; now right].
Qed.

Lemma store_line_typed (acc : attrs_t) (K : string) (v : pyval) :
  typed K v = true -> PyStr.title K = K ->
  Forall (fun kv => typed (fst kv) (snd kv) = true /\ PyStr.title (fst kv) = fst kv) acc ->
  Forall (fun kv => typed (fst kv) (snd kv) = true /\ PyStr.title (fst kv) = fst kv)
         (store_line acc K v).
Proof.
  intros Hv HK Hacc. apply Forall_forall. intros [K' v'] Hin. cbn [fst snd].
  rewrite Forall_forall in Hacc.
  assert (Hset : forall w, typed K w = true -> In (K', v') (Dict.set K w acc) ->
                           typed K' v' = true /\ PyStr.title K' = K').
  { intros w Hw Hi. apply in_set in Hi. destruct Hi as [[-> ->]|Hi]; [now split|].
    exact (Hacc _ Hi). }
  unfold store_line in Hin.
  destruct (String.eqb_spec K "Metadata Entry") as [->|Hne]; [|now apply (Hset v)].
  destruct (Dict.get "Metadata Entry" acc) as [[| | | |old]|] eqn:Eg;
    try (now apply (Hset v)).
  destruct v as [| | | |s]; try (now apply (Hset v)); try discriminate.
  apply (Hset (VStr (old ++ NL ++ s))); [|assumption].
  apply get_in in Eg. apply Hacc in Eg. cbn [fst snd] in Eg. destruct Eg as [Eg _].
  unfold typed in *. cbn [str_in List.existsb INT_DEP_FIELDS FLOAT_DEP_FIELDS UPPER_STR_FIELDS
                          String.eqb Ascii.eqb Bool.eqb orb] in *.
  apply String.eqb_eq in Hv, Eg. apply String.eqb_eq.
  rewrite !upper_app, Hv, Eg. reflexivity.
Qed.

Lemma parse_lines_typed (lines : list string) :
  forall acc d,
    parse_lines lines acc = Ok d ->
    Forall (fun kv => typed (fst kv) (snd kv) = true /\ PyStr.title (fst kv) = fst kv) acc ->
    Forall (fun kv => typed (fst kv) (snd kv) = true /\ PyStr.title (fst kv) = fst kv) d.
Proof.
  induction lines as [|line rest IH]; intros acc d H Hacc.
  - now injection H as <-.
  - apply parse_lines_cons in H. destruct H as (v & Hv & Hrest).
    apply (IH _ _ Hrest). apply store_line_typed; [|apply title_idem|assumption].
    exact (coerce_typed _ _ _ Hv).
Qed.

(** X10.  The attributes read from a header are typed by their names:
    [Cols], [Rows] and [Stacks] are integers, the eight fields from [Min]
    to [Display Max] floats, everything else text, in upper case unless the
    name is [Data Type] or [Byte Order]; and every name is in title case. *)
Theorem header_attributes_typed (fs : store) (fname : string) (d : attrs_t)
    (K : string) (v : pyval) :
  _from_dep fs fname = Ok d ->
  Dict.get K d = Some v ->
  typed K v = true /\ PyStr.title K = K.
Proof.
  unfold _from_dep. destruct (read_text fs fname) as [content|e]; [|discriminate].
  cbn [bind]. intros Hparse Hget.
  pose proof (parse_lines_typed _ _ _ Hparse (Forall_nil _)) as Hall.
  rewrite Forall_forall in Hall. apply get_in in Hget.
  exact (Hall _ Hget).
Qed.

Lemma header_attributes_typed_witness :
  typed "Nodata" (VStr "-9999") = true /\ PyStr.title "Nodata" = "Nodata".
Proof.
  apply (header_attributes_typed
           [("/data/h.dep", list_byte_of_string ("rows: 2" ++ NL ++ "nodata: -9999"))]
           "/data/h.dep" [("Rows", VInt 2); ("Nodata", VStr "-9999")]).
  - vm_compute. reflexivity.
  - vm_compute. reflexivity.
Defined.

(** ** Which line a field is read from *)

Lemma get_store_line_same (acc : attrs_t) (K : string) (v : pyval) :
  K <> "Metadata Entry" -> Dict.get K (store_line acc K v) = Some v.
Proof.
  intro H. unfold store_line.
  destruct (String.eqb_spec K "Metadata Entry"); [contradiction|]. apply get_set_same.
Qed.

Lemma parse_lines_lookup (K : string) (lines : list string) :
  K <> "Metadata Entry" ->
  forall acc d,
    parse_lines lines acc = Ok d ->
    Dict.get K d =
    match last_line K lines with
    | Some l => match coerce K (line_value l) with Ok v => Some v | Raise _ => None end
    | None => Dict.get K acc
    end.
Proof.
  intro HK. induction lines as [|line rest IH]; intros acc d H.
  - now injection H as <-.
  - apply parse_lines_cons in H. destruct H as (v & Hv & Hrest).
    rewrite (IH _ _ Hrest). cbn [last_line].
    destruct (last_line K rest) as [l'|]; [reflexivity|].
    destruct (String.eqb_spec (line_key line) K) as [E|Hne].
    + rewrite E in *. rewrite Hv. now apply get_store_line_same.
    + apply get_store_line_other. intro E. now apply Hne.
Qed.

(** X11.  A field of a header is read from the last line that names it,
    whatever the case of the name on the line; a field no line names is
    absent. *)
Theorem header_field_from_last_line (fs : store) (fname content K : string) (d : attrs_t) :
  read_text fs fname = Ok content ->
  _from_dep fs fname = Ok d ->
  K <> "Metadata Entry" ->
  Dict.get K d =
  match last_line K (PyStr.splitlines content) with
  | Some l => match coerce K (line_value l) with Ok v => Some v | Raise _ => None end
  | None => None
  end.
Proof.
  intros Hread Hparse HK. unfold _from_dep in Hparse. rewrite Hread in Hparse.
  cbn [bind] in Hparse. rewrite (parse_lines_lookup K _ HK _ _ Hparse).
  now destruct (last_line K (PyStr.splitlines content)).
Qed.

Lemma header_field_from_last_line_witness :
  Dict.get "Rows"
    [("Rows", VInt 3); ("Cols", VInt 4)] = Some (VInt 3) /\
  Dict.get "Stacks" [("Rows", VInt 3); ("Cols", VInt 4)] = None.
Proof.
  assert (Hr : read_text [("/data/h.dep",
                           list_byte_of_string ("rows: 2" ++ NL ++ "COLS: 4" ++ NL ++ "Rows : 3"))]
                         "/data/h.dep"
               = Ok ("rows: 2" ++ NL ++ "COLS: 4" ++ NL ++ "Rows : 3"))
    by (vm_compute; reflexivity).
  assert (Hp : _from_dep [("/data/h.dep",
                           list_byte_of_string ("rows: 2" ++ NL ++ "COLS: 4" ++ NL ++ "Rows : 3"))]
                         "/data/h.dep"
               = Ok [("Rows", VInt 3); ("Cols", VInt 4)])
    by (vm_compute; reflexivity).
  split.
  - rewrite (header_field_from_last_line _ _ _ "Rows" _ Hr Hp) by discriminate.
    vm_compute. reflexivity.
  - rewrite (header_field_from_last_line _ _ _ "Stacks" _ Hr Hp) by discriminate.
    vm_compute. reflexivity.
Defined.

(** ** Metadata lines *)

Lemma join_merge (sep a b : string) (r : list string) :
  PyStr.join sep ((a ++ sep ++ b) :: r) = PyStr.join sep (a :: b :: r).
Proof.
  unfold PyStr.join. destruct r as [|c r]; cbn [String.concat]; [reflexivity|].
  now rewrite !StrFacts.append_assoc.
Qed.

Lemma parse_lines_metadata (lines : list string) :
  forall acc d prev,
    parse_lines lines acc = Ok d ->
    Dict.get "Metadata Entry" acc = joined prev ->
    Dict.get "Metadata Entry" d
    = joined (match prev with
              | [] => metadata_values lines
              | _ => PyStr.join NL prev :: metadata_values lines
              end).
Proof.
  induction lines as [|line rest IH]; intros acc d prev H Hacc.
  - injection H as <-. rewrite Hacc. destruct prev as [|p [|q r]]; reflexivity.
  - apply parse_lines_cons in H. destruct H as (v & Hv & Hrest).
    unfold metadata_values. cbn [List.filter].
    destruct (String.eqb_spec (line_key line) "Metadata Entry") as [E|Hne].
    + rewrite E in *. rewrite coerce_metadata in Hv. injection Hv as <-.
      cbn [List.map]. fold (metadata_values rest).
      destruct prev as [|p r].
      * cbn [joined] in Hacc.
        rewrite (IH _ _ [PyStr.upper (line_value line)] Hrest).
        -- reflexivity.
        -- unfold store_line. cbn [String.eqb Ascii.eqb Bool.eqb]. rewrite Hacc.
           apply get_set_same.
      * assert (Hj : joined (p :: r) = Some (VStr (PyStr.join NL (p :: r)))) by reflexivity.
        rewrite Hj in Hacc.
        rewrite (IH _ _ [PyStr.join NL (p :: r) ++ NL ++ PyStr.upper (line_value line)] Hrest).
        -- cbn [joined]. change (PyStr.join NL [?x]) with x.
           unfold joined. f_equal. f_equal.
           change (PyStr.join NL [PyStr.join NL (p :: r) ++ NL ++ PyStr.upper (line_value line)])
             with (PyStr.join NL (p :: r) ++ NL ++ PyStr.upper (line_value line)).
           apply join_merge.
        -- unfold store_line. cbn [String.eqb Ascii.eqb Bool.eqb]. rewrite Hacc.
           apply get_set_same.
    + fold (metadata_values rest).
      apply (IH _ _ prev Hrest).
      rewrite get_store_line_other by (intro E; now apply Hne). exact Hacc.
Qed.

(** X12.  The [Metadata Entry] of a header is made of all its metadata
    lines: their values in upper case, in the order of the lines, joined by
    line feeds; without such a line there is no entry. *)
Theorem header_metadata_joined (fs : store) (fname content : string) (d : attrs_t) :
  read_text fs fname = Ok content ->
  _from_dep fs fname = Ok d ->
  Dict.get "Metadata Entry" d = joined (metadata_values (PyStr.splitlines content)).
Proof.
  intros Hread Hparse. unfold _from_dep in Hparse. rewrite Hread in Hparse.
  cbn [bind] in Hparse.
  exact (parse_lines_metadata _ _ _ [] Hparse eq_refl).
Qed.

Lemma header_metadata_joined_witness :
  Dict.get "Metadata Entry"
    [("Metadata Entry", VStr ("FIRST" ++ NL ++ "SECOND")); ("Rows", VInt 2)]
  = Some (VStr ("FIRST" ++ NL ++ "SECOND")).
Proof.
  rewrite (header_metadata_joined
             [("/data/h.dep",
               list_byte_of_string ("Metadata entry: first" ++ NL ++ "rows: 2" ++ NL
                                    ++ "metadata Entry : second"))]
             "/data/h.dep"
             ("Metadata entry: first" ++ NL ++ "rows: 2" ++ NL ++ "metadata Entry : second")).
  - vm_compute. reflexivity.
  - vm_compute. reflexivity.
  - vm_compute. reflexivity.
Defined.

(** ** What [from_dep] returns *)

Section Decoding.

Variable native : endian.
Variable np_linspace : spec_float -> spec_float -> nat -> list spec_float.

Lemma item_int_typed (d : attrs_t) (K : string) (z : Z) :
  Forall (fun kv => typed (fst kv) (snd kv) = true /\ PyStr.title (fst kv) = fst kv) d ->
  str_in K INT_DEP_FIELDS = true ->
  item_int d K = Ok z -> Dict.get K d = Some (VInt z).
Proof.
  intros Hall HK. unfold item_int.
  destruct (Dict.get K d) as [v|] eqn:Eg; [|discriminate].
  rewrite Forall_forall in Hall. pose proof (Hall _ (get_in _ _ _ Eg)) as [Ht _].
  cbn [fst snd] in Ht. unfold typed in Ht. rewrite HK in Ht.
  destruct v; try discriminate. now intros [= ->].
Qed.

Lemma item_float_typed (d : attrs_t) (K : string) (f : spec_float) :
  Forall (fun kv => typed (fst kv) (snd kv) = true /\ PyStr.title (fst kv) = fst kv) d ->
  str_in K INT_DEP_FIELDS = false -> str_in K FLOAT_DEP_FIELDS = true ->
  item_float d K = Ok f -> Dict.get K d = Some (VFloat f).
Proof.
  intros Hall HI HK. unfold item_float.
  destruct (Dict.get K d) as [v|] eqn:Eg; [|discriminate].
  rewrite Forall_forall in Hall. pose proof (Hall _ (get_in _ _ _ Eg)) as [Ht _].
  cbn [fst snd] in Ht. unfold typed in Ht. rewrite HI, HK in Ht.
  destruct v; try discriminate. now intros [= ->].
Qed.

Lemma from_dep_typed (fs : store) (fname : string) (d : attrs_t) :
  _from_dep fs fname = Ok d ->
  Forall (fun kv => typed (fst kv) (snd kv) = true /\ PyStr.title (fst kv) = fst kv) d.
Proof.
  unfold _from_dep. destruct (read_text fs fname) as [content|e]; [|discriminate].
  cbn [bind]. intro H. exact (parse_lines_typed _ _ _ H (Forall_nil _)).
Qed.

Lemma np_fromfile_kind (fs : store) (path s : string) (a : ndarray) :
  np_fromfile native fs path (snd (_get_dtype s)) = Ok a -> nd_dtype a = kind_read s.
Proof.
  unfold np_fromfile, _get_dtype, kind_read.
  destruct (Dict.get path fs); [|discriminate].
  destruct (PyStr.contains "float" (PyStr.lower s)); cbn [snd].
  - change (np_dtype_of_string (lookup_const "float" DTYPES))
      with (Some (@None endian, DFloat F32)).
    cbv iota beta. now intros [= <-].
  - change (np_dtype_of_string (lookup_const "integer" DTYPES))
      with (Some (@None endian, DInt I16)).
    cbv iota beta. now intros [= <-].
Qed.

Lemma nd_resize_shape (a b : ndarray) (rows cols : Z) :
  nd_resize a rows cols = Ok b ->
  0 <= rows /\ 0 <= cols /\
  nd_dtype b = nd_dtype a /\
  nd_shape b = [Z.to_nat rows; Z.to_nat cols] /\
  nd_size b = (Z.to_nat rows * Z.to_nat cols)%nat.
Proof.
  unfold nd_resize.
  destruct (Z.ltb_spec rows 0); [discriminate|].
  destruct (Z.ltb_spec cols 0); [discriminate|]. cbn [orb].
  intros [= <-]. split; [assumption|]. split; [assumption|].
  destruct a as [w sh l|w sh l]; cbn [nd_dtype nd_shape nd_size];
    (split; [reflexivity|]; split; [reflexivity|]);
    rewrite List.length_firstn, List.length_app, List.repeat_length; lia.
Qed.

(** What a successful call of [from_dep] went through *)
Lemma from_dep_ok (fs : store) (dep : string) (tas : option string) (da : DataArray) :
  from_dep native np_linspace fs dep tas = Ok da ->
  exists t s read rows cols south north east west,
    PyStr.is_empty dep = false /\ exists_ fs dep = true /\
    body_path dep tas = Some t /\ PyStr.is_empty t = false /\ exists_ fs t = true /\
    _from_dep fs dep = Ok (attrs da) /\
    Dict.get "Data Type" (attrs da) = Some (VStr s) /\
    nd_dtype read = kind_read s /\
    item_int (attrs da) "Rows" = Ok rows /\
    item_int (attrs da) "Cols" = Ok cols /\
    nd_resize read rows cols = Ok (values da) /\
    item_float (attrs da) "South" = Ok south /\
    item_float (attrs da) "North" = Ok north /\
    item_float (attrs da) "East" = Ok east /\
    item_float (attrs da) "West" = Ok west /\
    coords da = [("x", removelast (np_linspace east west (Z.to_nat cols + 1)));
                 ("y", removelast (np_linspace south north (Z.to_nat rows + 1)))] /\
    dims da = ["y"; "x"] /\
    filename da = Some (dep, t).
Proof.
  unfold from_dep. fold (body_path dep tas).
  destruct (PyStr.is_empty dep) eqn:Ee; [discriminate|].
  destruct (exists_ fs dep) eqn:Ex; [|discriminate]. cbn [orb negb].
  destruct (body_path dep tas) as [t|]; [|discriminate].
  destruct (PyStr.is_empty t) eqn:Et; [discriminate|].
  destruct (exists_ fs t) eqn:Ext; [|discriminate]. cbn [orb negb].
  destruct (_from_dep fs dep) as [d|e] eqn:Ed; [|discriminate]. cbn [bind].
  destruct (Dict.get "Data Type" d) as [[| | | |s]|] eqn:Et'; try discriminate. cbn [bind].
  assert (Hbo : Dict.get "byte_order" d = None).
  { destruct (Dict.get "byte_order" d) as [v|] eqn:Eb; [|reflexivity].
    pose proof (from_dep_typed _ _ _ Ed) as Hall. rewrite Forall_forall in Hall.
    pose proof (Hall _ (get_in _ _ _ Eb)) as [_ Ht]. cbn [fst] in Ht.
    vm_compute in Ht. discriminate. }
  rewrite Hbo.
  destruct (np_fromfile native fs t (snd (_get_dtype s))) as [read|e] eqn:Er; [|discriminate].
  cbn [bind].
  destruct (item_int d "Rows") as [rows|e] eqn:Erows; [|discriminate]. cbn [bind].
  destruct (item_int d "Cols") as [cols|e] eqn:Ecols; [|discriminate]. cbn [bind].
  destruct (nd_resize read rows cols) as [val|e] eqn:Ev; [|discriminate]. cbn [bind].
  destruct (item_float d "South") as [south|e] eqn:Es; [|discriminate]. cbn [bind].
  destruct (item_float d "North") as [north|e] eqn:En; [|discriminate]. cbn [bind].
  destruct (item_float d "East") as [east|e] eqn:Eea; [|discriminate]. cbn [bind].
  destruct (item_float d "West") as [west|e] eqn:Ew; [|discriminate]. cbn [bind].
  intros [= <-]. cbn [attrs values coords dims filename].
  exists t, s, read, rows, cols, south, north, east, west.
  repeat split; try assumption; try reflexivity.
  exact (np_fromfile_kind _ _ _ _ Er).
Qed.

(** X13.  [from_dep] returns a record only when the header and the body
    both exist, and names the two files in the record; the body is the file
    it is given or, without one, the header's name with [.tas] for
    [.dep].  A missing header is reported as such, before anything is
    read. *)
Theorem decode_reads_an_existing_pair (fs : store) (dep : string) (tas : option string) :
  (forall da,
     from_dep native np_linspace fs dep tas = Ok da ->
     exists t,
       filename da = Some (dep, t) /\ body_path dep tas = Some t /\
       exists_ fs dep = true /\ exists_ fs t = true) /\
  (exists_ fs dep = false ->
   from_dep native np_linspace fs dep tas = Raise (NoSuchDep dep)) /\
  (exists_ fs dep = true -> PyStr.is_empty dep = false ->
   forall t, body_path dep tas = Some t -> exists_ fs t = false ->
   from_dep native np_linspace fs dep tas = Raise (NoSuchTas t)).
Proof.
  split; [|split].
  - intros da H. apply from_dep_ok in H.
    destruct H as (t & s & read & rows & cols & south & north & east & west & H).
    exists t. tauto.
  - intro H. unfold from_dep. rewrite H. cbn [negb]. now rewrite orb_true_r.
  - intros Hd He t Ht Hx. unfold from_dep. fold (body_path dep tas).
    rewrite Hd, He, Ht, Hx. cbn [negb orb]. now rewrite orb_true_r.
Qed.

(** X14.  A record read by [from_dep] has a grid of exactly [Rows] by
    [Cols] samples, whatever the length of the body, of the kind its
    [Data Type] names (binary32 when it contains [float] in any case,
    shorts otherwise); the header gives [Rows] and [Cols] as integers that
    are not negative and [North], [South], [East] and [West] as floats;
    the x axis runs from [East] towards [West] and the y axis from [South]
    towards [North]. *)
Theorem decoded_grid (fs : store) (dep : string) (tas : option string) (da : DataArray) :
  from_dep native np_linspace fs dep tas = Ok da ->
  exists (rows cols : Z) (north south east west : spec_float) (s : string),
    Dict.get "Rows" (attrs da) = Some (VInt rows) /\ 0 <= rows /\
    Dict.get "Cols" (attrs da) = Some (VInt cols) /\ 0 <= cols /\
    nd_shape (values da) = [Z.to_nat rows; Z.to_nat cols] /\
    nd_size (values da) = (Z.to_nat rows * Z.to_nat cols)%nat /\
    Dict.get "Data Type" (attrs da) = Some (VStr s) /\
    nd_dtype (values da) = kind_read s /\
    Dict.get "North" (attrs da) = Some (VFloat north) /\
    Dict.get "South" (attrs da) = Some (VFloat south) /\
    Dict.get "East" (attrs da) = Some (VFloat east) /\
    Dict.get "West" (attrs da) = Some (VFloat west) /\
    dims da = ["y"; "x"] /\
    coords da = [("x", removelast (np_linspace east west (Z.to_nat cols + 1)));
                 ("y", removelast (np_linspace south north (Z.to_nat rows + 1)))].
Proof.
  intro H. apply from_dep_ok in H.
  destruct H as (t & s & read & rows & cols & south & north & east & west &
                 _ & _ & _ & _ & _ & Hd & Hs & Hk & Hrows & Hcols & Hres &
                 Hso & Hno & Hea & Hwe & Hco & Hdi & _).
  pose proof (from_dep_typed _ _ _ Hd) as Hall.
  apply nd_resize_shape in Hres. destruct Hres as (Hr & Hc & Hdt & Hsh & Hsz).
  exists rows, cols, north, south, east, west, s.
  repeat split; try assumption.
  - now apply item_int_typed.
  - now apply item_int_typed.
  - now rewrite Hdt.
  - now apply item_float_typed.
  - now apply item_float_typed.
  - now apply item_float_typed.
  - now apply item_float_typed.
Qed.

End Decoding.

Lemma decode_reads_an_existing_pair_witness :
  (exists t,
     body_path "/data/g.dep" None = Some t /\
     exists_ (Examples.files_with_order "LITTLE_ENDIAN" Examples.body_swapped) t = true) /\
  Examples.decode [] "/data/g.dep" None = Raise (NoSuchDep "/data/g.dep") /\
  Examples.decode [("/data/g.dep", [])] "/data/g.dep" None = Raise (NoSuchTas "/data/g.tas").
Proof.
  split; [|split].
  - destruct (proj1 (decode_reads_an_existing_pair LittleEndian Reference.np_linspace
                       (Examples.files_with_order "LITTLE_ENDIAN" Examples.body_swapped)
                       "/data/g.dep" None)
                    {| values := IntArray I16 [1%nat; 2%nat] [1; 2];
                       coords := [("x", [float_of_Z 0; float_of_Z 1]); ("y", [float_of_Z 0])];
                       dims := ["y"; "x"];
                       attrs := [("North", VFloat (float_of_Z 1)); ("South", VFloat (float_of_Z 0));
                                 ("East", VFloat (float_of_Z 0)); ("West", VFloat (float_of_Z 2));
                                 ("Cols", VInt 2); ("Rows", VInt 1);
                                 ("Data Type", VStr "integer");
                                 ("Byte Order", VStr "LITTLE_ENDIAN")];
                       filename := Some ("/data/g.dep", "/data/g.tas") |})
      as (t & _ & Ht & _ & Hx).
    + vm_compute. reflexivity.
    + exists t. split; assumption.
  - apply (proj1 (proj2 (decode_reads_an_existing_pair LittleEndian Reference.np_linspace
                            [] "/data/g.dep" None))).
    vm_compute. reflexivity.
  - apply (proj2 (proj2 (decode_reads_an_existing_pair LittleEndian Reference.np_linspace
                            [("/data/g.dep", [])] "/data/g.dep" None))).
    + vm_compute. reflexivity.
    + vm_compute. reflexivity.
    + vm_compute. reflexivity.
    + vm_compute. reflexivity.
Defined.

Lemma decoded_grid_witness :
  exists rows cols : Z,
    Dict.get "Rows" (attrs Samples.short_record) = Some (VInt rows) /\
    Dict.get "Cols" (attrs Samples.short_record) = Some (VInt cols) /\
    nd_size (values Samples.short_record) = (Z.to_nat rows * Z.to_nat cols)%nat.
Proof.
  destruct (decoded_grid LittleEndian Reference.np_linspace
              Samples.short_files "/data/g.dep" None Samples.short_record)
    as (rows & cols & north & south & east & west & s & Hr & _ & Hc & _ & _ & Hsz & _).
  - vm_compute. reflexivity.
  - exists rows, cols. repeat split; assumption.
Defined.

(** ** When the encoder writes *)

Section Encoding.

Variable native : endian.
Variable float_repr : spec_float -> string.
Variable WHITEBOX_TEMP_DIR : string.

Lemma to_tas_runs (a : ndarray) (fs : store) (f : string) (r c : nat) :
  nd_shape a = [r; c] ->
  exists fs',
    to_tas native fs (stored a) (kind_name a) f = (fs', Ok tt) /\
    Dict.get f fs'
      = Some (List.concat (firstn (r * c) (sample_bytes native (stored a)))) /\
    forall p, p <> f -> Dict.get p fs' = Dict.get p fs.
Proof.
  intros Hsh. unfold to_tas.
  assert (Hsh' : nd_shape (stored a) = [r; c]) by (destruct a; exact Hsh).
  rewrite Hsh'. fold (abbrev_of a).
  destruct (write_rows_stored native a f c r (Dict.set f [] fs) 0 [] (get_set_same f [] fs))
    as (fs' & Hrun & Hf & Hp).
  exists fs'. split; [exact Hrun|]. split.
  - rewrite Hf. reflexivity.
  - intros p Hne. rewrite Hp by assumption. now apply get_set_other.
Qed.


Lemma header_text_rows (a : attrs_t) (m text : string) :
  Dict.get "metadata_entry" a = Some (VStr m) ->
  header_text float_repr a = Ok text ->
  text = render_rows float_repr a HEADER_ROWS (metadata_lines m).
Proof.
  intros Hm. unfold header_text. rewrite Hm. cbn [bind].
  intro H. apply format_template in H. subst text.
  unfold field_text at 1. rewrite get_set_same. cbn [py_str].
  apply render_rows_ext. intros row Hin.
  apply field_text_set_other. now apply no_metadata_row.
Qed.


Lemma header_text_needs_text (a : attrs_t) (text : string) :
  header_text float_repr a = Ok text ->
  Dict.mem "metadata_entry" a = true ->
  exists m, Dict.get "metadata_entry" a = Some (VStr m).
Proof.
  unfold header_text, Dict.mem.
  destruct (Dict.get "metadata_entry" a) as [[| | | |m]|]; try discriminate.
  intros _ _. now exists m.
Qed.

Lemma nd_ndim_stored (a : ndarray) : nd_ndim (stored a) = nd_ndim a.
Proof. destruct a; reflexivity. Qed.

Lemma check_2d_iff (val : ndarray) (a : attrs_t) :
  check_2d val a = Ok tt <->
  nd_ndim val = 2%nat /\ gt_one (Dict.get "stacks" a) = Ok false.
Proof.
  unfold check_2d. destruct (Nat.eqb_spec (nd_ndim val) 2) as [E|E]; cbn [negb].
  - destruct (gt_one (Dict.get "stacks" a)) as [[|]|e]; cbn [bind]; split;
      try discriminate; try tauto; intros [_ H]; discriminate.
  - split; [discriminate|]. intros [H _]. contradiction.
Qed.

Lemma check_2d_not (val : ndarray) (a : attrs_t) :
  nd_ndim val <> 2%nat \/ gt_one (Dict.get "stacks" a) = Ok true ->
  check_2d val a = Raise Not2D.
Proof.
  unfold check_2d. destruct (Nat.eqb_spec (nd_ndim val) 2) as [E|E]; cbn [negb];
    [|reflexivity].
  intros [H|H]; [contradiction|]. now rewrite H.
Qed.

Lemma shape_2d (a : ndarray) : nd_ndim a = 2%nat -> exists r c, nd_shape a = [r; c].
Proof.
  unfold nd_ndim. destruct (nd_shape a) as [|r [|c [|]]]; try discriminate.
  intros _. now exists r, c.
Qed.


(** What a successful call of [data_array_to_dep] went through, and the
    files it leaves *)
Lemma encode_ok (x : DataArray) (fname tag : option string) (fs fs' : store)
    (files : string * string) :
  data_array_to_dep native float_repr WHITEBOX_TEMP_DIR x fname tag fs = (fs', Ok files) ->
  exists na m r c,
    normalized x = Ok na /\
    nd_shape (values x) = [r; c] /\
    gt_one (Dict.get "stacks" na) = Ok false /\
    Dict.get "metadata_entry" na = Some (VStr m) /\
    files = (target_name WHITEBOX_TEMP_DIR fname tag ++ ".dep",
             target_name WHITEBOX_TEMP_DIR fname tag ++ ".tas") /\
    Dict.get (fst files) fs'
      = Some (list_byte_of_string
                (render_rows float_repr (header_attrs na) HEADER_ROWS (metadata_lines m))) /\
    Dict.get (snd files) fs'
      = Some (List.concat (firstn (r * c) (sample_bytes native (stored (values x))))) /\
    forall p, p <> fst files -> p <> snd files -> Dict.get p fs' = Dict.get p fs.
Proof.
  rewrite data_array_to_dep_steps, <- normalized_kind.
  destruct (normalized x) as [na|e] eqn:Hn; [|discriminate]. cbv zeta.
  fold (header_attrs na).
  destruct (check_2d (stored (values x)) (header_attrs na)) as [[]|e] eqn:Hc; [|discriminate].
  apply check_2d_iff in Hc. destruct Hc as [Hnd Hst].
  rewrite nd_ndim_stored in Hnd. destruct (shape_2d _ Hnd) as (r & c & Hsh).
  unfold header_attrs in Hst. rewrite get_set_other in Hst by discriminate.
  destruct (header_text float_repr (header_attrs na)) as [text|e] eqn:Ht; [|discriminate].
  destruct (header_text_needs_text _ _ Ht) as [m Hm].
  { unfold header_attrs. rewrite mem_set_other by discriminate.
    apply (fields_present (attrs x) na _ "metadata_entry" Hn). simpl. tauto. }
  pose proof (header_text_rows _ _ _ Hm Ht) as ->.
  unfold header_attrs in Hm. rewrite get_set_other in Hm by discriminate.
  set (f := target_name WHITEBOX_TEMP_DIR fname tag).
  destruct (to_tas_runs (values x)
              (Dict.set (f ++ ".dep")
                 (list_byte_of_string
                    (render_rows float_repr (header_attrs na) HEADER_ROWS (metadata_lines m)))
                 (Dict.set (f ++ ".dep") [] fs))
              (f ++ ".tas") r c Hsh) as (fs2 & Hrun & Hbody & Hother).
  rewrite Hrun. intros [= <- <-]. cbn [fst snd].
  exists na, m, r, c. repeat split; try assumption.
  - rewrite Hother by (intro E; symmetry in E; now apply dep_not_tas in E).
    apply get_set_same.
  - intros p Hd Ht'. rewrite Hother by assumption.
    now rewrite !get_set_other by assumption.
Qed.



(** X16.  An array that does not normalize, has not two dimensions or has
    [stacks] greater than 1 is refused before any file is opened: the
    store is as it was. *)
Theorem encoder_refuses_before_writing (x : DataArray) (fname tag : option string)
    (fs : store) :
  (forall e, normalized x = Raise e ->
     data_array_to_dep native float_repr WHITEBOX_TEMP_DIR x fname tag fs = (fs, Raise e)) /\
  (forall na, normalized x = Ok na ->
     nd_ndim (values x) <> 2%nat \/ gt_one (Dict.get "stacks" na) = Ok true ->
     data_array_to_dep native float_repr WHITEBOX_TEMP_DIR x fname tag fs = (fs, Raise Not2D)).
Proof.
  split.
  - intros e Hn. now rewrite data_array_to_dep_steps, <- normalized_kind, Hn.
  - intros na Hn H. rewrite data_array_to_dep_steps, <- normalized_kind, Hn. cbv zeta.
    rewrite check_2d_not; [reflexivity|].
    rewrite nd_ndim_stored, get_set_other by discriminate. exact H.
Qed.

(** X17.  Whatever the outcome, [data_array_to_dep] touches no file but
    the two of the pair. *)
Theorem encoder_touches_only_the_pair (x : DataArray) (fname tag : option string)
    (fs : store) (p : string) :
  p <> target_name WHITEBOX_TEMP_DIR fname tag ++ ".dep" ->
  p <> target_name WHITEBOX_TEMP_DIR fname tag ++ ".tas" ->
  Dict.get p (fst (data_array_to_dep native float_repr WHITEBOX_TEMP_DIR x fname tag fs))
  = Dict.get p fs.
Proof.
  intros Hd Ht.
  destruct (data_array_to_dep native float_repr WHITEBOX_TEMP_DIR x fname tag fs)
    as [fs' [files|e]] eqn:E.
  - apply encode_ok in E.
    destruct E as (na & m & r & c & _ & _ & _ & _ & -> & _ & _ & Hother).
    cbn [fst snd] in *. now apply Hother.
  - rewrite data_array_to_dep_steps in E.
    destruct (case_insensitive_attrs _ _) as [na|e0]; [|now injection E as <- _].
    cbv zeta in E.
    destruct (check_2d _ _) as [[]|e0] eqn:Hc; [|now injection E as <- _].
    destruct (header_text _ _) as [text|e0]; cbn [fst].
    + apply check_2d_iff in Hc. destruct Hc as [Hnd _].
      rewrite nd_ndim_stored in Hnd. destruct (shape_2d _ Hnd) as (r & c & Hsh).
      destruct (to_tas_runs (values x)
                  (Dict.set (target_name WHITEBOX_TEMP_DIR fname tag ++ ".dep")
                     (list_byte_of_string text)
                     (Dict.set (target_name WHITEBOX_TEMP_DIR fname tag ++ ".dep") [] fs))
                  (target_name WHITEBOX_TEMP_DIR fname tag ++ ".tas") r c Hsh)
        as (fs2 & Hrun & _).
      rewrite Hrun in E. discriminate.
    + injection E as <- _. now apply get_set_other.
Qed.

End Encoding.

(** ** What the encoder writes *)

Section Written.

Variable native : endian.
Variable float_repr : spec_float -> string.
Variable np_linspace : spec_float -> spec_float -> nat -> list spec_float.
Variable WHITEBOX_TEMP_DIR : string.

Lemma length_sample_bytes (a : ndarray) :
  List.length (sample_bytes native (stored a)) = nd_size a /\
  Forall (fun p => List.length p = sample_width a) (sample_bytes native (stored a)).
Proof.
  destruct a as [w sh l|w sh l]; cbn [stored astype sample_bytes nd_size sample_width];
    rewrite !List.length_map; (split; [reflexivity|]);
    apply Forall_forall; intros p Hp; apply List.in_map_iff in Hp;
    destruct Hp as [z [<- _]]; apply Bytes.length_word_bytes.
Qed.

Lemma one_line_rows (a : attrs_t) :
  one_line_fields float_repr a = true ->
  Forall (fun row => single_line (row_line float_repr a row) = true) HEADER_ROWS.
Proof.
  intro H. unfold one_line_fields in H. rewrite List.forallb_forall in H.
  apply Forall_forall. intros row Hin. unfold row_line.
  replace (row_key row ++ ":" ++ row_pad row ++ field_text float_repr a (row_field row))
    with ((row_key row ++ ":" ++ row_pad row) ++ field_text float_repr a (row_field row))
    by (now rewrite !StrFacts.append_assoc).
  rewrite StrFacts.single_line_app, (H row Hin), andb_true_r.
  now apply key_single_line.
Qed.

Lemma header_lines (a : attrs_t) (m : string) :
  one_line_fields float_repr a = true ->
  PyStr.splitlines (render_rows float_repr a HEADER_ROWS (metadata_lines m))
  = (List.map (row_line float_repr a) HEADER_ROWS ++
     match PyStr.splitlines m with
     | [] => []
     | ls => EmptyString :: List.map metadata_line ls
     end)%list.
Proof.
  intro H. rewrite (splitlines_rows float_repr) by now apply one_line_rows.
  now rewrite splitlines_metadata.
Qed.

(** X18.  The body written for an array that has as many samples as its
    shape says takes 2 bytes for each sample of an integer array and 4 for
    each sample of a floating one; the header has the 20 lines of the
    template, followed, when there is metadata, by an empty line and one
    line for each line of the metadata, provided no value spans several
    lines. *)
Theorem written_sizes (x : DataArray) (fname tag : option string) (fs fs' : store)
    (files : string * string) (na : attrs_t) (m : string) :
  data_array_to_dep native float_repr WHITEBOX_TEMP_DIR x fname tag fs = (fs', Ok files) ->
  normalized x = Ok na ->
  Dict.get "metadata_entry" na = Some (VStr m) ->
  (well_shaped (values x) = true ->
   body_length fs' (snd files) = Some (nd_size (values x) * sample_width (values x))%nat) /\
  (one_line_fields float_repr (header_attrs na) = true ->
   header_line_count fs' (fst files) = Some (20 + metadata_line_count m)%nat).
Proof.
  intros Henc Hn Hm. apply encode_ok in Henc.
  destruct Henc as (na' & m' & r & c & Hn' & Hsh & _ & Hm' & _ & Hdep & Htas & _).
  rewrite Hn in Hn'. injection Hn' as <-. rewrite Hm in Hm'. injection Hm' as <-.
  split.
  - intro Hws. unfold body_length. rewrite Htas. cbn [option_map]. f_equal.
    destruct (length_sample_bytes (values x)) as [Hlen Hall].
    unfold well_shaped in Hws. rewrite Hsh in Hws. cbn [fold_right] in Hws.
    apply Nat.eqb_eq in Hws.
    rewrite List.firstn_all2 by (rewrite Hlen; lia).
    rewrite (length_concat_pieces (sample_width (values x))) by assumption.
    rewrite Hlen. lia.
  - intro Hone. unfold header_line_count. rewrite Hdep. cbn [option_map]. f_equal.
    rewrite string_of_list_byte_of_string, header_lines by assumption.
    rewrite List.length_app, List.length_map. unfold metadata_line_count.
    destruct (PyStr.splitlines m) as [|l ls]; [reflexivity|].
    cbn [List.length]. now rewrite List.length_map.
Qed.

Lemma round_trippable_readable (na : attrs_t) (vals : ndarray) :
  round_trippable float_repr na vals = true ->
  header_readable float_repr (header_attrs na) = true.
Proof.
  unfold round_trippable. cbv zeta. intro H.
  apply andb_true_iff in H. destruct H as [H _].
  apply andb_true_iff in H. now destruct H as [H _].
Qed.

(** X19.  Round trip of the optional fields.  Under the conditions of the
    round trip of the required ones, the record read back has [Stacks] as
    the [int] of its text and [Display Min] and [Display Max] as the
    [float] of theirs; [Projection], [Preferred Palette],
    [Palette Nonlinearity] and [Nodata] are text, stripped and in upper
    case, whatever their type was; and [Byte Order] is [LITTLE_ENDIAN]
    whatever the attributes said. *)
Theorem optional_fields_round_trip (x : DataArray) (fname tag : option string)
    (fs fs' : store) (files : string * string) (na : attrs_t) :
  data_array_to_dep native float_repr WHITEBOX_TEMP_DIR x fname tag fs = (fs', Ok files) ->
  normalized x = Ok na ->
  round_trippable float_repr na (values x) = true ->
  exists da,
    from_dep native np_linspace fs' (fst files) None = Ok da /\
    Dict.get "Stacks" (attrs da)
      = option_map VInt (Parse.py_int (field_text float_repr na "stacks")) /\
    (forall k K, In (k, K) OPTIONAL_FLOATS ->
       Dict.get K (attrs da) = option_map VFloat (Parse.py_float (field_text float_repr na k))) /\
    (forall k K, In (k, K) OPTIONAL_TEXTS ->
       Dict.get K (attrs da)
       = Some (VStr (PyStr.upper (PyStr.strip (field_text float_repr na k))))) /\
    Dict.get "Byte Order" (attrs da) = Some (VStr "LITTLE_ENDIAN").
Proof.
  intros Henc Hnorm Hrt.
  destruct (round_trip_rows native float_repr np_linspace WHITEBOX_TEMP_DIR
              x fname tag fs fs' files na Henc Hnorm Hrt) as (da & Hdec & _ & Hrows).
  assert (Hget : forall K pad k,
             In (K, pad, k) HEADER_ROWS ->
             Dict.get K (attrs da) = read_back float_repr (header_attrs na) K k).
  { intros K pad k Hin. exact (Hrows _ Hin). }
  assert (Hft : forall k, k <> "byte_order" ->
             field_text float_repr (header_attrs na) k = field_text float_repr na k).
  { intros k Hk. unfold header_attrs. now apply field_text_set_other. }
  exists da. split; [exact Hdec|]. split; [|split; [|split]].
  - rewrite (Hget "Stacks" " " "stacks") by (apply in_header_rows; reflexivity).
    unfold read_back, coerce.
    change (str_in "Stacks" INT_DEP_FIELDS) with true. cbv iota.
    rewrite py_int_strip, Hft by discriminate.
    now destruct (Parse.py_int _).
  - intros k K Hin.
    assert (Hrow : exists pad, In (K, pad, k) HEADER_ROWS /\ k <> "byte_order"
                               /\ str_in K INT_DEP_FIELDS = false
                               /\ str_in K FLOAT_DEP_FIELDS = true).
    { simpl in Hin.
      repeat (destruct Hin as [[= <- <-]|Hin];
              [eexists; split; [find_row|];
               repeat split; (reflexivity || discriminate)|]).
      contradiction. }
    destruct Hrow as (pad & Hrow & Hk & Hi & Hf).
    rewrite (Hget _ _ _ Hrow).
    unfold read_back, coerce.
    rewrite Hi, Hf, py_float_strip, Hft by assumption.
    now destruct (Parse.py_float _).
  - intros k K Hin.
    assert (Hrow : exists pad, In (K, pad, k) HEADER_ROWS /\ k <> "byte_order"
                               /\ str_in K INT_DEP_FIELDS = false
                               /\ str_in K FLOAT_DEP_FIELDS = false
                               /\ str_in K UPPER_STR_FIELDS = false).
    { simpl in Hin.
      repeat (destruct Hin as [[= <- <-]|Hin];
              [eexists; split; [find_row|];
               repeat split; (reflexivity || discriminate)|]).
      contradiction. }
    destruct Hrow as (pad & Hrow & Hk & Hi & Hf & Hu).
    rewrite (Hget _ _ _ Hrow).
    unfold read_back, coerce.
    rewrite Hi, Hf, Hu, Hft by assumption. reflexivity.
  - rewrite (Hget "Byte Order" " " "byte_order") by (apply in_header_rows; reflexivity).
    unfold read_back, field_text, header_attrs. rewrite get_set_same. reflexivity.
Qed.

Lemma metadata_values_app (l1 l2 : list string) :
  metadata_values (l1 ++ l2) = (metadata_values l1 ++ metadata_values l2)%list.
Proof. unfold metadata_values. now rewrite List.filter_app, List.map_app. Qed.

Lemma metadata_values_rows (a : attrs_t) (rows : list (string * string * string)) :
  List.forallb row_ok rows = true ->
  metadata_values (List.map (row_line float_repr a) rows) = [].
Proof.
  induction rows as [|row rows IH]; [reflexivity|].
  cbn [List.forallb]. intro H. apply andb_true_iff in H. destruct H as [Hrow Hrows].
  unfold metadata_values in *. cbn [List.map List.filter].
  unfold row_ok in Hrow. apply andb_true_iff in Hrow. destruct Hrow as [Hrow Hme].
  apply andb_true_iff in Hrow. destruct Hrow as [Hkey Hpad].
  unfold row_line at 1.
  rewrite (proj1 (line_of_key _ _ (field_text float_repr a (row_field row)) Hkey Hpad)).
  apply negb_true_iff in Hme. rewrite Hme. now apply IH.
Qed.

Lemma metadata_values_written (ls : list string) :
  metadata_values (List.map metadata_line ls)
  = List.map (fun l => PyStr.upper (PyStr.strip l)) ls.
Proof.
  induction ls as [|l ls IH]; [reflexivity|].
  unfold metadata_values in *. cbn [List.map List.filter].
  assert (H : line_key (metadata_line l) = "Metadata Entry" /\
              line_value (metadata_line l) = PyStr.strip l)
    by (apply (line_of_key "Metadata Entry" " " l); reflexivity).
  destruct H as [-> Hv]. cbn [String.eqb Ascii.eqb Bool.eqb List.map].
  now rewrite Hv, IH.
Qed.

(** X20.  Round trip of the metadata.  Under the same conditions the
    [Metadata Entry] read back is made of the lines of the metadata that
    was written, each stripped and in upper case, joined by line feeds;
    there is none when the metadata was empty. *)
Theorem metadata_round_trip (x : DataArray) (fname tag : option string)
    (fs fs' : store) (files : string * string) (na : attrs_t) (m : string) :
  data_array_to_dep native float_repr WHITEBOX_TEMP_DIR x fname tag fs = (fs', Ok files) ->
  normalized x = Ok na ->
  round_trippable float_repr na (values x) = true ->
  Dict.get "metadata_entry" na = Some (VStr m) ->
  exists da,
    from_dep native np_linspace fs' (fst files) None = Ok da /\
    Dict.get "Metadata Entry" (attrs da)
    = joined (List.map (fun l => PyStr.upper (PyStr.strip l)) (PyStr.splitlines m)).
Proof.
  intros Henc Hnorm Hrt Hm.
  destruct (round_trip_rows native float_repr np_linspace WHITEBOX_TEMP_DIR
              x fname tag fs fs' files na Henc Hnorm Hrt) as (da & Hdec & _ & _).
  exists da. split; [exact Hdec|].
  apply encode_ok in Henc.
  destruct Henc as (na' & m' & r & c & Hn' & _ & _ & Hm' & _ & Hdep & _ & _).
  rewrite Hnorm in Hn'. injection Hn' as <-. rewrite Hm in Hm'. injection Hm' as <-.
  apply from_dep_ok in Hdec.
  destruct Hdec as (t & s & read & rows & cols & south & north & east & west &
                    _ & _ & _ & _ & _ & Hparse & _).
  unfold _from_dep, read_text in Hparse. rewrite Hdep in Hparse. cbn [bind] in Hparse.
  rewrite string_of_list_byte_of_string in Hparse.
  rewrite (parse_lines_metadata _ _ _ [] Hparse eq_refl).
  f_equal.
  assert (Hone : one_line_fields float_repr (header_attrs na) = true).
  { apply round_trippable_readable in Hrt. unfold header_readable in Hrt.
    unfold one_line_fields. rewrite List.forallb_forall in *.
    intros row Hin. specialize (Hrt row Hin). now apply andb_true_iff in Hrt. }
  rewrite header_lines by assumption.
  rewrite metadata_values_app, metadata_values_rows by apply header_rows_ok.
  cbn [app]. destruct (PyStr.splitlines m) as [|l ls] eqn:El; [reflexivity|].
  change (metadata_values (EmptyString :: List.map metadata_line (l :: ls)))
    with (metadata_values (List.map metadata_line (l :: ls))).
  apply metadata_values_written.
Qed.

End Written.

(** ** Masking, once more *)

Lemma mask_nodata_clean (v : pyval) (w : float_width) (sh : list nat) (l : list spec_float) :
  holds_nodata v (mask_nodata v (FloatArray w sh l)) = false.
Proof.
  unfold holds_nodata. cbn [mask_nodata widened].
  induction l as [|x l IH]; [reflexivity|].
  cbn [List.map List.existsb]. rewrite IH, orb_false_r.
  destruct (sample_eq w v x) eqn:E; [apply sample_eq_nan|exact E].
Qed.

(** X21.  After [_assign_nodata] no sample of the array equals the
    sentinel; the shape, the number of samples, the coordinates, the
    dimensions and the attributes are as before. *)
Theorem masked_array_is_clean (arr : DataArray) (v : pyval) :
  holds_nodata v (values (_assign_nodata arr v)) = false /\
  nd_shape (values (_assign_nodata arr v)) = nd_shape (values arr) /\
  nd_size (values (_assign_nodata arr v)) = nd_size (values arr) /\
  coords (_assign_nodata arr v) = coords arr /\
  dims (_assign_nodata arr v) = dims arr /\
  attrs (_assign_nodata arr v) = attrs arr.
Proof.
  rewrite assign_nodata_as_set. cbn [set_values values coords dims attrs].
  destruct (values arr) as [w sh l|w sh l]; cbn [widened astype].
  - split; [apply mask_nodata_clean|].
    cbn [mask_nodata nd_shape nd_size]. rewrite !List.length_map. tauto.
  - split; [apply mask_nodata_clean|].
    cbn [mask_nodata nd_shape nd_size]. rewrite !List.length_map. tauto.
Qed.

(** ** Lists of paths *)

Lemma prefix_sep_app (c : ascii) (a rest : string) :
  PyStr.contains ", " (String c a) = false ->
  prefix ", " (String c (a ++ String "," rest)) = false.
Proof.
  cbn [PyStr.contains]. intro H. apply orb_false_iff in H. destruct H as [Hp _].
  cbn [prefix] in *. destruct (ascii_dec "," c) as [<-|Hne]; [|reflexivity].
  destruct a as [|c' a']; cbn [append prefix].
  - destruct (ascii_dec " " ","); [discriminate|reflexivity].
  - cbn [prefix] in Hp. destruct (ascii_dec " " c'); [|reflexivity].
    rewrite StrFacts.prefix_nil in Hp. discriminate.
Qed.

Lemma split_from_sep (a rest : string) :
  PyStr.contains ", " a = false ->
  PyStr.split_from ", " 0 (a ++ String "," (String " " rest))
  = (a, fst (PyStr.split_from ", " 0 rest) :: snd (PyStr.split_from ", " 0 rest)).
Proof.
  induction a as [|c a IH]; intro H.
  - cbn [append PyStr.split_from prefix String.length Nat.pred].
    destruct (ascii_dec "," ","); [|contradiction].
    destruct (ascii_dec " " " "); [|contradiction].
    rewrite StrFacts.prefix_nil. now destruct (PyStr.split_from ", " 0 rest).
  - cbn [append]. cbn [PyStr.split_from]. rewrite (prefix_sep_app c a _ H).
    cbn [PyStr.contains] in H. apply orb_false_iff in H. destruct H as [_ H].
    now rewrite (IH H).
Qed.

Lemma split_sep_plain (a : string) :
  PyStr.contains ", " a = false -> PyStr.split ", " a = [a].
Proof.
  unfold PyStr.split. induction a as [|c a IH]; intro H; [reflexivity|].
  cbn [PyStr.split_from].
  assert (Hp : prefix ", " (String c a) = false).
  { cbn [PyStr.contains] in H. now apply orb_false_iff in H. }
  rewrite Hp.
  cbn [PyStr.contains] in H. apply orb_false_iff in H. destruct H as [_ H].
  specialize (IH H). destruct (PyStr.split_from ", " 0 a) as [w ws].
  now injection IH as -> ->.
Qed.

Lemma split_join_plain (p : string) (ps : list string) :
  plain_paths (p :: ps) = true ->
  PyStr.split ", " (PyStr.join ", " (p :: ps)) = p :: ps.
Proof.
  revert p. induction ps as [|q ps IH]; intros p H.
  - cbn [plain_paths List.forallb] in H. apply andb_true_iff in H. destruct H as [H _].
    apply negb_true_iff in H. now apply split_sep_plain.
  - cbn [plain_paths List.forallb] in H. apply andb_true_iff in H. destruct H as [Hp Hrest].
    apply negb_true_iff in Hp. specialize (IH q Hrest).
    unfold PyStr.join in *.
    change (String.concat ", " (p :: q :: ps))
      with (p ++ String "," (String " " (String.concat ", " (q :: ps)))).
    unfold PyStr.split in *. rewrite (split_from_sep p _ Hp).
    destruct (PyStr.split_from ", " 0 (String.concat ", " (q :: ps))) as [w ws].
    cbn [fst snd]. now rewrite IH.
Qed.

Section Paths.

Variable abspath : string -> string.

(** X22.  [fix_path] makes every path of a list that is joined by a comma
    and a blank absolute, and joins the results the same way; a single
    path is made absolute. *)
Theorem fix_path_maps_the_list (p : string) (ps : list string) :
  plain_paths (p :: ps) = true ->
  fix_path abspath (PyStr.join ", " (p :: ps))
  = PyStr.join ", " (List.map abspath (p :: ps)).
Proof.
  intro H. unfold fix_path. rewrite (split_join_plain p ps H).
  cbn [List.map]. destruct ps as [|q ps]; reflexivity.
Qed.

End Paths.

Lemma fix_path_maps_the_list_witness :
  fix_path Reference.abspath "a.dep, /data/b.dep" = "/home/user/a.dep, /data/b.dep".
Proof.
  apply (fix_path_maps_the_list Reference.abspath "a.dep" ["/data/b.dep"]).
  vm_compute. reflexivity.
Defined.

(** ** Staging without arrays *)

Section StagingFacts.

Variable native : endian.
Variable float_repr : spec_float -> string.
Variable np_linspace : spec_float -> spec_float -> nat -> list spec_float.
Variable abspath : string -> string.
Variable WHITEBOX_TEMP_DIR : string.
Variable dataset_attribute : string -> option string.
Variable xr_Dataset : Dict.t string DataArray -> result (Dict.t string DataArray).

Lemma eta_loop_state (st : loop_state) :
  {| ls_kwargs := ls_kwargs st; ls_fnames := ls_fnames st; ls_load := ls_load st;
     dumped_an_xarray := dumped_an_xarray st |} = st.
Proof. now destruct st. Qed.

Lemma stage_plain_argument (k : string) (v : kwval) (st : loop_state) (fs : store) :
  plain_argument (k, v) = true ->
  stage_argument native float_repr abspath WHITEBOX_TEMP_DIR dataset_attribute k v st fs
  = (fs, Ok (plain_step abspath st (k, v))).
Proof.
  unfold plain_argument, stage_argument, plain_step, restaged, registered. cbn [fst snd].
  destruct (str_in k INPUT_ARGS).
  - destruct v; cbn [holds_array negb andb is_path]; try discriminate; intros _;
      unfold ret; now rewrite ?eta_loop_state.
  - destruct (str_in k OUTPUT_ARGS).
    + destruct v; try discriminate. intros _. reflexivity.
    + intros _. cbn [andb]. unfold ret. now rewrite eta_loop_state.
Qed.

Lemma stage_plain_arguments (items : list (string * kwval)) :
  List.forallb plain_argument items = true ->
  forall st fs,
    stage_arguments native float_repr abspath WHITEBOX_TEMP_DIR dataset_attribute items st fs
    = (fs, Ok (fold_left (plain_step abspath) items st)).
Proof.
  induction items as [|[k v] items IH]; intros H st fs; [reflexivity|].
  cbn [List.forallb] in H. apply andb_true_iff in H. destruct H as [Hkv Hrest].
  cbn [stage_arguments fold_left]. unfold io_bind.
  rewrite (stage_plain_argument k v st fs Hkv). now apply IH.
Qed.

Lemma plain_steps_keep (items : list (string * kwval)) (st : loop_state) :
  ls_fnames (fold_left (plain_step abspath) items st) = ls_fnames st /\
  dumped_an_xarray (fold_left (plain_step abspath) items st) = dumped_an_xarray st.
Proof.
  revert st. induction items as [|kv items IH]; intro st; [now split|].
  cbn [fold_left]. destruct (IH (plain_step abspath st kv)) as [-> ->]. now split.
Qed.

Lemma get_step_kwargs (st : loop_state) (k0 k : string) (v0 : kwval) :
  Dict.get k (ls_kwargs (plain_step abspath st (k0, v0)))
  = if String.eqb k0 k && (str_in k0 INPUT_ARGS && is_path v0)
    then Some (restaged abspath k0 v0) else Dict.get k (ls_kwargs st).
Proof.
  unfold plain_step. cbn [ls_kwargs fst snd].
  destruct (str_in k0 INPUT_ARGS && is_path v0); [|now rewrite andb_false_r].
  rewrite andb_true_r. destruct (String.eqb_spec k0 k) as [->|Hne].
  - apply get_set_same.
  - apply get_set_other. intro E. now apply Hne.
Qed.

Lemma get_step_load (st : loop_state) (k0 k : string) (v0 : kwval) :
  Dict.get k (ls_load (plain_step abspath st (k0, v0)))
  = match registered abspath k0 v0 with
    | Some p => if String.eqb k0 k then Some p else Dict.get k (ls_load st)
    | None => Dict.get k (ls_load st)
    end.
Proof.
  unfold plain_step. cbn [ls_load fst snd].
  destruct (registered abspath k0 v0); [|reflexivity].
  destruct (String.eqb_spec k0 k) as [->|Hne].
  - apply get_set_same.
  - apply get_set_other. intro E. now apply Hne.
Qed.

Lemma get_absent (k : string) (items : list (string * kwval)) :
  ~ In k (List.map fst items) -> Dict.get k items = None.
Proof.
  intro H. destruct (Dict.get k items) as [w|] eqn:E; [|reflexivity].
  exfalso. apply H. apply get_in in E.
  change k with (fst (k, w)). now apply List.in_map.
Qed.

Lemma get_kwargs_plain (items : list (string * kwval)) (k : string) :
  NoDup (Dict.keys items) ->
  forall st,
    Dict.get k (ls_kwargs (fold_left (plain_step abspath) items st))
    = match Dict.get k items with
      | Some v =>
          if str_in k INPUT_ARGS && is_path v
          then Some (restaged abspath k v) else Dict.get k (ls_kwargs st)
      | None => Dict.get k (ls_kwargs st)
      end.
Proof.
  induction items as [|[k0 v0] items IH]; intros Hnd st; [reflexivity|].
  cbn [Dict.keys List.map fst] in Hnd. inversion Hnd as [|? ? Hnotin Hnd']; subst.
  cbn [fold_left]. rewrite (IH Hnd').
  cbn [Dict.get keqb EqKey_string]. rewrite get_step_kwargs.
  destruct (String.eqb_spec k0 k) as [->|Hne].
  - rewrite (get_absent k items Hnotin). cbn [andb]. reflexivity.
  - cbn [andb]. reflexivity.
Qed.

Lemma get_load_plain (items : list (string * kwval)) (k : string) :
  NoDup (Dict.keys items) ->
  forall st,
    Dict.get k (ls_load (fold_left (plain_step abspath) items st))
    = match Dict.get k items with
      | Some v =>
          match registered abspath k v with
          | Some p => Some p
          | None => Dict.get k (ls_load st)
          end
      | None => Dict.get k (ls_load st)
      end.
Proof.
  induction items as [|[k0 v0] items IH]; intros Hnd st; [reflexivity|].
  cbn [Dict.keys List.map fst] in Hnd. inversion Hnd as [|? ? Hnotin Hnd']; subst.
  cbn [fold_left]. rewrite (IH Hnd').
  cbn [Dict.get keqb EqKey_string]. rewrite get_step_load.
  destruct (String.eqb_spec k0 k) as [->|Hne].
  - rewrite (get_absent k items Hnotin). now destruct (registered abspath k v0).
  - now destruct (registered abspath k0 v0).
Qed.

Lemma keys_remove (k : string) (d : kwargs_t) :
  NoDup (Dict.keys d) ->
  NoDup (Dict.keys (Dict.remove k d)) /\
  Dict.get k (Dict.remove k d) = None /\
  forall x, In x (Dict.keys (Dict.remove k d)) -> In x (Dict.keys d).
Proof.
  induction d as [|[k0 v0] d IH]; intro Hnd.
  - repeat split; [constructor|intros x []].
  - cbn [Dict.keys List.map fst] in Hnd. inversion Hnd as [|? ? Hnotin Hnd']; subst.
    cbn [Dict.remove keqb EqKey_string].
    destruct (String.eqb_spec k0 k) as [->|Hne].
    + repeat split; [assumption| |intros x Hx; now right].
      now apply get_absent.
    + destruct (IH Hnd') as (H1 & H2 & H3).
      cbn [Dict.keys List.map fst Dict.get keqb EqKey_string].
      destruct (String.eqb_spec k0 k); [contradiction|].
      repeat split.
      * constructor; [|assumption]. intro Hin. apply Hnotin. now apply H3.
      * assumption.
      * intros x [<-|Hx]; [now left|right; now apply H3].
Qed.

Lemma load_nil_of_get (l : Dict.t string string) :
  (forall k, Dict.get k l = None) -> l = [].
Proof.
  destruct l as [|[k v] l]; [reflexivity|]. intro H. specialize (H k).
  cbn [Dict.get keqb EqKey_string] in H. rewrite String.eqb_refl in H. discriminate.
Qed.

Lemma in_remove (k : string) (kv : string * kwval) (d : kwargs_t) :
  In kv (Dict.remove k d) -> In kv d.
Proof.
  induction d as [|[k0 v0] d IH]; [intros []|].
  cbn [Dict.remove keqb EqKey_string].
  destruct (String.eqb k0 k); [now right|].
  intros [E|Hin]; [now left|right; now apply IH].
Qed.

Lemma staged_plain (kw : kwargs_t) (fs : store) :
  List.forallb plain_argument kw = true ->
  NoDup (Dict.keys kw) ->
  exists st,
    xarray_whitebox_io native float_repr abspath WHITEBOX_TEMP_DIR dataset_attribute kw fs = (fs, Ok st) /\
    fnames st = [] /\
    (forall k, Dict.get k (kwargs st)
               = option_map (restaged abspath k) (Dict.get k (Dict.remove "delete_tempdir" kw))) /\
    (forall k, Dict.get k (load_afterwards st)
               = match Dict.get k (Dict.remove "delete_tempdir" kw) with
                 | Some v => registered abspath k v
                 | None => None
                 end).
Proof.
  intros Hplain Hnd.
  set (kw' := Dict.remove "delete_tempdir" kw).
  destruct (keys_remove "delete_tempdir" kw Hnd) as (Hnd' & _ & _).
  fold kw' in Hnd'.
  assert (Hplain' : List.forallb plain_argument kw' = true).
  { apply List.forallb_forall. intros kv Hin.
    rewrite List.forallb_forall in Hplain. apply Hplain.
    now apply (in_remove "delete_tempdir"). }
  set (st0 := {| ls_kwargs := kw'; ls_fnames := []; ls_load := [];
                 dumped_an_xarray := None |}).
  set (st1 := fold_left (plain_step abspath) kw' st0).
  destruct (plain_steps_keep kw' st0) as [Hfn Hdump]. fold st1 in Hfn, Hdump.
  exists {| load_afterwards := ls_load st1; kwargs := ls_kwargs st1; fnames := ls_fnames st1 |}.
  split.
  - unfold xarray_whitebox_io. fold kw'. unfold io_bind. fold st0.
    rewrite (stage_plain_arguments kw' Hplain' st0 fs). fold st1.
    rewrite Hdump. cbn [dumped_an_xarray st0]. now destruct (ls_load st1).
  - cbn [fnames kwargs load_afterwards]. split; [|split].
    + now rewrite Hfn.
    + intros k. unfold st1. rewrite (get_kwargs_plain kw' _ Hnd' st0).
      cbn [ls_kwargs st0].
      destruct (Dict.get k kw') as [v|]; [|reflexivity]. cbn [option_map].
      unfold restaged. destruct (str_in k INPUT_ARGS); [|reflexivity].
      now destruct v.
    + intros k. unfold st1. rewrite (get_load_plain kw' _ Hnd' st0).
      cbn [ls_load st0 Dict.get].
      destruct (Dict.get k kw') as [v|]; [|reflexivity].
      now destruct (registered abspath k v).
Qed.

(** X23.  A call whose arguments hold no array (inputs are paths or other
    values, outputs are paths) is staged without touching a file: nothing
    is recorded for removal, every input path is replaced by its absolute
    form, every output path is registered in its absolute form, the other
    arguments reach the tool as they are, and [delete_tempdir] is not
    passed on. *)
Theorem staging_without_arrays (kw : kwargs_t) (fs : store) :
  List.forallb plain_argument kw = true ->
  NoDup (Dict.keys kw) ->
  exists st,
    xarray_whitebox_io native float_repr abspath WHITEBOX_TEMP_DIR dataset_attribute kw fs = (fs, Ok st) /\
    fnames st = [] /\
    Dict.get "delete_tempdir" (kwargs st) = None /\
    (forall k, k <> "delete_tempdir" ->
       Dict.get k (kwargs st) = option_map (restaged abspath k) (Dict.get k kw)) /\
    (forall k, k <> "delete_tempdir" ->
       Dict.get k (load_afterwards st)
       = match Dict.get k kw with Some v => registered abspath k v | None => None end).
Proof.
  intros Hplain Hnd.
  destruct (staged_plain kw fs Hplain Hnd) as (st & Hrun & Hfn & Hkw & Hload).
  destruct (keys_remove "delete_tempdir" kw Hnd) as (_ & Hgone & _).
  exists st. repeat split; try assumption.
  - now rewrite Hkw, Hgone.
  - intros k Hk. now rewrite Hkw, get_remove_other.
  - intros k Hk. now rewrite Hload, get_remove_other.
Qed.

(** X24.  When no argument holds an array and none is an output, the
    function the wrapper returns hands the return value of the tool back
    and leaves the files alone. *)
Theorem nothing_to_load (kw : kwargs_t) (fs : store) :
  List.forallb plain_argument kw = true ->
  NoDup (Dict.keys kw) ->
  (forall k v, In (k, v) kw -> str_in k OUTPUT_ARGS = false) ->
  exists st,
    xarray_whitebox_io native float_repr abspath WHITEBOX_TEMP_DIR dataset_attribute kw fs = (fs, Ok st) /\
    forall ret_val fs2,
      delayed_load_later native np_linspace xr_Dataset st ret_val fs2 = (fs2, Ok (Returned ret_val)).
Proof.
  intros Hplain Hnd Hout.
  destruct (staged_plain kw fs Hplain Hnd) as (st & Hrun & _ & _ & Hload).
  exists st. split; [exact Hrun|]. intros ret_val fs2.
  assert (Hnil : load_afterwards st = []).
  { apply load_nil_of_get. intro k. rewrite Hload.
    destruct (Dict.get k (Dict.remove "delete_tempdir" kw)) as [v|] eqn:E; [|reflexivity].
    apply get_in, in_remove in E.
    unfold registered. rewrite (Hout k v E).
    now destruct (str_in k INPUT_ARGS). }
  unfold delayed_load_later. now rewrite Hnil.
Qed.

(** X25.  One array passed under an input name is written to the header
    and body named after the argument in the temporary directory, and the
    tool is given the path of the header; with no output argument, the
    output is the header path with [-output.dep] for [.dep], passed as
    [output] and registered under the name of the argument. *)
Theorem staging_one_array (k : string) (a : DataArray) (fs fs' : store)
    (files : string * string) :
  str_in k INPUT_ARGS = true ->
  data_array_to_dep native float_repr WHITEBOX_TEMP_DIR a None (Some k) fs = (fs', Ok files) ->
  exists st,
    xarray_whitebox_io native float_repr abspath WHITEBOX_TEMP_DIR dataset_attribute [(k, KDataArray a)] fs
      = (fs', Ok st) /\
    Dict.get k (kwargs st) = Some (KStr (fst files)) /\
    Dict.get "output" (kwargs st)
      = Some (KStr (PyStr.replace ".dep" "-output.dep" (fst files))) /\
    load_afterwards st = [(k, PyStr.replace ".dep" "-output.dep" (fst files))].
Proof.
  intros Hk Henc.
  assert (Hne : String.eqb k "delete_tempdir" = false).
  { destruct (String.eqb_spec k "delete_tempdir") as [->|]; [|reflexivity].
    vm_compute in Hk. discriminate. }
  assert (Hno : String.eqb k "output" = false).
  { destruct (String.eqb_spec k "output") as [->|]; [|reflexivity].
    vm_compute in Hk. discriminate. }
  eexists. split.
  - unfold xarray_whitebox_io.
    cbn [Dict.remove Dict.get keqb EqKey_string]. rewrite Hne.
    unfold io_bind. cbn [stage_arguments]. unfold io_bind, stage_argument.
    rewrite Hk. unfold io_bind. rewrite Henc. unfold ret.
    cbn [ls_load dumped_an_xarray ls_kwargs Dict.set Dict.get keqb EqKey_string].
    rewrite String.eqb_refl. cbn [Dict.get keqb EqKey_string].
    rewrite String.eqb_refl. cbn [Dict.keys List.map fst last ls_fnames ls_load].
    reflexivity.
  - cbn [kwargs load_afterwards Dict.set Dict.get keqb EqKey_string].
    rewrite Hno. cbn [Dict.get keqb EqKey_string]. rewrite String.eqb_refl, Hno.
    cbn [Dict.get keqb EqKey_string String.eqb Ascii.eqb Bool.eqb]. repeat split.
Qed.

End StagingFacts.

(** ** Staging a collection *)

Section CollectionFacts.

Variable native : endian.
Variable float_repr : spec_float -> string.
Variable abspath : string -> string.
Variable WHITEBOX_TEMP_DIR : string.
Variable dataset_attribute : string -> option string.


Lemma get_recorded_absent (k name : string) (names : list string) :
  ~ In name names ->
  Dict.get (k, name) (recorded WHITEBOX_TEMP_DIR k names) = None.
Proof.
  induction names as [|n names IH]; intro H; [reflexivity|].
  cbn [recorded List.map Dict.get keqb EqKey_pair fst snd].
  rewrite String.eqb_refl. cbn [andb].
  destruct (String.eqb_spec n name) as [->|Hne].
  - exfalso. apply H. now left.
  - apply IH. intro Hin. apply H. now right.
Qed.







Lemma remove_app (k : string) (pre post : kwargs_t) :
  Dict.remove k (pre ++ post)%list
  = if Dict.mem k pre then (Dict.remove k pre ++ post)%list
    else (pre ++ Dict.remove k post)%list.
Proof.
  unfold Dict.mem. induction pre as [|[k0 v0] pre IH]; [reflexivity|].
  cbn [app Dict.remove Dict.get keqb EqKey_string].
  destruct (String.eqb k0 k); [reflexivity|]. rewrite IH.
  now destruct (Dict.get k pre).
Qed.

Lemma stage_arguments_app (pre rest : list (string * kwval)) :
  List.forallb plain_argument pre = true ->
  forall st fs,
    stage_arguments native float_repr abspath WHITEBOX_TEMP_DIR dataset_attribute (pre ++ rest)%list st fs
    = stage_arguments native float_repr abspath WHITEBOX_TEMP_DIR dataset_attribute rest
        (fold_left (plain_step abspath) pre st) fs.
Proof.
  induction pre as [|[k v] pre IH]; intros H st fs; [reflexivity|].
  cbn [List.forallb] in H. apply andb_true_iff in H. destruct H as [Hkv Hrest].
  cbn [app stage_arguments fold_left]. unfold io_bind.
  rewrite (stage_plain_argument native float_repr abspath WHITEBOX_TEMP_DIR dataset_attribute
             k v st fs Hkv).
  now apply IH.
Qed.

Lemma forallb_remove (k : string) (d : kwargs_t) :
  List.forallb plain_argument d = true ->
  List.forallb plain_argument (Dict.remove k d) = true.
Proof.
  intro H. apply List.forallb_forall. intros kv Hin.
  rewrite List.forallb_forall in H. apply H. now apply (in_remove k).
Qed.

(** X28.  A collection passed as [input] is refused: when the arguments
    before it hold no array, the wrapper raises the error of a collection
    used as input and no file is touched. *)
Theorem collection_as_input_refused (pre post : kwargs_t) (d : Dataset) (fs : store) :
  List.forallb plain_argument pre = true ->
  xarray_whitebox_io native float_repr abspath WHITEBOX_TEMP_DIR dataset_attribute
    (pre ++ ("input", KDataset d) :: post)%list fs
  = (fs, Raise DatasetAsInput).
Proof.
  intro Hpre. unfold xarray_whitebox_io. unfold io_bind.
  rewrite remove_app.
  destruct (Dict.mem "delete_tempdir" pre).
  - rewrite stage_arguments_app by now apply forallb_remove.
    cbn [stage_arguments]. unfold io_bind. reflexivity.
  - cbn [Dict.remove keqb EqKey_string String.eqb Ascii.eqb Bool.eqb].
    rewrite stage_arguments_app by assumption.
    cbn [stage_arguments]. unfold io_bind. reflexivity.
Qed.

End CollectionFacts.



Lemma collection_as_input_refused_witness :
  Examples.stage
    [("verbose", KOther (VBool true));
     ("input", KDataset {| data_vars := [("a", Noted.array)]; ds_attrs := [] |})]
    [("/data/keep.dep", [x01])]
  = ([("/data/keep.dep", [x01])], Raise DatasetAsInput).
Proof.
  apply (collection_as_input_refused LittleEndian Reference.float_repr Reference.abspath
           Reference.WHITEBOX_TEMP_DIR Reference.dataset_attribute [("verbose", KOther (VBool true))] []).
  vm_compute. reflexivity.
Defined.

(** ** Removing the staged files *)

Lemma keys_remove_store (p : string) (fs : store) :
  NoDup (Dict.keys fs) ->
  NoDup (Dict.keys (Dict.remove p fs)) /\
  Dict.get p (Dict.remove p fs) = None.
Proof.
  induction fs as [|[k0 v0] fs IH]; intro Hnd.
  - split; [constructor|reflexivity].
  - cbn [Dict.keys List.map fst] in Hnd. inversion Hnd as [|? ? Hnotin Hnd']; subst.
    cbn [Dict.remove keqb EqKey_string].
    destruct (String.eqb_spec k0 p) as [->|Hne].
    + split; [assumption|].
      destruct (Dict.get p fs) as [w|] eqn:E; [|reflexivity].
      exfalso. apply Hnotin. apply get_in in E.
      change p with (fst (p, w)). now apply List.in_map.
    + destruct (IH Hnd') as [H1 H2].
      cbn [Dict.keys List.map fst Dict.get keqb EqKey_string].
      destruct (String.eqb_spec k0 p); [contradiction|].
      split; [|assumption]. constructor; [|assumption].
      intro Hin. apply Hnotin. clear - Hin.
      induction fs as [|[k1 v1] fs IH]; [destruct Hin|].
      cbn [Dict.remove keqb EqKey_string] in Hin.
      destruct (String.eqb k1 p); [now right|].
      destruct Hin as [E|Hin]; [now left|right; now apply IH].
Qed.

Lemma os_remove_existing (p : string) (fs : store) :
  NoDup (Dict.keys fs) -> exists_ fs p = true ->
  os_remove p fs = (Dict.remove p fs, Ok tt) /\
  NoDup (Dict.keys (Dict.remove p fs)) /\
  exists_ (Dict.remove p fs) p = false /\
  forall q, q <> p -> Dict.get q (Dict.remove p fs) = Dict.get q fs.
Proof.
  intros Hnd Hex. unfold os_remove. rewrite Hex.
  destruct (keys_remove_store p fs Hnd) as [H1 H2].
  repeat split; try assumption.
  - unfold exists_, Dict.mem. now rewrite H2.
  - intros q Hq. now apply get_remove_other.
Qed.

Lemma remove_staged_ok (files : list (string * string)) :
  forall fs,
    NoDup (Dict.keys fs) -> NoDup (paths_of files) ->
    (forall p, In p (paths_of files) -> exists_ fs p = true) ->
    exists fs',
      remove_staged files fs = (fs', Ok tt) /\
      (forall p, In p (paths_of files) -> exists_ fs' p = false) /\
      (forall q, ~ In q (paths_of files) -> Dict.get q fs' = Dict.get q fs).
Proof.
  induction files as [|[dep tas] files IH]; intros fs Hnd Hdist Hex.
  - exists fs. split; [reflexivity|]. split; [intros p []|reflexivity].
  - cbn [paths_of List.map List.concat fst snd app] in Hdist, Hex.
    fold (paths_of files) in Hdist, Hex.
    inversion Hdist as [|? ? Hd1 Hdist1]; subst.
    inversion Hdist1 as [|? ? Hd2 Hdist2]; subst.
    destruct (os_remove_existing dep fs Hnd (Hex dep (or_introl eq_refl)))
      as (Hr1 & Hnd1 & Hgone1 & Hoth1).
    assert (Hex_tas : exists_ (Dict.remove dep fs) tas = true).
    { unfold exists_, Dict.mem. rewrite Hoth1.
      - apply (Hex tas). right. now left.
      - intro E. apply Hd1. subst. now left. }
    destruct (os_remove_existing tas _ Hnd1 Hex_tas) as (Hr2 & Hnd2 & Hgone2 & Hoth2).
    destruct (IH (Dict.remove tas (Dict.remove dep fs)) Hnd2 Hdist2)
      as (fs' & Hrun & Hgone & Hoth).
    { intros p Hp. unfold exists_, Dict.mem. rewrite Hoth2, Hoth1.
      - apply (Hex p). right. now right.
      - intro E. subst. first [now apply Hd2 | apply Hd1; now right].
      - intro E. subst. first [now apply Hd2 | apply Hd1; now right]. }
    exists fs'. split; [|split].
    + cbn [remove_staged]. unfold io_bind. now rewrite Hr1, Hr2.
    + cbn [paths_of List.map List.concat fst snd app]. fold (paths_of files).
      intros p [<-|[<-|Hp]].
      * unfold exists_, Dict.mem. rewrite Hoth by (intro H; apply Hd1; now right).
        rewrite Hoth2 by (intro E; apply Hd1; subst; now left).
        exact Hgone1.
      * unfold exists_, Dict.mem. rewrite Hoth by assumption. exact Hgone2.
      * now apply Hgone.
    + cbn [paths_of List.map List.concat fst snd app]. fold (paths_of files).
      intros q Hq. rewrite Hoth by (intro H; apply Hq; right; now right).
      rewrite Hoth2 by (intro E; apply Hq; subst; right; now left).
      apply Hoth1. intro E. apply Hq. subst. now left.
Qed.

(** X26.  The loop that removes the recorded files removes every one of
    them and no other file, when they are all there; a recorded file that
    is not there stops it with the error of a missing file. *)
Theorem recorded_files_removed (files : list (string * string)) (fs : store) :
  NoDup (Dict.keys fs) -> NoDup (paths_of files) ->
  ((forall p, In p (paths_of files) -> exists_ fs p = true) ->
   exists fs',
     remove_staged files fs = (fs', Ok tt) /\
     (forall p, In p (paths_of files) -> exists_ fs' p = false) /\
     (forall q, ~ In q (paths_of files) -> Dict.get q fs' = Dict.get q fs)) /\
  (forall dep tas rest, files = (dep, tas) :: rest -> exists_ fs dep = false ->
     remove_staged files fs = (fs, Raise (FileNotFoundError dep))).
Proof.
  intros Hnd Hdist. split.
  - now apply remove_staged_ok.
  - intros dep tas rest -> Hmiss. cbn [remove_staged]. unfold io_bind, os_remove.
    now rewrite Hmiss.
Qed.

Lemma recorded_files_removed_witness :
  exists fs',
    remove_staged [("/t/a.dep", "/t/a.tas")]
                  [("/t/a.dep", [x01]); ("/data/keep.dep", []); ("/t/a.tas", [x02])]
    = (fs', Ok tt) /\
    exists_ fs' "/t/a.tas" = false /\
    Dict.get "/data/keep.dep" fs' = Some [].
Proof.
  destruct (proj1 (recorded_files_removed
                     [("/t/a.dep", "/t/a.tas")]
                     [("/t/a.dep", [x01]); ("/data/keep.dep", []); ("/t/a.tas", [x02])]
                     ltac:(repeat constructor; simpl; intuition discriminate)
                     ltac:(repeat constructor; simpl; intuition discriminate)))
    as (fs' & Hrun & Hgone & Hkeep).
  - intros p [<-|[<-|[]]]; reflexivity.
  - exists fs'. split; [exact Hrun|]. split.
    + apply Hgone. simpl. tauto.
    + rewrite Hkeep; [reflexivity|]. simpl. intuition discriminate.
Defined.

(** ** The encoder and the wrapper on examples *)


Lemma encoder_refuses_before_writing_witness :
  Examples.encode Noted.stacked None (Some "a") [("/data/keep.dep", [x01])]
  = ([("/data/keep.dep", [x01])], Raise Not2D).
Proof.
  apply (proj2 (encoder_refuses_before_writing LittleEndian Reference.float_repr
                  Reference.WHITEBOX_TEMP_DIR Noted.stacked None (Some "a")
                  [("/data/keep.dep", [x01])])
               (normal_form (Dict.set "stacks" (VInt 3) Noted.attributes) "float")).
  - vm_compute. reflexivity.
  - right. vm_compute. reflexivity.
Defined.

Lemma encoder_touches_only_the_pair_witness :
  Dict.get "/data/keep.dep"
    (fst (Examples.encode Noted.array None (Some "a") [("/data/keep.dep", [x01])]))
  = Some [x01].
Proof.
  apply (encoder_touches_only_the_pair LittleEndian Reference.float_repr
           Reference.WHITEBOX_TEMP_DIR Noted.array None (Some "a")
           [("/data/keep.dep", [x01])] "/data/keep.dep").
  - intro H. vm_compute in H. discriminate.
  - intro H. vm_compute in H. discriminate.
Defined.

Lemma written_sizes_witness :
  body_length (fst (Examples.encode Noted.array None (Some "a") [])) (Noted.base ++ ".tas")
    = Some 100%nat /\
  header_line_count (fst (Examples.encode Noted.array None (Some "a") [])) (Noted.base ++ ".dep")
    = Some 23%nat.
Proof.
  assert (Henc : Examples.encode Noted.array None (Some "a") []
                 = (fst (Examples.encode Noted.array None (Some "a") []),
                    Ok (Noted.base ++ ".dep", Noted.base ++ ".tas")))
    by (vm_compute; reflexivity).
  assert (Hn : normalized Noted.array = Ok (normal_form Noted.attributes "float"))
    by (vm_compute; reflexivity).
  assert (Hm : Dict.get "metadata_entry" (normal_form Noted.attributes "float")
               = Some (VStr ("made by hand" ++ NL ++ " checked ")))
    by (vm_compute; reflexivity).
  destruct (written_sizes LittleEndian Reference.float_repr Reference.WHITEBOX_TEMP_DIR
              Noted.array None (Some "a") [] _ _ _ _ Henc Hn Hm) as [Hbody Hhead].
  split.
  - apply Hbody. vm_compute. reflexivity.
  - apply Hhead. vm_compute. reflexivity.
Defined.

Lemma optional_fields_round_trip_witness :
  exists da,
    Examples.decode (fst (Examples.encode Noted.array None (Some "a") []))
                    (Noted.base ++ ".dep") None = Ok da /\
    Dict.get "Nodata" (attrs da) = Some (VStr "-9999") /\
    Dict.get "Byte Order" (attrs da) = Some (VStr "LITTLE_ENDIAN").
Proof.
  assert (Henc : Examples.encode Noted.array None (Some "a") []
                 = (fst (Examples.encode Noted.array None (Some "a") []),
                    Ok (Noted.base ++ ".dep", Noted.base ++ ".tas")))
    by (vm_compute; reflexivity).
  assert (Hn : normalized Noted.array = Ok (normal_form Noted.attributes "float"))
    by (vm_compute; reflexivity).
  assert (Hrt : round_trippable Reference.float_repr (normal_form Noted.attributes "float")
                  (values Noted.array) = true)
    by (vm_compute; reflexivity).
  destruct (optional_fields_round_trip LittleEndian Reference.float_repr
              Reference.np_linspace Reference.WHITEBOX_TEMP_DIR
              Noted.array None (Some "a") [] _ _ _ Henc Hn Hrt)
    as (da & Hdec & _ & _ & Htexts & Horder).
  exists da. split; [exact Hdec|]. split; [|exact Horder].
  rewrite (Htexts "nodata" "Nodata") by (simpl; tauto).
  vm_compute. reflexivity.
Defined.

Lemma metadata_round_trip_witness :
  exists da,
    Examples.decode (fst (Examples.encode Noted.array None (Some "a") []))
                    (Noted.base ++ ".dep") None = Ok da /\
    Dict.get "Metadata Entry" (attrs da) = Some (VStr ("MADE BY HAND" ++ NL ++ "CHECKED")).
Proof.
  assert (Henc : Examples.encode Noted.array None (Some "a") []
                 = (fst (Examples.encode Noted.array None (Some "a") []),
                    Ok (Noted.base ++ ".dep", Noted.base ++ ".tas")))
    by (vm_compute; reflexivity).
  assert (Hn : normalized Noted.array = Ok (normal_form Noted.attributes "float"))
    by (vm_compute; reflexivity).
  assert (Hrt : round_trippable Reference.float_repr (normal_form Noted.attributes "float")
                  (values Noted.array) = true)
    by (vm_compute; reflexivity).
  assert (Hm : Dict.get "metadata_entry" (normal_form Noted.attributes "float")
               = Some (VStr ("made by hand" ++ NL ++ " checked ")))
    by (vm_compute; reflexivity).
  destruct (metadata_round_trip LittleEndian Reference.float_repr
              Reference.np_linspace Reference.WHITEBOX_TEMP_DIR
              Noted.array None (Some "a") [] _ _ _ _ Henc Hn Hrt Hm)
    as (da & Hdec & Hmeta).
  exists da. split; [exact Hdec|].
  rewrite Hmeta. vm_compute. reflexivity.
Defined.

Lemma staging_without_arrays_witness :
  exists st,
    Examples.stage Noted.plain_call [("/data/keep.dep", [x01])]
      = ([("/data/keep.dep", [x01])], Ok st) /\
    Dict.get "i" (kwargs st) = Some (KStr "/home/user/a.dep") /\
    Dict.get "output" (load_afterwards st) = Some "/home/user/out.dep".
Proof.
  destruct (staging_without_arrays LittleEndian Reference.float_repr Reference.abspath
              Reference.WHITEBOX_TEMP_DIR Reference.dataset_attribute Noted.plain_call [("/data/keep.dep", [x01])])
    as (st & Hrun & _ & _ & Hkw & Hload).
  - vm_compute. reflexivity.
  - unfold Noted.plain_call. repeat constructor; simpl; intuition discriminate.
  - exists st. split; [exact Hrun|]. split.
    + rewrite Hkw by discriminate. vm_compute. reflexivity.
    + rewrite Hload by discriminate. vm_compute. reflexivity.
Defined.

Lemma nothing_to_load_witness :
  exists st,
    Examples.stage Noted.plain_call_without_output [] = ([], Ok st) /\
    Examples.load st 0 [] = ([], Ok (Returned 0)).
Proof.
  destruct (nothing_to_load LittleEndian Reference.float_repr Reference.np_linspace
              Reference.abspath Reference.WHITEBOX_TEMP_DIR Reference.dataset_attribute
              Reference.xr_Dataset Noted.plain_call_without_output [])
    as (st & Hrun & Hload).
  - vm_compute. reflexivity.
  - unfold Noted.plain_call_without_output. repeat constructor; simpl; intuition discriminate.
  - intros k v [[= <- <-]|[[= <- <-]|[]]]; reflexivity.
  - exists st. split; [exact Hrun|]. apply Hload.
Defined.

Lemma staging_one_array_witness :
  exists st,
    Examples.stage [("i", KDataArray Noted.array)] []
      = (fst (Examples.encode Noted.array None (Some "i") []), Ok st) /\
    Dict.get "i" (kwargs st) = Some (KStr "/home/user/.whitebox_tools_tempdir/i.dep") /\
    load_afterwards st = [("i", "/home/user/.whitebox_tools_tempdir/i-output.dep")].
Proof.
  assert (Henc : Examples.encode Noted.array None (Some "i") []
                 = (fst (Examples.encode Noted.array None (Some "i") []),
                    Ok ("/home/user/.whitebox_tools_tempdir/i.dep",
                        "/home/user/.whitebox_tools_tempdir/i.tas")))
    by (vm_compute; reflexivity).
  destruct (staging_one_array LittleEndian Reference.float_repr Reference.abspath
              Reference.WHITEBOX_TEMP_DIR Reference.dataset_attribute "i" Noted.array [] _ _ eq_refl Henc)
    as (st & Hrun & Hk & _ & Hload).
  exists st. split; [exact Hrun|]. split; [exact Hk|].
  rewrite Hload. vm_compute. reflexivity.
Defined.
